(** * autopkg-runner: the Fleet GitOps uploader and the [update_gitops] script

    A shallow embedding of

    - [fleet-gitops-uploader/fleetGitOpsUploader.py] (modules [Uploader] and
      [UploaderNames]),
    - [scripts/update_gitops.py] (module [Script]) and
    - [overrides/FleetImporter.py] (module [Importer]),

    together with the Python values, the file store and the text functions
    the programs rest on.

    Conventions.  A Python [str] is a Rocq [string] whose characters are the
    code points U+0000..U+00FF.  A Python exception is a value of [exn]; a
    function that may raise returns a [result].  The libraries the programs
    call (PyYAML, ruamel.yaml, requests, the git command line) are not part of
    the repository: they enter as section variables. *)

From Stdlib Require Import ZArith Ascii String List Bool Lia.
From stdpp Require Import base option list gmap strings pretty.

Local Open Scope string_scope.
Local Open Scope list_scope.

(** ** Text functions *)

Module Text.

Definition code (c : ascii) : N := N_of_ascii c.

Definition dash : ascii := "-"%char.

Definition is_dash (c : ascii) : bool := Ascii.eqb c dash.

(** The character class [[a-z0-9]]. *)
Definition is_slug_char (c : ascii) : bool :=
  let n := code c in
  ((97 <=? n) && (n <=? 122) || (48 <=? n) && (n <=? 57))%N.

(** The complemented class [[^a-z0-9]]. *)
Definition not_slug_char (c : ascii) : bool := negb (is_slug_char c).

(** [str.lower] on one code point below U+0100: [A-Z] and the Latin-1
    capitals U+00C0..U+00DE (the multiplication sign U+00D7 apart) move up
    by 32, every other code point is its own lower case. *)
Definition lower_char (c : ascii) : ascii :=
  let n := code c in
  if ((65 <=? n) && (n <=? 90)
      || (192 <=? n) && (n <=? 222) && negb (n =? 215))%N
  then ascii_of_N (n + 32) else c.

Fixpoint lower (s : string) : string :=
  match s with
  | EmptyString => EmptyString
  | String c t => String (lower_char c) (lower t)
  end.

(** [re.sub(r"[cls]+", "-", s)] for a character class [cls]: scanning from
    the left, every maximal run of characters of the class is replaced by
    one ["-"].  [in_run] tells that the previous character was of the
    class, so that the run's ["-"] is already written. *)
Fixpoint sub_runs (cls : ascii -> bool) (in_run : bool) (s : string) : string :=
  match s with
  | EmptyString => EmptyString
  | String c t =>
      if cls c
      then (if in_run then sub_runs cls true t
            else String dash (sub_runs cls true t))
      else String c (sub_runs cls false t)
  end.

Definition re_sub_class_plus (cls : ascii -> bool) (s : string) : string :=
  sub_runs cls false s.

(** [s.lstrip(chars)], [s.rstrip(chars)] and [s.strip(chars)] for the set of
    characters [cls]. *)
Fixpoint lstrip (cls : ascii -> bool) (s : string) : string :=
  match s with
  | EmptyString => EmptyString
  | String c t => if cls c then lstrip cls t else s
  end.

Fixpoint rstrip (cls : ascii -> bool) (s : string) : string :=
  match s with
  | EmptyString => EmptyString
  | String c t =>
      match rstrip cls t with
      | EmptyString => if cls c then EmptyString else String c EmptyString
      | t' => String c t'
      end
  end.

Definition strip (cls : ascii -> bool) (s : string) : string :=
  rstrip cls (lstrip cls s).

(** [s.strip("-")]. *)
Definition strip_dash (s : string) : string := strip is_dash s.

(** The characters [str.strip()] removes: the code points below U+0100 for
    which [str.isspace] holds. *)
Definition is_space (c : ascii) : bool :=
  let n := code c in
  ((9 <=? n) && (n <=? 13) || (28 <=? n) && (n <=? 32)
   || (n =? 133) || (n =? 160))%N.

(** [s.strip()]. *)
Definition strip_space (s : string) : string := strip is_space s.

(** [bool(s)] for a string. *)
Definition nonempty (s : string) : bool :=
  match s with EmptyString => false | _ => true end.

(** Python's truth value of a string, as in [s or "software"]. *)
Definition str_or (s d : string) : string :=
  match s with EmptyString => d | _ => s end.

End Text.

(** ** Python values, dictionaries and exceptions *)

Module Py.

(** The values [yaml.safe_load], [ruamel.yaml] and [Response.json] hand
    back: [None], booleans, integers, strings, lists, and dictionaries with
    string keys.  A dictionary keeps its keys in insertion order. *)
#[local] Set Warnings "-register-all".

Inductive value : Type :=
| VNone
| VBool (b : bool)
| VInt (n : Z)
| VStr (s : string)
| VList (l : list value)
| VDict (d : list (string * value)).

Inductive exn : Type :=
| ProcessorError (msg : string)
| TypeError
| AttributeError
| KeyError
| IndexError
| FileNotFoundError
| IsADirectoryError
| NotADirectoryError
| FileExistsError
| YAMLError
| JSONDecodeError
| re_error
| RequestException.

Inductive result (A : Type) : Type :=
| Ok (a : A)
| Raise (e : exn).
Arguments Ok {A} a.
Arguments Raise {A} e.

#[global] Instance result_ret : MRet result := fun A a => Ok a.
#[global] Instance result_bind : MBind result := fun A B f m =>
  match m with Ok a => f a | Raise e => Raise e end.

(** A computation over a state [S] that may raise; the state reached when
    the exception is raised is kept, as Python keeps side effects. *)
Definition M (S A : Type) : Type := S -> result A * S.

#[global] Instance M_ret {S} : MRet (M S) := fun A a st => (Ok a, st).
#[global] Instance M_bind {S} : MBind (M S) := fun A B f m st =>
  match m st with
  | (Ok a, st') => f a st'
  | (Raise e, st') => (Raise e, st')
  end.

Definition raise {S A} (e : exn) : M S A := fun st => (Raise e, st).
Definition lift {S A} (r : result A) : M S A := fun st => (r, st).

#[global] Instance result_fmap : FMap result := fun A B f m =>
  match m with Ok a => Ok (f a) | Raise e => Raise e end.

(** Truth value testing: [bool(v)]. *)
Definition truthy (v : value) : bool :=
  match v with
  | VNone => false
  | VBool b => b
  | VInt n => negb (n =? 0)%Z
  | VStr s => negb (String.eqb s "")
  | VList l => match l with [] => false | _ => true end
  | VDict d => match d with [] => false | _ => true end
  end.

(** [a or b]. *)
Definition py_or (a b : value) : value := if truthy a then a else b.

Definition is_none (v : value) : bool :=
  match v with VNone => true | _ => false end.

(** [s == v] for a string [s]. *)
Definition str_eq (s : string) (v : value) : bool :=
  match v with VStr t => String.eqb s t | _ => false end.

(** [s in l] for a string [s] and a list [l] of values. *)
Definition str_in (s : string) (l : list value) : bool := existsb (str_eq s) l.

(** *** Dictionaries *)

Definition dict : Type := list (string * value).

Fixpoint dict_get (d : dict) (k : string) : option value :=
  match d with
  | [] => None
  | (k', v) :: t => if String.eqb k k' then Some v else dict_get t k
  end.

Definition dict_mem (d : dict) (k : string) : bool :=
  match dict_get d k with Some _ => true | None => false end.

(** [d[k] = v]: an existing key keeps its place, a new key goes last. *)
Fixpoint dict_set (d : dict) (k : string) (v : value) : dict :=
  match d with
  | [] => [(k, v)]
  | (k', v') :: t =>
      if String.eqb k k' then (k', v) :: t else (k', v') :: dict_set t k v
  end.

(** [d.setdefault(k, v)]: the dictionary afterwards and the value returned. *)
Definition dict_setdefault (d : dict) (k : string) (v : value) : dict * value :=
  match dict_get d k with
  | Some v' => (d, v')
  | None => (dict_set d k v, v)
  end.

(** *** Operations on arbitrary values *)

Fixpoint str_contains (k s : string) : bool :=
  String.prefix k s
  || match s with EmptyString => false | String _ t => str_contains k t end.

(** [k in v] for a string [k]. *)
Definition py_contains (k : string) (v : value) : result bool :=
  match v with
  | VDict d => Ok (dict_mem d k)
  | VList l => Ok (str_in k l)
  | VStr s => Ok (str_contains k s)
  | _ => Raise TypeError
  end.

(** [v[k]] for a string [k]. *)
Definition py_getitem (v : value) (k : string) : result value :=
  match v with
  | VDict d => match dict_get d k with Some x => Ok x | None => Raise KeyError end
  | _ => Raise TypeError
  end.

(** [v[k] = x] for a string [k]: the value [v] afterwards. *)
Definition py_setitem (v : value) (k : string) (x : value) : result value :=
  match v with
  | VDict d => Ok (VDict (dict_set d k x))
  | _ => Raise TypeError
  end.

(** [v.get(k)]. *)
Definition py_get (v : value) (k : string) : result value :=
  match v with
  | VDict d => Ok (default VNone (dict_get d k))
  | _ => Raise AttributeError
  end.

(** [v.setdefault(k, x)]: the value [v] afterwards and the value returned. *)
Definition py_setdefault (v : value) (k : string) (x : value)
  : result (value * value) :=
  match v with
  | VDict d => let '(d', r) := dict_setdefault d k x in Ok (VDict d', r)
  | _ => Raise AttributeError
  end.

Fixpoint chars (s : string) : list value :=
  match s with
  | EmptyString => []
  | String c t => VStr (String c EmptyString) :: chars t
  end.

(** The elements [for p in v] runs over. *)
Definition py_iter (v : value) : result (list value) :=
  match v with
  | VList l => Ok l
  | VDict d => Ok (map (fun kv => VStr (fst kv)) d)
  | VStr s => Ok (chars s)
  | _ => Raise TypeError
  end.

(** [v.update(items)]: the value [v] afterwards. *)
Definition py_update (v : value) (items : dict) : result value :=
  match v with
  | VDict d => Ok (VDict (fold_left (fun d kv => dict_set d (fst kv) (snd kv)) items d))
  | _ => Raise AttributeError
  end.

(** [v.append(x)]: the value [v] afterwards. *)
Definition py_append (v : value) (x : value) : result value :=
  match v with
  | VList l => Ok (VList (l ++ [x]))
  | _ => Raise AttributeError
  end.

(** [v[0]]. *)
Definition py_first (v : value) : result value :=
  match v with
  | VList (x :: _) => Ok x
  | VList [] => Raise IndexError
  | VStr (String c _) => Ok (VStr (String c EmptyString))
  | VStr EmptyString => Raise IndexError
  | VDict _ => Raise KeyError
  | _ => Raise TypeError
  end.

End Py.

(** ** The file store *)

Module FS.
Import Py.

(** A path is the list of its components below the root. *)
Abbreviation path := (list string).

Inductive node (C : Type) : Type :=
| Dir
| File (c : C).
Arguments Dir {C}.
Arguments File {C} c.

(** The directory a path lies in: [Path.parent]. *)
Definition parent (p : path) : path := removelast p.

(** [Path.name]: the last component. *)
Definition name (p : path) : string := List.last p "".

Section Store.
Context {C : Type}.

(** [Path.exists]. *)
Definition exists_ (fs : gmap path (node C)) (p : path) : bool :=
  match p with
  | [] => true
  | _ => match fs !! p with Some _ => true | None => false end
  end.

Definition is_dir (fs : gmap path (node C)) (p : path) : bool :=
  match p with
  | [] => true
  | _ => match fs !! p with Some Dir => true | _ => false end
  end.

(** [Path.is_file]. *)
Definition is_file (fs : gmap path (node C)) (p : path) : bool :=
  match fs !! p with Some (File _) => true | _ => false end.

(** Reading an open file: [path.open("r")] and [read]. *)
Definition read_file (fs : gmap path (node C)) (p : path) : result C :=
  match p with
  | [] => Raise IsADirectoryError
  | _ =>
      match fs !! p with
      | Some (File c) => Ok c
      | Some Dir => Raise IsADirectoryError
      | None => Raise FileNotFoundError
      end
  end.

(** [path.open("w")] followed by writing [c]: the file is created or
    truncated; its directory has to be there. *)
Definition write_file (fs : gmap path (node C)) (p : path) (c : C)
  : result (gmap path (node C)) :=
  match p with
  | [] => Raise IsADirectoryError
  | _ =>
      match fs !! p with
      | Some Dir => Raise IsADirectoryError
      | _ =>
          if is_dir fs (parent p) then Ok (<[p := File c]> fs)
          else if exists_ fs (parent p) then Raise NotADirectoryError
          else Raise FileNotFoundError
      end
  end.

(** [Path.mkdir(parents=True, exist_ok=True)], walking down from the root:
    [done] is the part of the path already known to be a directory, [todo]
    what is left of it. *)
Fixpoint mkdir_from (fs : gmap path (node C)) (done todo : path)
  : result (gmap path (node C)) :=
  match todo with
  | [] => Ok fs
  | c :: rest =>
      let here := done ++ [c] in
      match fs !! here with
      | None => mkdir_from (<[here := Dir]> fs) here rest
      | Some Dir => mkdir_from fs here rest
      | Some (File _) =>
          match rest with
          | [] => Raise FileExistsError
          | _ => Raise NotADirectoryError
          end
      end
  end.

Definition mkdir_parents (fs : gmap path (node C)) (p : path)
  : result (gmap path (node C)) :=
  mkdir_from fs [] p.

End Store.

End FS.

(** ** fleetGitOpsUploader.py *)

Module Uploader.
Import Text Py FS.

(** [FleetGitOpsUploader._slugify]. *)
Definition _slugify (text : string) : string :=
  let s := lower text in
  let s := re_sub_class_plus not_slug_char s in
  let s := strip_dash (re_sub_class_plus is_dash s) in
  str_or s "software".

(** The arguments of [_write_or_update_package_yaml] the document is built
    from ([fleet_title_id] and [fleet_installer_id] are not used by it). *)
Record package_fields : Type := {
  software_title : string;
  version : string;
  platform : string;
  hash_sha256 : value;
  self_service : bool;
  labels_include_any : list string;
  labels_exclude_any : list string;
  automatic_install : bool;
  pre_install_query : string;
  install_script : string;
  uninstall_script : string;
  post_install_script : string;
}.

(** [pkg_block[k] = v] when [c] holds. *)
Definition set_if (c : bool) (k : string) (v : value) (d : dict) : dict :=
  if c then dict_set d k v else d.

Definition str_list (l : list string) : value := VList (map VStr l).

Definition nonempty_list {A} (l : list A) : bool :=
  match l with [] => false | _ => true end.

(** [platform in ("darwin", "macos")]. *)
Definition is_macos (platform : string) : bool :=
  String.eqb platform "darwin" || String.eqb platform "macos".

(** The dictionary [pkg_block] of [_write_or_update_package_yaml], built in
    the order of the source's statements. *)
Definition pkg_block (f : package_fields) : dict :=
  let b := [("name", VStr (software_title f));
            ("version", VStr (version f));
            ("platform", VStr (platform f))] in
  let b := set_if (truthy (hash_sha256 f)) "hash_sha256" (hash_sha256 f) b in
  let b := set_if (self_service f) "self_service" (VBool true) b in
  let b := set_if (nonempty_list (labels_include_any f))
             "labels_include_any" (str_list (labels_include_any f)) b in
  let b := set_if (nonempty_list (labels_exclude_any f))
             "labels_exclude_any" (str_list (labels_exclude_any f)) b in
  let b := set_if (automatic_install f && is_macos (platform f))
             "automatic_install" (VBool true) b in
  let b := set_if (nonempty (pre_install_query f)) "pre_install_query"
             (VDict [("query", VStr (pre_install_query f))]) b in
  let b := set_if (nonempty (install_script f)) "install_script"
             (VDict [("contents", VStr (install_script f))]) b in
  let b := set_if (nonempty (uninstall_script f)) "uninstall_script"
             (VDict [("contents", VStr (uninstall_script f))]) b in
  let b := set_if (nonempty (post_install_script f)) "post_install_script"
             (VDict [("contents", VStr (post_install_script f))]) b in
  b.

(** [pkg_ref], the normalisation local to [_ensure_team_yaml_has_package]. *)
Definition pkg_ref (p : value) : value :=
  match p with
  | VStr _ => p
  | VDict d => match dict_get d "path" with Some v => v | None => VStr "" end
  | _ => VStr ""
  end.

(** [k not in v or v[k] is None]. *)
Definition missing_or_none (k : string) (v : value) : result bool :=
  b ← py_contains k v;
  if negb b then Ok true else x ← py_getitem v k; Ok (is_none x).

Section Yaml.
(** PyYAML: a file holds a [C]; [safe_load] parses it ([None] when it is
    malformed), [safe_dump sort_keys] serialises a value. *)
Context {C : Type}.
Variable safe_load : C -> option value.
Variable safe_dump : bool -> value -> C.

Definition _read_yaml (fs : gmap path (node C)) (p : path) : result value :=
  if negb (exists_ fs p) then Ok (VDict [])
  else
    c ← read_file fs p;
    match safe_load c with
    | Some v => Ok (py_or v (VDict []))
    | None => Raise YAMLError
    end.

Definition _write_yaml (fs : gmap path (node C)) (p : path) (data : value)
  : result (gmap path (node C)) :=
  write_file fs p (safe_dump false data).

Definition _write_or_update_package_yaml
  (fs : gmap path (node C)) (pkg_yaml_path : path) (f : package_fields)
  : result (gmap path (node C)) :=
  _ ← _read_yaml fs pkg_yaml_path;
  let data := VDict [("package", VDict (pkg_block f))] in
  _write_yaml fs pkg_yaml_path data.

(** The result is the value returned together with the file store
    afterwards. *)
Definition _ensure_team_yaml_has_package
  (fs : gmap path (node C)) (team_yaml_path : path) (ref_path : string)
  : result (bool * gmap path (node C)) :=
  y ← _read_yaml fs team_yaml_path;
  c ← missing_or_none "software" y;
  y ← (if c : bool then py_setitem y "software" (VDict []) else Ok y);
  sw ← py_getitem y "software";
  c ← missing_or_none "packages" sw;
  sw ← (if c : bool then py_setitem sw "packages" (VList []) else Ok sw);
  pkgs ← py_getitem sw "packages";
  entries ← py_iter pkgs;
  let existing := map pkg_ref entries in
  if negb (str_in ref_path existing) then
    pkgs ← py_append pkgs (VDict [("path", VStr ref_path)]);
    sw ← py_setitem sw "packages" pkgs;
    y ← py_setitem y "software" sw;
    fs' ← _write_yaml fs team_yaml_path y;
    Ok (true, fs')
  else Ok (false, fs).

(** The entries of [software.packages] in the document stored at a path,
    as [_read_yaml] sees it; no entries when there is no such list. *)
Definition team_packages (fs : gmap path (node C)) (p : path) : list value :=
  match _read_yaml fs p with
  | Ok (VDict d) =>
      match dict_get d "software" with
      | Some (VDict sw) =>
          match dict_get sw "packages" with
          | Some (VList l) => l
          | _ => []
          end
      | _ => []
      end
  | _ => []
  end.

End Yaml.

(** *** The git command line *)

(** What [subprocess.run] reports of a finished process. *)
Record completed : Type := {
  returncode : Z;
  stdout : string;
  stderr : string;
}.

(** The state the git steps run in: the world the [git] program acts on,
    and the list of the commands issued so far. *)
Record git_state (W : Type) : Type := {
  world : W;
  issued : list (list string);
}.
Arguments world {W} g.
Arguments issued {W} g.

(** [f"feat(software): {software_title} {returned_version} [{software_slug}]"]. *)
Definition commit_msg (software_title returned_version software_slug : string)
  : string :=
  "feat(software): " +:+ software_title +:+ " " +:+ returned_version
    +:+ " [" +:+ software_slug +:+ "]".

Section Git.
(** [git args cwd] runs the program on the world. *)
Context {W : Type}.
Variable git : list string -> option path -> W -> completed * W.

Definition _git (args : list string) (cwd : option path)
  : M (git_state W) string := fun st =>
  let '(proc, w) := git args cwd (world st) in
  let st' := {| world := w; issued := issued st ++ [args] |} in
  if negb (returncode proc =? 0)%Z
  then (Raise (ProcessorError
                 ("git " +:+ String.concat " " args +:+ " failed: "
                    +:+ strip_space (stderr proc))), st')
  else (Ok (strip_space (stdout proc)), st').

Definition _git_safe_commit (message : string) (cwd : option path)
  : M (git_state W) unit :=
  status ← _git ["status"; "--porcelain"] cwd;
  if nonempty status
  then _ ← _git ["commit"; "-m"; message] cwd; mret tt
  else mret tt.

(** The commit step of [main]: the message is composed and handed to
    [_git_safe_commit]. *)
Definition main_commit_step
  (software_title returned_version software_slug : string) (repo_dir : path)
  : M (git_state W) unit :=
  let commit_msg := commit_msg software_title returned_version software_slug in
  _git_safe_commit commit_msg (Some repo_dir).

End Git.

(** *** The Fleet and GitHub services *)

(** A [requests.Response]: [json] is what [r.json()] returns, [None] when
    the body is not JSON and the call raises. *)
Record response : Type := {
  status_code : Z;
  text : string;
  json : option value;
}.

(** A call of [requests.post] or [requests.get] returns a response, or
    raises (a timeout, a refused connection). *)
Inductive outcome : Type :=
| Response (r : response)
| Failed.

(** The requests the processor sends, by endpoint. *)
Inductive request : Type :=
| UploadPackage (base_url token : string) (pkg : path)
    (data : list (string * string))
| CreatePull (github_repo token : string) (payload : dict)
| SearchIssues (token q : string)
| AddLabels (github_repo token : string) (number : value)
    (labels : list string).

Record http_state (R : Type) : Type := {
  remote : R;
  sent : list request;
}.
Arguments remote {R} h.
Arguments sent {R} h.

(** [r.ok]. *)
Definition ok (r : response) : bool :=
  negb ((400 <=? status_code r) && (status_code r <? 600))%Z.

(** [r.json()]. *)
Definition response_json (r : response) : result value :=
  match json r with Some v => Ok v | None => Raise JSONDecodeError end.

(** [json.dumps(bool(b)).lower()]. *)
Definition json_bool (b : bool) : string := if b then "true" else "false".

Section Http.
Context {R : Type}.
Variable send : request -> R -> outcome * R.

Definition requests_send (rq : request) : M (http_state R) response :=
  fun st =>
    let '(o, r) := send rq (remote st) in
    let st' := {| remote := r; sent := sent st ++ [rq] |} in
    match o with
    | Response resp => (Ok resp, st')
    | Failed => (Raise RequestException, st')
    end.

(** [pkg_is_file] tells whether [open(pkg_path, "rb")] succeeds. *)
Definition _fleet_upload_package
  (base_url token : string) (pkg_path : path) (pkg_is_file : bool)
  (team_id : Z) (self_service automatic_install : bool)
  (labels_include_any labels_exclude_any : list string)
  (install_script uninstall_script pre_install_query post_install_script
     : string)
  : M (http_state R) value :=
  let form := [("team_id", pretty team_id);
               ("self_service", json_bool self_service)] in
  if nonempty_list labels_include_any && nonempty_list labels_exclude_any
  then raise (ProcessorError
         "Only one of labels_include_any or labels_exclude_any may be specified.")
  else if negb pkg_is_file then raise FileNotFoundError
  else
    let data := form in
    let data := if nonempty install_script
                then data ++ [("install_script", install_script)] else data in
    let data := if nonempty uninstall_script
                then data ++ [("uninstall_script", uninstall_script)] else data in
    let data := if nonempty pre_install_query
                then data ++ [("pre_install_query", pre_install_query)] else data in
    let data := if nonempty post_install_script
                then data ++ [("post_install_script", post_install_script)]
                else data in
    let data := if automatic_install
                then data ++ [("automatic_install", "true")] else data in
    let data := data ++ map (fun l => ("labels_include_any", l)) labels_include_any in
    let data := data ++ map (fun l => ("labels_exclude_any", l)) labels_exclude_any in
    resp ← requests_send (UploadPackage base_url token pkg_path data);
    if negb (status_code resp =? 200)%Z
    then raise (ProcessorError
           ("Fleet upload failed: " +:+ pretty (status_code resp) +:+ " "
              +:+ text resp))
    else lift (response_json resp).

(** The start of [main], from the check of the package file to the
    upload: [pkg_is_file] is [pkg_path.is_file()], [github_token] the
    token found in the environment, the other arguments the values read
    from it. *)
Definition main_upload_step
  (pkg_path : path) (pkg_is_file : bool) (github_token : string)
  (fleet_api_base fleet_token : string) (team_id : Z)
  (self_service automatic_install : bool)
  (labels_include_any labels_exclude_any : list string)
  (install_script uninstall_script pre_install_query post_install_script
     : string)
  : M (http_state R) value :=
  if negb pkg_is_file
  then raise (ProcessorError
         ("pkg_path not found: /" +:+ String.concat "/" pkg_path))
  else if negb (nonempty github_token)
  then raise (ProcessorError
         "GitHub token not provided (github_token or GITHUB_TOKEN env).")
  else
    _fleet_upload_package fleet_api_base fleet_token pkg_path pkg_is_file
      team_id self_service automatic_install
      labels_include_any labels_exclude_any
      install_script uninstall_script pre_install_query post_install_script.

Definition _find_existing_pr_url (repo token head base : string)
  : M (http_state R) value :=
  let q := "repo:" +:+ repo +:+ " is:pr is:open head:" +:+ head
             +:+ " base:" +:+ base in
  r ← requests_send (SearchIssues token q);
  if ok r then
    j ← lift (response_json r);
    items ← lift (py_get j "items");
    if truthy items then
      j ← lift (response_json r);
      items ← lift (py_getitem j "items");
      first ← lift (py_first items);
      lift (py_getitem first "html_url")
    else mret (VStr "")
  else mret (VStr "").

Definition _open_pull_request
  (github_repo github_token head base title body : string)
  (labels : list string)
  : M (http_state R) value :=
  let payload := [("title", VStr title); ("head", VStr head);
                  ("base", VStr base); ("body", VStr body);
                  ("maintainer_can_modify", VBool true)] in
  r ← requests_send (CreatePull github_repo github_token payload);
  if negb ((status_code r =? 201) || (status_code r =? 422))%Z
  then raise (ProcessorError
         ("PR creation failed: " +:+ pretty (status_code r) +:+ " " +:+ text r))
  else
    pr ← lift (response_json r);
    u ← lift (py_get pr "html_url");
    pr_url ← (if truthy u then mret u
              else _find_existing_pr_url github_repo github_token head base);
    apply ← (if nonempty_list labels && truthy pr_url
             then lift (py_contains "number" pr) else mret false);
    _ ← (if apply : bool then
           number ← lift (py_getitem pr "number");
           _ ← requests_send (AddLabels github_repo github_token number labels);
           mret tt
         else mret tt);
    mret (py_or pr_url (VStr "")).

End Http.

End Uploader.

(** ** scripts/update_gitops.py *)

Module Script.
Import Text Py FS.

(** [slugify]. *)
Definition slugify (name : string) : string :=
  strip_dash (re_sub_class_plus not_slug_char (lower name)).

(** [base / s] for a relative [s]: the components of [s] between slashes,
    the empty ones and ["."] dropped, are added to [base]. *)
Fixpoint split_slash (acc : string) (s : string) : list string :=
  match s with
  | EmptyString => [acc]
  | String c t =>
      if Ascii.eqb c "/"%char then acc :: split_slash EmptyString t
      else split_slash (acc +:+ String c EmptyString) t
  end.

Definition components (s : string) : list string :=
  filter (fun c => negb (String.eqb c "" || String.eqb c ".")) (split_slash "" s).

Definition path_join (base : path) (s : string) : path := base ++ components s.

(** *** The pattern [version_compare\(".*?"\)] *)

Definition dquote : ascii := "034"%char.
Definition newline : ascii := "010"%char.
Definition backslash : ascii := "092"%char.

(** The text the pattern starts with, and the text it ends with. *)
Definition vc_open : string := "version_compare(" +:+ String dquote EmptyString.
Definition vc_close : string := String dquote ")".

Fixpoint strip_prefix (p s : string) : option string :=
  match p, s with
  | EmptyString, _ => Some s
  | String a p', String b s' => if Ascii.eqb a b then strip_prefix p' s' else None
  | String _ _, EmptyString => None
  end.

(** The lazy [.*?] and the closing quote and parenthesis: the shortest
    stretch without a newline after which the text goes on with [vc_close];
    the result is that stretch and the text after [vc_close]. *)
Fixpoint lazy_close (s : string) : option (string * string) :=
  match strip_prefix vc_close s with
  | Some rest => Some (EmptyString, rest)
  | None =>
      match s with
      | EmptyString => None
      | String c t =>
          if Ascii.eqb c newline then None
          else match lazy_close t with
               | Some (lit, rest) => Some (String c lit, rest)
               | None => None
               end
      end
  end.

(** A match of the pattern at the start of [s]: the quoted literal and the
    text after the match. *)
Definition match_at (s : string) : option (string * string) :=
  match strip_prefix vc_open s with
  | Some after => lazy_close after
  | None => None
  end.

(** The text cut at the matches [re.sub] finds, from the left and without
    overlap: a character outside every match, or a match with its literal. *)
Inductive piece : Type :=
| Keep (c : ascii)
| Hit (literal : string).

(** [skip] counts the characters still covered by the match found last. *)
Fixpoint scan (skip : nat) (s : string) : list piece :=
  match s with
  | EmptyString => []
  | String c t =>
      match skip with
      | S k => scan k t
      | O =>
          match match_at s with
          | Some (lit, _) =>
              Hit lit
                :: scan (String.length vc_open + String.length lit
                         + String.length vc_close - 1) t
          | None => Keep c :: scan 0 t
          end
      end
  end.

(** The text of a match. *)
Definition matched (lit : string) : string := vc_open +:+ lit +:+ vc_close.

(** The pieces put together again, each match replaced by [repl] of it. *)
Fixpoint render (repl : string -> string) (ps : list piece) : string :=
  match ps with
  | [] => EmptyString
  | Keep c :: t => String c (render repl t)
  | Hit lit :: t => repl (matched lit) +:+ render repl t
  end.

(** *** Replacement templates of [re.sub] (CPython 3.12)

    A backslash in the replacement starts an escape: [\g<0>] stands for
    the whole match (the pattern has no group: any other group reference
    raises); [\0] and three octal digits give the character of that code;
    [\a \b \f \n \r \t \v] and a doubled backslash give their
    character; a backslash before any other ASCII letter raises, before any
    other character it stays. *)

Inductive part : Type :=
| Lit (s : string)
| Whole.

Fixpoint fill (parts : list part) (whole : string) : string :=
  match parts with
  | [] => EmptyString
  | Lit s :: t => s +:+ fill t whole
  | Whole :: t => whole +:+ fill t whole
  end.

Definition in_range (lo hi : N) (c : ascii) : bool :=
  ((lo <=? code c) && (code c <=? hi))%N.

Definition is_digit (c : ascii) : bool := in_range 48 57 c.
Definition is_octdigit (c : ascii) : bool := in_range 48 55 c.
Definition is_ascii_letter (c : ascii) : bool :=
  in_range 65 90 c || in_range 97 122 c.

(** The first and the later characters of an identifier, below U+0100. *)
Definition is_id_start (c : ascii) : bool :=
  is_ascii_letter c || Ascii.eqb c "_"%char
  || (code c =? 170)%N || (code c =? 181)%N || (code c =? 186)%N
  || in_range 192 214 c || in_range 216 246 c || in_range 248 255 c.

Definition is_id_continue (c : ascii) : bool :=
  is_id_start c || is_digit c || (code c =? 183)%N.

Fixpoint all_chars (f : ascii -> bool) (s : string) : bool :=
  match s with
  | EmptyString => true
  | String c t => f c && all_chars f t
  end.

Definition is_identifier (s : string) : bool :=
  match s with
  | EmptyString => false
  | String c t => is_id_start c && all_chars is_id_continue t
  end.

Definition digit (c : ascii) : N := (code c - 48)%N.

Definition chr (n : N) : part := Lit (String (ascii_of_N n) EmptyString).

Definition simple_escape (c : ascii) : option N :=
  if Ascii.eqb c "a"%char then Some 7%N
  else if Ascii.eqb c "b"%char then Some 8%N
  else if Ascii.eqb c "f"%char then Some 12%N
  else if Ascii.eqb c "n"%char then Some 10%N
  else if Ascii.eqb c "r"%char then Some 13%N
  else if Ascii.eqb c "t"%char then Some 9%N
  else if Ascii.eqb c "v"%char then Some 11%N
  else if Ascii.eqb c backslash then Some 92%N
  else None.

(** The part a group name between [\g<] and [>] stands for. *)
Definition group_part (name : string) : result part :=
  match name with
  | EmptyString => Raise re_error
  | _ =>
      if all_chars is_digit name then
        if all_chars (Ascii.eqb "0"%char) name then Ok Whole
        else Raise re_error
      else if is_identifier name then Raise IndexError
      else Raise re_error
  end.

Inductive mode : Type :=
| Plain
| GroupName (acc : string).

Fixpoint parse_from (m : mode) (s : string) : result (list part) :=
  match m with
  | GroupName acc =>
      match s with
      | EmptyString => Raise re_error
      | String c t =>
          if Ascii.eqb c ">"%char then
            p ← group_part acc;
            ps ← parse_from Plain t;
            Ok (p :: ps)
          else parse_from (GroupName (acc +:+ String c EmptyString)) t
      end
  | Plain =>
      match s with
      | EmptyString => Ok []
      | String c t =>
          if negb (Ascii.eqb c backslash) then
            ps ← parse_from Plain t;
            Ok (Lit (String c EmptyString) :: ps)
          else
            match t with
            | EmptyString => Raise re_error
            | String e r =>
                if Ascii.eqb e "g"%char then
                  match r with
                  | String lt r1 =>
                      if Ascii.eqb lt "<"%char
                      then parse_from (GroupName EmptyString) r1
                      else Raise re_error
                  | EmptyString => Raise re_error
                  end
                else if Ascii.eqb e "0"%char then
                  match r with
                  | String d1 r1 =>
                      if is_octdigit d1 then
                        match r1 with
                        | String d2 r2 =>
                            if is_octdigit d2 then
                              ps ← parse_from Plain r2;
                              Ok (chr (N.land (digit d1 * 8 + digit d2) 255) :: ps)
                            else
                              ps ← parse_from Plain r1;
                              Ok (chr (digit d1) :: ps)
                        | EmptyString => Ok [chr (digit d1)]
                        end
                      else
                        ps ← parse_from Plain r;
                        Ok (chr 0 :: ps)
                  | EmptyString => Ok [chr 0]
                  end
                else if is_digit e then
                  match r with
                  | String d1 (String d2 r2) =>
                      if is_octdigit e && is_octdigit d1 && is_octdigit d2 then
                        let n := (digit e * 64 + digit d1 * 8 + digit d2)%N in
                        if (255 <? n)%N then Raise re_error
                        else ps ← parse_from Plain r2; Ok (chr n :: ps)
                      else Raise re_error
                  | _ => Raise re_error
                  end
                else
                  match simple_escape e with
                  | Some n => ps ← parse_from Plain r; Ok (chr n :: ps)
                  | None =>
                      if is_ascii_letter e then Raise re_error
                      else
                        ps ← parse_from Plain r;
                        Ok (Lit (String backslash (String e EmptyString)) :: ps)
                  end
            end
      end
  end.

Definition parse_template (template : string) : result (list part) :=
  parse_from Plain template.

Fixpoint has_char (c : ascii) (s : string) : bool :=
  match s with
  | EmptyString => false
  | String a t => Ascii.eqb a c || has_char c t
  end.

(** [re.sub(r'version_compare\(".*?"\)', template, text)]: a template
    without a backslash is taken literally, any other is parsed first. *)
Definition re_sub_version_compare (template text : string) : result string :=
  if has_char backslash template then
    parts ← parse_template template;
    Ok (render (fill parts) (scan 0 text))
  else Ok (render (fun _ => template) (scan 0 text)).

(** The part of [ensure_pkgfile] between loading and dumping: the document
    afterwards. *)
Definition pkgfile_data (data : value) (name hash_value : string)
  : result value :=
  if negb (truthy data) then
    py_update data
      [("apiVersion", VStr "v1");
       ("kind", VStr "software");
       ("spec", VDict [("name", VStr name); ("platform", VStr "darwin");
                       ("hash_sha256", VStr hash_value)])]
  else
    '(data, spec) ← py_setdefault data "spec" (VDict []);
    '(spec, _) ← py_setdefault spec "name" (VStr name);
    '(spec, _) ← py_setdefault spec "platform" (VStr "darwin");
    spec ← py_setitem spec "hash_sha256" (VStr hash_value);
    py_setitem data "spec" spec.

(** The [for ... else] loop of [ensure_team] over the entries: [Some] of
    the entries with the first match updated (the [break]), [None] when
    the loop ran to its end. *)
Fixpoint update_first (target : string) (self_service : bool)
  (entries : list value) : result (option (list value)) :=
  match entries with
  | [] => Ok None
  | entry :: rest =>
      p ← py_get entry "package_path";
      if str_eq target p then
        entry ← py_setitem entry "self_service" (VBool self_service);
        Ok (Some (entry :: rest))
      else
        r ← update_first target self_service rest;
        Ok (option_map (cons entry) r)
  end.

(** [f"../lib/software/{slug}.package.yml"]. *)
Definition target_of (slug : string) : string :=
  "../lib/software/" +:+ slug +:+ ".package.yml".

(** The part of [ensure_team] between loading and dumping.  An entry can
    only match when it is a dictionary, so [packages] is a list when the
    loop has found one. *)
Definition team_data (data : value) (slug : string) (self_service : value)
  : result value :=
  '(data, software) ← py_setdefault data "software" (VDict []);
  '(software, packages) ← py_setdefault software "packages" (VList []);
  let target := target_of slug in
  entries ← py_iter packages;
  found ← update_first target (truthy self_service) entries;
  packages ← match found with
             | Some entries => Ok (VList entries)
             | None =>
                 py_append packages
                   (VDict [("package_path", VStr target);
                           ("self_service", VBool (truthy self_service))])
             end;
  software ← py_setitem software "packages" packages;
  py_setitem data "software" software.

Section Yaml.
(** ruamel.yaml: [yaml_load] parses a file's text ([None] when it is
    malformed), [yaml_dump] serialises a value. *)
Variable yaml_load : string -> option value.
Variable yaml_dump : value -> string.

Definition load_yaml (fs : gmap path (node string)) (p : path) : result value :=
  if exists_ fs p then
    c ← read_file fs p;
    match yaml_load c with
    | Some v => Ok (py_or v (VDict []))
    | None => Raise YAMLError
    end
  else Ok (VDict []).

Definition dump_yaml (fs : gmap path (node string)) (data : value) (p : path)
  : result (gmap path (node string)) :=
  fs ← mkdir_parents fs (parent p);
  write_file fs p (yaml_dump data).

Definition ensure_pkgfile (fs : gmap path (node string)) (pkgfile : path)
  (name hash_value : string) : result (gmap path (node string)) :=
  data ← load_yaml fs pkgfile;
  data ← pkgfile_data data name hash_value;
  dump_yaml fs data pkgfile.

Definition ensure_team (fs : gmap path (node string)) (teamfile : path)
  (slug : string) (self_service : value) : result (gmap path (node string)) :=
  data ← load_yaml fs teamfile;
  data ← team_data data slug self_service;
  dump_yaml fs data teamfile.

End Yaml.

(** [f'version_compare("{version}")']. *)
Definition template_of (version : string) : string :=
  "version_compare(" +:+ String dquote EmptyString
    +:+ version +:+ String dquote ")".

Definition policy_path (gitops_dir : path) (slug : string) : path :=
  path_join (gitops_dir ++ ["lib"; "policies"])
    ("update-" +:+ slug +:+ ".policy.yml").

Definition bump_policy (fs : gmap path (node string)) (gitops_dir : path)
  (slug version : string) : result (gmap path (node string)) :=
  let policy := policy_path gitops_dir slug in
  if negb (exists_ fs policy) then Ok fs
  else
    text ← read_file fs policy;
    new_text ← re_sub_version_compare (template_of version) text;
    if negb (String.eqb text new_text) then write_file fs policy new_text
    else Ok fs.

(** [s.split(",")]: the pieces between the commas, the empty ones kept. *)
Fixpoint split_comma (acc : string) (s : string) : list string :=
  match s with
  | EmptyString => [acc]
  | String c t =>
      if Ascii.eqb c ","%char then acc :: split_comma EmptyString t
      else split_comma (acc +:+ String c EmptyString) t
  end.

Section Main.
Variable yaml_load : string -> option value.
Variable yaml_dump : value -> string.

(** The loop of [main] over the team names. *)
Fixpoint ensure_teams (fs : gmap path (node string)) (gitops : path)
  (slug : string) (self_service : value) (teams : list string)
  : result (gmap path (node string)) :=
  match teams with
  | [] => Ok fs
  | team :: rest =>
      let teamfile := path_join (gitops ++ ["teams"]) (team +:+ ".yml") in
      fs ← ensure_team yaml_load yaml_dump fs teamfile slug self_service;
      ensure_teams fs gitops slug self_service rest
  end.

(** [main] once the arguments and the JSON file are read: [gitops] is
    [Path(args.gitops_dir)], [teams] is [args.teams]; [name], [version]
    and [hash_value] are the strings found under [name], [version] and
    [hash], and [self_service] is [data.get('self_service', True)]. *)
Definition main_steps (fs : gmap path (node string)) (gitops : path)
  (name version hash_value : string) (self_service : value) (teams : string)
  : result (gmap path (node string)) :=
  let slug := slugify name in
  let pkgfile := path_join (gitops ++ ["lib"; "software"])
                   (slug +:+ ".package.yml") in
  fs ← ensure_pkgfile yaml_load yaml_dump fs pkgfile name hash_value;
  fs ← ensure_teams fs gitops slug self_service (split_comma "" teams);
  bump_policy fs gitops slug version.

End Main.

End Script.

(** ** fleetGitOpsUploader.py: repository names and the paths of [main] *)

Module UploaderNames.
Import Text Py FS.

Definition is_slash (c : ascii) : bool := Ascii.eqb c "/"%char.

(** [s.count(c)] for a character [c]. *)
Fixpoint count_char (c : ascii) (s : string) : nat :=
  match s with
  | EmptyString => 0
  | String a t => (if Ascii.eqb a c then 1 else 0) + count_char c t
  end.

(** [s.split(sep, 1)[1]]: the text after the first [sep], and
    [IndexError] when there is none. *)
Fixpoint after_first (sep s : string) : result string :=
  match Script.strip_prefix sep s with
  | Some rest => Ok rest
  | None =>
      match s with
      | EmptyString => Raise IndexError
      | String _ t => after_first sep t
      end
  end.

(** [s[:-len(suf)]] when [s.endswith(suf)], for a [suf] that is not
    empty. *)
Fixpoint strip_suffix (suf s : string) : option string :=
  if String.eqb s suf then Some EmptyString
  else match s with
       | EmptyString => None
       | String c t => option_map (String c) (strip_suffix suf t)
       end.

(** [if s.endswith(".git"): s = s[:-4]]. *)
Definition drop_dot_git (s : string) : string :=
  match strip_suffix ".git" s with Some r => r | None => s end.

(** [FleetGitOpsUploader._derive_github_repo]. *)
Definition _derive_github_repo (git_repo_url : string) : result string :=
  if negb (nonempty git_repo_url) then Ok ""
  else
    let s := strip_space git_repo_url in
    if String.prefix "git@" s then
      match after_first ":" s with
      | Raise IndexError => Ok ""
      | Raise e => Raise e
      | Ok path_part =>
          let path_part := drop_dot_git path_part in
          Ok (if Nat.eqb (count_char "/" path_part) 1
              then strip is_slash path_part else "")
      end
    else if String.prefix "http://" s || String.prefix "https://" s then
      if negb (str_contains "github.com/" s) then Ok ""
      else
        after_host ← after_first "github.com/" s;
        let after_host := drop_dot_git after_host in
        let after_host := strip is_slash after_host in
        Ok (if Nat.eqb (count_char "/" after_host) 1 then after_host else "")
    else if Nat.eqb (count_char "/" s) 1 && negb (str_contains ":" s)
            && negb (str_contains " " s)
    then Ok s
    else Ok "".

(** The slug of [main]:
    [env.get("software_slug", "").strip() or self._slugify(software_title)]. *)
Definition software_slug_of (env_slug software_title : string) : string :=
  str_or (strip_space env_slug) (Uploader._slugify software_title).

(** The branch of [main]; [branch_prefix] is the value of the environment,
    stripped. *)
Definition branch_name (branch_prefix software_slug returned_version : string)
  : string :=
  let branch_name := software_slug +:+ "-" +:+ returned_version in
  if nonempty branch_prefix
  then rstrip is_slash branch_prefix +:+ "/" +:+ branch_name
  else branch_name.

(** [repo_dir / software_dir / f"{software_slug}{package_yaml_suffix}"]. *)
Definition pkg_yaml_path (repo_dir : path)
  (software_dir software_slug package_yaml_suffix : string) : path :=
  Script.path_join (Script.path_join repo_dir software_dir)
    (software_slug +:+ package_yaml_suffix).

(** [f"{team_yaml_prefix}{pkg_yaml_path.name}"]. *)
Definition ref_path_of (team_yaml_prefix : string) (pkg_yaml_path : path)
  : string :=
  team_yaml_prefix +:+ name pkg_yaml_path.

End UploaderNames.

(** Words for repository names. *)
Module NameSpec.
Import Text.

(** The characters of an owner or repository name: letters, digits,
    [.], [_] and [-]. *)
Definition is_name_char (c : ascii) : bool :=
  Script.is_ascii_letter c || Script.is_digit c
  || Ascii.eqb c "."%char || Ascii.eqb c "_"%char || Ascii.eqb c "-"%char.

(** A name: at least one character, and characters of names only. *)
Definition plain_name (s : string) : bool :=
  nonempty s && Script.all_chars is_name_char s.

(** [s.endswith(".git")]. *)
Definition ends_dot_git (s : string) : bool :=
  match UploaderNames.strip_suffix ".git" s with
  | Some _ => true
  | None => false
  end.

End NameSpec.

(** ** overrides/FleetImporter.py *)

Module Importer.
Import Text Py.

Definition nl : string := String "010"%char EmptyString.

(** [s.split("/", 1)] for a text with a slash: the text before the first
    slash and the text after it. *)
Fixpoint split_once (s : string) : string * string :=
  match s with
  | EmptyString => (EmptyString, EmptyString)
  | String c t =>
      if Ascii.eqb c "/"%char then (EmptyString, t)
      else let '(a, b) := split_once t in (String c a, b)
  end.

(** [bool(url)] for an [Optional[str]]. *)
Definition given (url : option string) : bool :=
  match url with Some u => nonempty u | None => false end.

(** [FleetImporter._pr_body]. *)
Definition _pr_body (name version software_slug : string)
  (title_id installer_id : Z) (changelog_url : option string) : string :=
  let lines := ["### " +:+ name +:+ " " +:+ version; ""] in
  let url := changelog_url in
  let url :=
    if negb (given url) && str_contains "/" software_slug then
      let '(owner, repo) := split_once software_slug in
      Some ("https://github.com/" +:+ owner +:+ "/" +:+ repo
              +:+ "/releases/tag/" +:+ version)
    else url in
  let lines :=
    if given url
    then lines ++ ["[Changelog](" +:+ default "" url +:+ ")"; ""]
    else lines in
  let lines := lines ++ ["Fleet title ID: `" +:+ pretty title_id +:+ "`"] in
  let lines :=
    lines ++ ["Fleet installer ID: `" +:+ pretty installer_id +:+ "`"] in
  let lines := lines ++ ["Software slug: `" +:+ software_slug +:+ "`"] in
  String.concat nl lines +:+ nl.

End Importer.

(** ** The slug as the specification words it *)

Module SlugSpec.
Import Text.

(** Lower-case the input, replace each maximal run of characters outside
    [[a-z0-9]] by one ["-"], strip the ["-"] at both ends, and fall back to
    ["software"] when nothing is left. *)
Definition spec_slug (x : string) : string :=
  let r := strip_dash (re_sub_class_plus not_slug_char (lower x)) in
  if String.eqb r "" then "software" else r.

(** The shape of a slug: characters of [[a-z0-9]] and ["-"] only, no two
    ["-"] in a row and, when [after_dash] is set, no ["-"] in front. *)
Fixpoint slug_shape (after_dash : bool) (s : string) : bool :=
  match s with
  | EmptyString => true
  | String c t =>
      if is_dash c then negb after_dash && slug_shape true t
      else is_slug_char c && slug_shape false t
  end.

(** No ["-"] at the end. *)
Fixpoint no_dash_end (s : string) : bool :=
  match s with
  | EmptyString => true
  | String c EmptyString => negb (is_dash c)
  | String _ t => no_dash_end t
  end.

End SlugSpec.

(** ** Concrete libraries and services *)

(** A file store whose files hold the parsed document itself: loading returns
    the document, dumping stores it, key order untouched. *)
Module Plain.
Import Py.

Definition load (c : value) : option value := Some c.
Definition dump (sort_keys : bool) (v : value) : value := v.

End Plain.

(** A YAML library that knows the listed texts only: a text of the table is
    parsed to the document beside it, any other text is malformed. *)
Module Table.
Import Py.

Fixpoint load (table : list (string * value)) (text : string) : option value :=
  match table with
  | [] => None
  | (t, v) :: rest => if String.eqb text t then Some v else load rest text
  end.

End Table.

(** ** Vocabulary of the statements *)

Module Spec.
Import Py FS.

(** The file at a path, when the path names a file. *)
Definition file_at {C} (fs : gmap path (node C)) (p : path) : option C :=
  match p with
  | [] => None
  | _ => match fs !! p with Some (File c) => Some c | _ => None end
  end.

(** There is nothing at the path, or a file that parses to [None] (an empty
    file). *)
Definition absent_or_null {C} (load : C -> option value)
  (fs : gmap path (node C)) (p : path) : Prop :=
  exists_ fs p = false
  \/ exists c, file_at fs p = Some c /\ load c = Some VNone.

(** The reference [{"path": ref_path}] the uploader appends. *)
Definition new_entry (ref_path : string) : value :=
  VDict [("path", VStr ref_path)].

(** The two commands of the commit step. *)
Definition status_cmd : list string := ["status"; "--porcelain"].
Definition commit_cmd (message : string) : list string :=
  ["commit"; "-m"; message].

(** The three requests of [_open_pull_request]. *)
Definition create_request (github_repo token head base title body : string)
  : Uploader.request :=
  Uploader.CreatePull github_repo token
    [("title", VStr title); ("head", VStr head); ("base", VStr base);
     ("body", VStr body); ("maintainer_can_modify", VBool true)].

Definition search_request (github_repo token head base : string)
  : Uploader.request :=
  Uploader.SearchIssues token
    ("repo:" +:+ github_repo +:+ " is:pr is:open head:" +:+ head
       +:+ " base:" +:+ base).

Definition labels_request (github_repo token : string) (number : value)
  (labels : list string) : Uploader.request :=
  Uploader.AddLabels github_repo token number labels.

(** The state after a request was sent and the service moved to [r]. *)
Definition after_request {R} (st : Uploader.http_state R)
  (rq : Uploader.request) (r : R) : Uploader.http_state R :=
  {| Uploader.remote := r; Uploader.sent := Uploader.sent st ++ [rq] |}.

(** The value of a key of the [spec] block of a package document. *)
Definition spec_field (data : value) (k : string) : option value :=
  match data with
  | VDict d =>
      match dict_get d "spec" with
      | Some (VDict s) => dict_get s k
      | _ => None
      end
  | _ => None
  end.



(** The entry [ensure_team] appends. *)
Definition script_entry (target : string) (self_service : bool) : value :=
  VDict [("package_path", VStr target); ("self_service", VBool self_service)].

(** The entries of [software.packages] of a document, none when there is
    no such list. *)
Definition packages_of (data : value) : list value :=
  match data with
  | VDict d =>
      match dict_get d "software" with
      | Some (VDict sw) =>
          match dict_get sw "packages" with
          | Some (VList l) => l
          | _ => []
          end
      | _ => []
      end
  | _ => []
  end.

(** A team document with the given entries under [software.packages]. *)
Definition team_doc (entries : list value) : value :=
  VDict [("name", VStr "Workstations");
         ("software", VDict [("packages", VList entries)])].

(** A store with one team file. *)
Definition team_store {C} (c : C) : gmap path (node C) :=
  <[ ["teams"; "workstations.yml"] := File c ]> (<[ ["teams"] := Dir ]> ∅).

Definition team_path : path := ["teams"; "workstations.yml"].

End Spec.

(** Words for what an operation on the store leaves behind. *)
Module Frame.
Import Py FS.

(** Every directory above [p] is there. *)
Definition dirs_above {C} (fs : gmap path (node C)) (p : path) : Prop :=
  forall k, 0 < k <= length (parent p) -> fs !! take k (parent p) = Some Dir.

(** The file at [p] holds [c], below directories that are all there. *)
Definition settled {C} (fs : gmap path (node C)) (p : path) (c : C) : Prop :=
  Spec.file_at fs p = Some c /\ dirs_above fs p.

(** From [fs] to [fs'] only the path [p], which was no directory, has
    changed, and directories were made where there was nothing. *)
Definition touches {C} (fs fs' : gmap path (node C)) (p : path) : Prop :=
  fs !! p <> Some Dir
  /\ forall q, q <> p ->
       fs' !! q = fs !! q \/ (fs !! q = None /\ fs' !! q = Some Dir).

End Frame.

(** ** Sample inputs *)

Module Samples.
Import Py FS Spec Uploader.

Definition firefox_ref : string := "../lib/macos/software/firefox.package.yml".
Definition slack_ref : string := "../lib/macos/software/slack.package.yml".

(** A team file that lists the same package twice. *)
Definition twice_store : gmap path (node value) :=
  team_store (team_doc [VStr firefox_ref; VStr firefox_ref]).

(** A team file with one bare reference and one structured entry. *)
Definition mixed_store : gmap path (node value) :=
  team_store (team_doc [VStr firefox_ref;
                        VDict [("path", VStr slack_ref);
                               ("self_service", VBool true)]]).

Definition zoom_ref : string := "../lib/macos/software/zoom.package.yml".

(** The fields of a package upload. *)
Definition firefox_fields : package_fields := {|
  software_title := "Firefox.app";
  version := "128.0";
  platform := "darwin";
  hash_sha256 := VStr "9f86d081884c7d65";
  self_service := true;
  labels_include_any := ["Workstations"];
  labels_exclude_any := [];
  automatic_install := true;
  pre_install_query := "SELECT 1 FROM apps;";
  install_script := "installer -pkg $INSTALLER_PATH -target /";
  uninstall_script := "";
  post_install_script := "";
|}.

(** A checked-out repository with the software directory in place. *)
Definition repo_store {C} : gmap path (node C) :=
  <[ ["lib"; "macos"; "software"] := Dir ]>
    (<[ ["lib"; "macos"] := Dir ]> (<[ ["lib"] := Dir ]> ∅)).

Definition firefox_yaml : path :=
  ["lib"; "macos"; "software"; "firefox.package.yml"].

Definition firefox_doc : value :=
  VDict [("package", VDict (pkg_block firefox_fields))].


(** The package file of the slug ["Mozilla/firefox"]:
    [sw_dir / "Mozilla/firefox.package.yml"]. *)
Definition nested_yaml : path :=
  ["lib"; "macos"; "software"; "Mozilla"; "firefox.package.yml"].

End Samples.

(** A service that never answers: every request times out. *)
Module Offline.
Import Uploader.

Definition send (rq : request) (r : unit) : outcome * unit := (Failed, r).

End Offline.

(** Sample files of the script's repository. *)
Module ScriptSamples.
Import Py FS Spec.

(** A team file whose package list holds a bare path. *)
Definition bare_team_text : string :=
"software:
  packages:
  - ../lib/software/firefox.package.yml
".

Definition bare_team_doc : value :=
  VDict [("software",
          VDict [("packages",
                  VList [VStr "../lib/software/firefox.package.yml"])])].

(** An empty file. *)
Definition empty_text : string := "".

(** A package file written for another platform. *)
Definition windows_text : string :=
"apiVersion: v1
kind: software
spec:
  name: Firefox
  platform: windows
  hash_sha256: 0a1b2c
".

Definition windows_doc : value :=
  VDict [("apiVersion", VStr "v1"); ("kind", VStr "software");
         ("spec", VDict [("name", VStr "Firefox");
                         ("platform", VStr "windows");
                         ("hash_sha256", VStr "0a1b2c")])].

Definition yaml_table : list (string * value) :=
  [(bare_team_text, bare_team_doc); (empty_text, VNone);
   (windows_text, windows_doc)].

Definition pkgfile : path := ["repo"; "lib"; "software"; "firefox.package.yml"].

Definition pkg_store : gmap path (node string) :=
  <[ pkgfile := File windows_text ]> ∅.

Definition dump_any (v : value) : string := "...".

End ScriptSamples.

(** A model of the part of git the commit step talks to: the paths with
    staged changes, with changes not staged, and untracked, and the messages
    of the commits made.  [git status --porcelain] prints a line for each of
    the three kinds of path; [git commit] needs a staged change. *)
Module GitModel.
Import Text Py FS Uploader.

Record workcopy : Type := {
  staged : list string;
  unstaged : list string;
  untracked : list string;
  commits : list string;
}.

Definition newline : string := String "010"%char EmptyString.

Definition lines (mark : string) (paths : list string) : string :=
  String.concat "" (map (fun p => mark +:+ p +:+ newline) paths).

Definition porcelain (w : workcopy) : string :=
  lines "M  " (staged w) +:+ lines " M " (unstaged w)
    +:+ lines "?? " (untracked w).

Definition git (args : list string) (cwd : option path) (w : workcopy)
  : completed * workcopy :=
  if bool_decide (args = ["status"; "--porcelain"]) then
    ({| returncode := 0; stdout := porcelain w; stderr := "" |}, w)
  else
    match args with
    | [cmd; flag; message] =>
        if bool_decide (cmd = "commit") && bool_decide (flag = "-m") then
          match staged w with
          | [] =>
              ({| returncode := 1;
                  stdout := "no changes added to commit";
                  stderr := "" |}, w)
          | _ =>
              ({| returncode := 0; stdout := message; stderr := "" |},
               {| staged := []; unstaged := unstaged w;
                  untracked := untracked w;
                  commits := commits w ++ [message] |})
          end
        else ({| returncode := 129; stdout := ""; stderr := "usage" |}, w)
    | _ => ({| returncode := 129; stdout := ""; stderr := "usage" |}, w)
    end.

(** A fresh clone in which a tracked file shows as modified (its line
    endings were normalised on checkout, say), and nothing is staged. *)
Definition dirty_clone : workcopy :=
  {| staged := []; unstaged := ["README.md"]; untracked := []; commits := [] |}.

(** A clone with the package file staged. *)
Definition staged_clone : workcopy :=
  {| staged := ["lib/macos/software/firefox.package.yml"];
     unstaged := []; untracked := []; commits := [] |}.

(** A clone in which the run changed nothing. *)
Definition clean_clone : workcopy :=
  {| staged := []; unstaged := []; untracked := []; commits := [] |}.

End GitModel.

(** A stand-in for GitHub that answers each kind of request with a fixed
    outcome. *)
Module GitHub.
Import Py Uploader.

Definition send (create search labels : outcome) (rq : request) (r : unit)
  : outcome * unit :=
  match rq with
  | CreatePull _ _ _ => (create, r)
  | SearchIssues _ _ => (search, r)
  | AddLabels _ _ _ _ => (labels, r)
  | UploadPackage _ _ _ _ => (Failed, r)
  end.


Definition pull_url : string := "https://github.com/acme/fleet-gitops/pull/7".

(** 201: the pull request was created. *)
Definition created : outcome :=
  Response {| status_code := 201; text := "";
              json := Some (VDict [("html_url", VStr pull_url);
                                   ("number", VInt 7)]) |}.

(** 422: a pull request for the branch is already open. *)
Definition conflict : outcome :=
  Response {| status_code := 422; text := "";
              json := Some (VDict [("message", VStr "Validation Failed")]) |}.

(** The search finds the open pull request. *)
Definition found : outcome :=
  Response {| status_code := 200; text := "";
              json := Some (VDict [("total_count", VInt 1);
                                   ("items",
                                    VList [VDict [("html_url", VStr pull_url)]])]) |}.

(** 404: the labels could not be applied. *)
Definition label_error : outcome :=
  Response {| status_code := 404; text := "Not Found"; json := None |}.

(** 500 on creation. *)
Definition server_error : outcome :=
  Response {| status_code := 500; text := "Internal Server Error";
              json := None |}.

Definition start : http_state unit := {| remote := tt; sent := [] |}.

Definition repo : string := "acme/fleet-gitops".
Definition branch : string := "firefox-128.0".

End GitHub.

(** Policy files of the script's repository. *)
Module PolicySamples.
Import Py FS Script.

Definition quoted (s : string) : string :=
  String dquote EmptyString +:+ s +:+ String dquote EmptyString.

(** A policy that compares against the version [v]. *)
Definition policy_text (v : string) : string :=
  "query: SELECT 1 FROM apps WHERE version_compare(" +:+ quoted v
    +:+ ") >= 0;".

(** A line break. *)
Definition nl : string := String newline EmptyString.

Definition policy_file : path :=
  ["repo"; "lib"; "policies"; "update-firefox.policy.yml"].

Definition policy_store : gmap path (node string) :=
  <[ policy_file := File (policy_text "127.0") ]>
    (<[ ["repo"; "lib"; "policies"] := Dir ]>
       (<[ ["repo"; "lib"] := Dir ]> (<[ ["repo"] := Dir ]> ∅))).

End PolicySamples.

(** A YAML library that reads back whatever it writes: a document is
    written as the binary digits of its code in an enumeration of the
    documents. *)
Module Codec.
Import Py.

Definition leaf : Type := (unit + bool + Z + string)%type.

Fixpoint to_tree (v : value) : gen_tree leaf :=
  match v with
  | VNone => GenLeaf (inl (inl (inl tt)))
  | VBool b => GenLeaf (inl (inl (inr b)))
  | VInt n => GenLeaf (inl (inr n))
  | VStr s => GenLeaf (inr s)
  | VList l => GenNode 0 (map to_tree l)
  | VDict d =>
      GenNode 1
        (map (fun kv => let '(k, x) := kv in
                        GenNode 2 [GenLeaf (inr k); to_tree x]) d)
  end.

Fixpoint of_tree (t : gen_tree leaf) : value :=
  match t with
  | GenLeaf (inl (inl (inl _))) => VNone
  | GenLeaf (inl (inl (inr b))) => VBool b
  | GenLeaf (inl (inr n)) => VInt n
  | GenLeaf (inr s) => VStr s
  | GenNode 0 ts => VList (map of_tree ts)
  | GenNode _ ts =>
      VDict (map (fun t => match t with
                           | GenNode _ [GenLeaf (inr k); x] => (k, of_tree x)
                           | _ => ("", VNone)
                           end) ts)
  end.

Fixpoint bits (p : positive) : string :=
  match p with
  | xH => ""
  | xO q => String "0" (bits q)
  | xI q => String "1" (bits q)
  end.

Fixpoint unbits (s : string) : option positive :=
  match s with
  | EmptyString => Some xH
  | String c t =>
      match unbits t with
      | Some q =>
          if Ascii.eqb c "0" then Some (xO q)
          else if Ascii.eqb c "1" then Some (xI q)
          else None
      | None => None
      end
  end.

Definition dump (v : value) : string := bits (encode (to_tree v)).

Definition load (s : string) : option value :=
  match unbits s with
  | Some p => option_map of_tree (decode p)
  | None => None
  end.

End Codec.

(** * Properties *)

Module SlugFacts.
Import Text SlugSpec.

Lemma dash_not_slug_char c : is_dash c = true -> is_slug_char c = false.
Proof.
  unfold is_dash. intros H. apply Ascii.eqb_eq in H. subst c. reflexivity.
Qed.

Lemma slug_char_not_dash c : is_slug_char c = true -> is_dash c = false.
Proof.
  intros H. destruct (is_dash c) eqn:E; [|done].
  apply dash_not_slug_char in E. congruence.
Qed.

Lemma lower_slug_char c : is_slug_char c = true -> lower_char c = c.
Proof.
  destruct c as [[] [] [] [] [] [] [] []]; vm_compute; congruence.
Qed.

Lemma lower_dash c : is_dash c = true -> lower_char c = c.
Proof.
  unfold is_dash. intros H. apply Ascii.eqb_eq in H. subst c. reflexivity.
Qed.

(** What [re.sub(r"[^a-z0-9]+", "-", s)] returns has the shape of a slug. *)
Lemma sub_runs_shape b s : slug_shape b (sub_runs not_slug_char b s) = true.
Proof.
  revert b. induction s as [|c t IH]; intros b; [done|].
  simpl. unfold not_slug_char at 1.
  destruct (is_slug_char c) eqn:E; simpl.
  - rewrite (slug_char_not_dash _ E), E. apply IH.
  - destruct b; [apply IH|]. simpl. apply IH.
Qed.

(** On a text of that shape the three rewriting steps change nothing. *)
Lemma shape_lower b s : slug_shape b s = true -> lower s = s.
Proof.
  revert b. induction s as [|c t IH]; intros b H; [done|].
  simpl in *. destruct (is_dash c) eqn:E.
  - apply andb_true_iff in H as [_ H].
    rewrite (lower_dash _ E), (IH _ H). done.
  - apply andb_true_iff in H as [Hc H].
    rewrite (lower_slug_char _ Hc), (IH _ H). done.
Qed.

Lemma shape_sub_runs b s :
  slug_shape b s = true -> sub_runs not_slug_char b s = s.
Proof.
  revert b. induction s as [|c t IH]; intros b H; [done|].
  simpl in *. unfold not_slug_char at 1. destruct (is_dash c) eqn:E.
  - apply andb_true_iff in H as [Hb H]. destruct b; [done|].
    rewrite (dash_not_slug_char _ E). simpl. rewrite (IH _ H).
    unfold is_dash in E. apply Ascii.eqb_eq in E. by subst c.
  - apply andb_true_iff in H as [Hc H]. rewrite Hc. simpl.
    by rewrite (IH _ H).
Qed.

Lemma shape_collapse b s :
  slug_shape b s = true -> sub_runs is_dash b s = s.
Proof.
  revert b. induction s as [|c t IH]; intros b H; [done|].
  simpl in *. destruct (is_dash c) eqn:E.
  - apply andb_true_iff in H as [Hb H]. destruct b; [done|].
    rewrite (IH _ H). unfold is_dash in E. apply Ascii.eqb_eq in E. by subst c.
  - apply andb_true_iff in H as [Hc H]. by rewrite (IH _ H).
Qed.

Lemma shape_weaken b s : slug_shape b s = true -> slug_shape false s = true.
Proof.
  destruct s as [|c t]; [done|]. simpl. destruct (is_dash c); [|done].
  intros H. apply andb_true_iff in H as [_ H]. done.
Qed.

(** Stripping keeps the shape, and leaves no ["-"] at either end. *)
Lemma lstrip_shape s :
  slug_shape false s = true -> slug_shape true (lstrip is_dash s) = true.
Proof.
  induction s as [|c t IH]; [done|]. simpl. destruct (is_dash c) eqn:E.
  - simpl. intros H. apply IH. by eapply shape_weaken.
  - intros H. simpl. by rewrite E.
Qed.

Lemma rstrip_eq_empty s :
  rstrip is_dash s = EmptyString -> forall b, slug_shape b s = true ->
  s = EmptyString \/ s = String dash EmptyString.
Proof.
  destruct s as [|c t]; [by left|]. simpl.
  destruct (rstrip is_dash t) eqn:Et; [|done].
  destruct (is_dash c) eqn:E; [|done]. intros _ b H. right.
  apply andb_true_iff in H as [_ H].
  destruct t as [|c' t']; [|].
  - unfold is_dash in E. apply Ascii.eqb_eq in E. by subst c.
  - exfalso. simpl in Et, H.
    destruct (rstrip is_dash t'); [|done].
    destruct (is_dash c') eqn:E'; [|done]. done.
Qed.

Lemma rstrip_shape b s :
  slug_shape b s = true -> slug_shape b (rstrip is_dash s) = true.
Proof.
  revert b. induction s as [|c t IH]; intros b H; [done|].
  simpl in *. destruct (is_dash c) eqn:E.
  - apply andb_true_iff in H as [Hb H]. specialize (IH _ H).
    destruct (rstrip is_dash t) eqn:Et; [done|].
    simpl. rewrite E, Hb. exact IH.
  - apply andb_true_iff in H as [Hc H]. specialize (IH _ H).
    destruct (rstrip is_dash t) eqn:Et.
    + simpl. rewrite E, Hc. done.
    + simpl. rewrite E, Hc. done.
Qed.

Lemma rstrip_no_dash_end s : no_dash_end (rstrip is_dash s) = true.
Proof.
  induction s as [|c t IH]; [done|]. simpl.
  destruct (rstrip is_dash t) eqn:Et.
  - destruct (is_dash c) eqn:E; [done|]. simpl. by rewrite E.
  - exact IH.
Qed.

Lemma lstrip_id s : slug_shape true s = true -> lstrip is_dash s = s.
Proof.
  destruct s as [|c t]; [done|]. simpl. by destruct (is_dash c).
Qed.

Lemma rstrip_id s : no_dash_end s = true -> rstrip is_dash s = s.
Proof.
  induction s as [|c t IH]; [done|]. intros H. simpl.
  destruct t as [|c' t'].
  - simpl in *. by destruct (is_dash c).
  - rewrite IH by exact H. done.
Qed.

Lemma strip_shape s :
  slug_shape false s = true ->
  slug_shape true (strip_dash s) = true /\ no_dash_end (strip_dash s) = true.
Proof.
  intros H. unfold strip_dash, strip. split.
  - apply rstrip_shape, lstrip_shape, H.
  - apply rstrip_no_dash_end.
Qed.

(** A text of the shape of a slug, with no ["-"] at either end, is left
    alone by the whole pipeline. *)
Lemma pipeline_fixed s :
  slug_shape true s = true -> no_dash_end s = true ->
  strip_dash (re_sub_class_plus is_dash
                (re_sub_class_plus not_slug_char (lower s))) = s
  /\ strip_dash (re_sub_class_plus not_slug_char (lower s)) = s.
Proof.
  intros H1 H2. unfold re_sub_class_plus.
  rewrite (shape_lower _ _ H1).
  rewrite (shape_sub_runs _ _ (shape_weaken _ _ H1)).
  rewrite (shape_collapse _ _ (shape_weaken _ _ H1)).
  unfold strip_dash, strip. rewrite (lstrip_id _ H1), (rstrip_id _ H2). done.
Qed.

(** The second substitution of [_slugify] finds nothing to do. *)
Lemma collapse_after_sub s :
  re_sub_class_plus is_dash (re_sub_class_plus not_slug_char s)
  = re_sub_class_plus not_slug_char s.
Proof. apply (shape_collapse false), sub_runs_shape. Qed.

Lemma str_or_eqb s d : str_or s d = if String.eqb s "" then d else s.
Proof. by destruct s. Qed.

End SlugFacts.

(** ** The slug normalizer *)

Module SlugTheorems.
Import Text SlugSpec SlugFacts.

(** The stripped text both programs compute has the shape of a slug and no
    ["-"] at either end. *)
Lemma stripped_is_slug x :
  let r := strip_dash (re_sub_class_plus not_slug_char (lower x)) in
  slug_shape true r = true /\ no_dash_end r = true.
Proof. apply strip_shape, sub_runs_shape. Qed.

(** [_slugify] computes the slug as the specification words it. *)
Theorem uploader_slugify_refines_spec (x : string) :
  Uploader._slugify x = spec_slug x.
Proof.
  unfold Uploader._slugify, spec_slug.
  rewrite collapse_after_sub. apply str_or_eqb.
Qed.

(** [_slugify] is idempotent. *)
Theorem uploader_slugify_idempotent (x : string) :
  Uploader._slugify (Uploader._slugify x) = Uploader._slugify x.
Proof.
  unfold Uploader._slugify at 2 3. rewrite collapse_after_sub.
  destruct (stripped_is_slug x) as [H1 H2].
  destruct (strip_dash (re_sub_class_plus not_slug_char (lower x)))
    as [|c r] eqn:E; [reflexivity|].
  simpl str_or. unfold Uploader._slugify.
  destruct (pipeline_fixed _ H1 H2) as [-> _]. reflexivity.
Qed.

Example uploader_slugify_firefox :
  Uploader._slugify "Firefox.app" = "firefox-app".
Proof. reflexivity. Qed.

Example uploader_slugify_spaces :
  Uploader._slugify "  A__B  " = "a-b".
Proof. reflexivity. Qed.

(** [update_gitops.slugify] is idempotent as well, and agrees with
    [_slugify] whenever it returns a non-empty slug. *)
Theorem script_slugify_idempotent (x : string) :
  Script.slugify (Script.slugify x) = Script.slugify x.
Proof.
  unfold Script.slugify at 2 3. destruct (stripped_is_slug x) as [H1 H2].
  unfold Script.slugify. by destruct (pipeline_fixed _ H1 H2) as [_ ->].
Qed.

Theorem script_slugify_nonempty (x : string) :
  Script.slugify x <> "" -> Script.slugify x = spec_slug x.
Proof.
  unfold Script.slugify, spec_slug. intros H.
  destruct (strip_dash _); [done|reflexivity].
Qed.

Lemma script_slugify_nonempty_witness :
  Script.slugify "Firefox.app" <> ""
  /\ Script.slugify "Firefox.app" = spec_slug "Firefox.app".
Proof.
  split; [discriminate | apply script_slugify_nonempty; discriminate].
Defined.

(** C5. The slug of a name without any character of [[a-z0-9]] is to be
    the default token ["software"], and [_slugify] returns it;
    [update_gitops.slugify] returns the empty string for the same name. *)
Theorem script_slugify_no_default :
  Script.slugify "!!!" = ""
  /\ spec_slug "!!!" = "software"
  /\ Uploader._slugify "!!!" = "software".
Proof. repeat split. Qed.

End SlugTheorems.

(** ** Dictionaries and the file store *)

Module PyFacts.
Import Py.

Lemma dict_get_set d k v k' :
  dict_get (dict_set d k v) k'
  = if String.eqb k' k then Some v else dict_get d k'.
Proof.
  induction d as [|[k0 v0] t IH]; simpl; [done|].
  destruct (String.eqb k k0) eqn:E; simpl.
  - apply String.eqb_eq in E. subst k0. by destruct (String.eqb k' k).
  - rewrite IH. destruct (String.eqb k' k0) eqn:E0; [|done].
    apply String.eqb_eq in E0. subst k0. by rewrite String.eqb_sym, E.
Qed.

Lemma dict_get_set_eq d k v : dict_get (dict_set d k v) k = Some v.
Proof. by rewrite dict_get_set, String.eqb_refl. Qed.

Lemma dict_set_set d k a b : dict_set (dict_set d k a) k b = dict_set d k b.
Proof.
  induction d as [|[k0 v0] t IH]; simpl.
  - by rewrite String.eqb_refl.
  - destruct (String.eqb k k0) eqn:E; simpl; rewrite E; [done|]. by rewrite IH.
Qed.

Lemma dict_set_truthy d k v : truthy (VDict (dict_set d k v)) = true.
Proof.
  destruct d as [|[k0 v0] t]; simpl; [done|].
  by destruct (String.eqb k k0).
Qed.

Lemma str_eq_true s v : str_eq s v = true <-> v = VStr s.
Proof.
  destruct v; simpl; try (split; [discriminate|congruence]).
  rewrite String.eqb_eq. split; congruence.
Qed.

Lemma str_in_true s l : str_in s l = true <-> In (VStr s) l.
Proof.
  unfold str_in. rewrite existsb_exists. split.
  - intros (v & Hv & E). apply str_eq_true in E. by subst v.
  - intros H. exists (VStr s). split; [done|]. by apply str_eq_true.
Qed.

Lemma str_in_false s l : str_in s l = false <-> ~ In (VStr s) l.
Proof.
  rewrite <- str_in_true. destruct (str_in s l); split; try done.
Qed.

Lemma str_in_app s l1 l2 : str_in s (l1 ++ l2) = str_in s l1 || str_in s l2.
Proof. apply existsb_app. Qed.

End PyFacts.

Module FSFacts.
Import Py FS Spec.

Section Store.
Context {C : Type}.
Implicit Types (fs : gmap path (node C)) (p : path) (c : C).

Lemma write_file_ok fs p c fs' :
  write_file fs p c = Ok fs' ->
  p <> [] /\ fs' = <[p := File c]> fs /\ is_dir fs (parent p) = true.
Proof.
  unfold write_file. intros H. destruct p as [|a p]; [done|].
  destruct (is_dir fs (parent (a :: p))) eqn:Hd;
    repeat case_match; simplify_eq; done.
Qed.

Lemma file_at_insert fs p c : p <> [] -> file_at (<[p := File c]> fs) p = Some c.
Proof.
  intros Hp. unfold file_at. destruct p; [done|]. by rewrite lookup_insert_eq.
Qed.

Lemma file_at_exists fs p c : file_at fs p = Some c -> exists_ fs p = true.
Proof.
  unfold file_at, exists_. destruct p; [done|]. by destruct (fs !! _).
Qed.

Lemma file_at_read fs p c : file_at fs p = Some c -> read_file fs p = Ok c.
Proof.
  unfold file_at, read_file. destruct p; [done|].
  destruct (fs !! _) as [[|c0]|]; try done. by intros [= ->].
Qed.

Lemma write_file_file_at fs p c fs' :
  write_file fs p c = Ok fs' -> file_at fs' p = Some c.
Proof.
  intros H. apply write_file_ok in H as (Hp & -> & _).
  by apply file_at_insert.
Qed.

End Store.

End FSFacts.

(** ** The YAML documents of the uploader *)

Module UploaderYaml.
Import Text Py FS Spec Uploader PyFacts FSFacts.

(** Case analysis on a run of the monadic code in hypothesis [H]. *)
Ltac run_cases H :=
  repeat (first
    [ progress simplify_eq/=
    | progress unfold dict_mem in H
    | rewrite dict_get_set in H
    | match type of H with
      | context [py_contains _ ?v] => is_var v; destruct v
      | context [py_iter ?v] => is_var v; destruct v
      | context [py_append ?v] => is_var v; destruct v
      | context [py_getitem ?v] => is_var v; destruct v
      | context [py_get ?v] => is_var v; destruct v
      | context [py_setdefault ?v] => is_var v; destruct v
      | context [py_setitem ?v] => is_var v; destruct v
      end
    | case_match ]);
  try done.

Section Yaml.
Context {C : Type}.
Variable safe_load : C -> option value.
Variable safe_dump : bool -> value -> C.
Implicit Types (fs : gmap path (node C)) (p : path).

Lemma read_yaml_absent fs p :
  exists_ fs p = false -> _read_yaml safe_load fs p = Ok (VDict []).
Proof. unfold _read_yaml. by intros ->. Qed.

Lemma read_yaml_file fs p c v :
  file_at fs p = Some c -> safe_load c = Some v ->
  _read_yaml safe_load fs p = Ok (py_or v (VDict [])).
Proof.
  intros Hf Hl. unfold _read_yaml.
  rewrite (file_at_exists _ _ _ Hf), (file_at_read _ _ _ Hf). simpl.
  by rewrite Hl.
Qed.

(** What a successful run of [_ensure_team_yaml_has_package] did: nothing,
    or it wrote the document read with one entry more. *)
Lemma ensure_cases fs p ref c fs' :
  _ensure_team_yaml_has_package safe_load safe_dump fs p ref = Ok (c, fs') ->
  (c = false /\ fs' = fs) \/
  (c = true /\ exists d sw l,
      _read_yaml safe_load fs p = Ok (VDict d) /\
      (dict_get d "software" = Some (VDict sw) \/
       (sw = [] /\ (dict_get d "software" = None
                    \/ dict_get d "software" = Some VNone))) /\
      (dict_get sw "packages" = Some (VList l) \/
       (l = [] /\ (dict_get sw "packages" = None
                   \/ dict_get sw "packages" = Some VNone))) /\
      str_in ref (map pkg_ref l) = false /\
      write_file fs p (safe_dump false
         (VDict (dict_set d "software"
                   (VDict (dict_set sw "packages"
                             (VList (l ++ [new_entry ref])))))))
      = Ok fs').
Proof.
  unfold _ensure_team_yaml_has_package, missing_or_none, _write_yaml.
  intros H.
  destruct (_read_yaml safe_load fs p) as [y|] eqn:Hy; simpl in H; [|done].
  destruct y as [| | | |l0|d]; simpl in H; try done.
  - destruct (str_contains _ _); simpl in H; done.
  - destruct (str_in _ _); simpl in H; done.
  - run_cases H.
    all: try (left; done).
    all: repeat match goal with
           | H : is_none ?v = true |- _ => destruct v; try done; clear H
           end.
    all: rewrite ?dict_set_set in H.
    all: destruct (write_file _ _ _) as [fs1|] eqn:Hw; simplify_eq/=.
    all: right; split; [done|].
    + exists d, [], [].
      split_and!; [done|right; by auto|right; by auto|done|done].
    + exists d, [], [].
      split_and!; [done|right; by auto|right; by auto|done|done].
    + exists d, d0, [].
      split_and!; [done|by left|right; by auto|done|done].
    + exists d, d0, [].
      split_and!; [done|by left|right; by auto|done|done].
    + exists d, d0, l. split_and!; [done|by left|by left| |done].
      by apply negb_true_iff.
Qed.

(** A document that already lists the reference is left alone. *)
Lemma ensure_present fs p d sw l ref :
  _read_yaml safe_load fs p = Ok (VDict d) ->
  dict_get d "software" = Some (VDict sw) ->
  dict_get sw "packages" = Some (VList l) ->
  str_in ref (map pkg_ref l) = true ->
  _ensure_team_yaml_has_package safe_load safe_dump fs p ref = Ok (false, fs).
Proof.
  intros Hy Hs Hp Hin.
  unfold _ensure_team_yaml_has_package, missing_or_none. rewrite Hy. simpl.
  unfold dict_mem. rewrite Hs. simpl. rewrite Hs. simpl.
  unfold dict_mem. rewrite Hp. simpl. rewrite Hp. simpl.
  by rewrite Hin.
Qed.

Lemma team_packages_list fs p d sw l :
  _read_yaml safe_load fs p = Ok (VDict d) ->
  dict_get d "software" = Some (VDict sw) ->
  dict_get sw "packages" = Some (VList l) ->
  team_packages safe_load fs p = l.
Proof. intros Hy Hs Hp. unfold team_packages. by rewrite Hy, Hs, Hp. Qed.

Lemma team_packages_none fs p d sw l :
  _read_yaml safe_load fs p = Ok (VDict d) ->
  (dict_get d "software" = Some (VDict sw) \/
   (sw = [] /\ (dict_get d "software" = None
                \/ dict_get d "software" = Some VNone))) ->
  (dict_get sw "packages" = Some (VList l) \/
   (l = [] /\ (dict_get sw "packages" = None
               \/ dict_get sw "packages" = Some VNone))) ->
  team_packages safe_load fs p = l.
Proof.
  intros Hy Hs Hp. unfold team_packages. rewrite Hy.
  destruct Hs as [Hs|[-> [Hs|Hs]]]; rewrite Hs; [|by destruct Hp as [?|[-> ?]]..].
  destruct Hp as [Hp|[-> [Hp|Hp]]]; by rewrite Hp.
Qed.

Lemma pkg_ref_new_entry ref : pkg_ref (new_entry ref) = VStr ref.
Proof. reflexivity. Qed.

Section RoundTrip.
(** Loading what was dumped gives the document back. *)
Hypothesis round_trip : forall v, safe_load (safe_dump false v) = Some v.

(** C1, as amended.  After a run of [_ensure_team_yaml_has_package]: a
    second run with the same reference reports [False] and leaves the
    store as it is; the entries are the entries found, in their order
    and unchanged, followed by the new reference when the run reported
    [True]; the reference was not among the normalised entries when it
    was added, so that entries that normalised to distinct paths before
    do so afterwards. *)
Theorem ensure_team_reference fs p ref changed fs' :
  _ensure_team_yaml_has_package safe_load safe_dump fs p ref
    = Ok (changed, fs') ->
  _ensure_team_yaml_has_package safe_load safe_dump fs' p ref
    = Ok (false, fs')
  /\ team_packages safe_load fs' p
     = team_packages safe_load fs p
         ++ (if changed then [new_entry ref] else [])
  /\ (changed = true ->
      ~ In (VStr ref) (map pkg_ref (team_packages safe_load fs p)))
  /\ (NoDup (map pkg_ref (team_packages safe_load fs p)) ->
      NoDup (map pkg_ref (team_packages safe_load fs' p))).
Proof.
  intros H. destruct (ensure_cases _ _ _ _ _ H) as
    [[-> ->]|(-> & d & sw & l & Hy & Hs & Hp & Hin & Hw)].
  - rewrite app_nil_r. done.
  - pose proof (team_packages_none _ _ _ _ _ Hy Hs Hp) as Hl.
    set (sw' := dict_set sw "packages" (VList (l ++ [new_entry ref]))) in *.
    set (d' := dict_set d "software" (VDict sw')) in *.
    assert (Hy' : _read_yaml safe_load fs' p = Ok (VDict d')).
    { rewrite (read_yaml_file _ _ _ (VDict d')
                 (write_file_file_at _ _ _ _ Hw) (round_trip _)).
      unfold py_or, d'. by rewrite dict_set_truthy. }
    assert (Hs' : dict_get d' "software" = Some (VDict sw'))
      by apply dict_get_set_eq.
    assert (Hp' : dict_get sw' "packages"
                  = Some (VList (l ++ [new_entry ref])))
      by apply dict_get_set_eq.
    assert (Hl' : team_packages safe_load fs' p = l ++ [new_entry ref])
      by (by eapply team_packages_list).
    rewrite Hl', Hl. split_and!.
    + eapply ensure_present; [done..|].
      rewrite map_app, str_in_app. simpl.
      by rewrite String.eqb_refl, orb_true_r.
    + done.
    + intros _. by apply str_in_false.
    + intros Hnd. rewrite map_app. simpl.
      apply NoDup_app. split_and!; [done| |apply NoDup_singleton].
      intros x Hx Hx'. apply list_elem_of_singleton in Hx'. subst x.
      apply str_in_false in Hin. apply Hin. by apply list_elem_of_In.
Qed.

End RoundTrip.

End Yaml.

End UploaderYaml.

Module TeamReference.
Import Text Py FS Spec Uploader PyFacts FSFacts UploaderYaml Samples.

(** C1, as the claim states it, fails: a team file that lists a package
    twice still does so after a reference to another package was added.
    The run returns [True]; the normalised entries of the file it wrote
    are the three listed. *)
Lemma ensure_keeps_prior_duplicates :
  (fun r => (fst r, map pkg_ref (team_packages Plain.load (snd r) team_path)))
    <$> _ensure_team_yaml_has_package Plain.load Plain.dump
          twice_store team_path slack_ref
  = Ok (true, [VStr firefox_ref; VStr firefox_ref; VStr slack_ref])
  /\ ~ NoDup [VStr firefox_ref; VStr firefox_ref; VStr slack_ref].
Proof.
  split; [vm_compute; reflexivity|].
  intros H. apply NoDup_cons in H as [H _]. apply H. left.
Qed.

Lemma ensure_team_reference_witness :
  exists fs',
    _ensure_team_yaml_has_package Plain.load Plain.dump
      mixed_store team_path zoom_ref = Ok (true, fs')
    /\ _ensure_team_yaml_has_package Plain.load Plain.dump
         fs' team_path zoom_ref = Ok (false, fs')
    /\ team_packages Plain.load fs' team_path
       = team_packages Plain.load mixed_store team_path ++ [new_entry zoom_ref].
Proof.
  assert (Hc : fst <$> _ensure_team_yaml_has_package Plain.load Plain.dump
                         mixed_store team_path zoom_ref = Ok true)
    by (vm_compute; reflexivity).
  destruct (_ensure_team_yaml_has_package Plain.load Plain.dump
              mixed_store team_path zoom_ref) as [[c fs']|e] eqn:E;
    [|discriminate Hc].
  injection Hc as ->. exists fs'. split; [reflexivity|].
  destruct (ensure_team_reference Plain.load Plain.dump
              (fun v => eq_refl) _ _ _ _ _ E) as (H1 & H2 & _).
  split; [exact H1|exact H2].
Defined.



End TeamReference.

(** ** The package document *)

Module PackageDocument.
Import Text Py FS Spec Uploader PyFacts FSFacts UploaderYaml Samples.

Lemma dict_get_set_if c k v d k' :
  dict_get (set_if c k v d) k'
  = if c && String.eqb k' k then Some v else dict_get d k'.
Proof. unfold set_if. destruct c; simpl; [apply dict_get_set|done]. Qed.

Ltac block_lookup :=
  unfold pkg_block; rewrite !dict_get_set_if; simpl;
  rewrite ?andb_false_r, ?andb_true_r; reflexivity.

(** C2.  A run of [_write_or_update_package_yaml] that returns has written
    the document [{"package": pkg_block}], whatever the file held before.
    The block holds [name], [version] and [platform]; each optional key is
    there exactly when its field is set, with the value the claim names.
    With both label lists non-empty [_fleet_upload_package] raises a
    [ProcessorError] without sending anything, and so the start of [main],
    which calls it before the repository is touched, always ends in a
    [ProcessorError]. *)
Theorem package_document_from_fields
  {C R : Type} (safe_load : C -> option value) (safe_dump : bool -> value -> C)
  (send : request -> R -> outcome * R)
  (fs fs' : gmap path (node C)) (p : path) (f : package_fields) :
  _write_or_update_package_yaml safe_load safe_dump fs p f = Ok fs' ->
  fs' = <[p := File (safe_dump false (VDict [("package", VDict (pkg_block f))]))]> fs
  /\ dict_get (pkg_block f) "name" = Some (VStr (software_title f))
  /\ dict_get (pkg_block f) "version" = Some (VStr (version f))
  /\ dict_get (pkg_block f) "platform" = Some (VStr (platform f))
  /\ dict_get (pkg_block f) "hash_sha256"
     = (if truthy (hash_sha256 f) then Some (hash_sha256 f) else None)
  /\ dict_get (pkg_block f) "self_service"
     = (if self_service f then Some (VBool true) else None)
  /\ dict_get (pkg_block f) "labels_include_any"
     = (if nonempty_list (labels_include_any f)
        then Some (str_list (labels_include_any f)) else None)
  /\ dict_get (pkg_block f) "labels_exclude_any"
     = (if nonempty_list (labels_exclude_any f)
        then Some (str_list (labels_exclude_any f)) else None)
  /\ dict_get (pkg_block f) "automatic_install"
     = (if automatic_install f && is_macos (platform f)
        then Some (VBool true) else None)
  /\ dict_get (pkg_block f) "pre_install_query"
     = (if nonempty (pre_install_query f)
        then Some (VDict [("query", VStr (pre_install_query f))]) else None)
  /\ dict_get (pkg_block f) "install_script"
     = (if nonempty (install_script f)
        then Some (VDict [("contents", VStr (install_script f))]) else None)
  /\ dict_get (pkg_block f) "uninstall_script"
     = (if nonempty (uninstall_script f)
        then Some (VDict [("contents", VStr (uninstall_script f))]) else None)
  /\ dict_get (pkg_block f) "post_install_script"
     = (if nonempty (post_install_script f)
        then Some (VDict [("contents", VStr (post_install_script f))]) else None)
  /\ (forall base_url token pkg_path pkg_is_file team_id a_incl more_incl
             a_excl more_excl st,
        _fleet_upload_package send base_url token pkg_path pkg_is_file team_id
          (self_service f) (automatic_install f)
          (a_incl :: more_incl) (a_excl :: more_excl)
          (install_script f) (uninstall_script f) (pre_install_query f)
          (post_install_script f) st
        = (Raise (ProcessorError
             "Only one of labels_include_any or labels_exclude_any may be specified."),
           st))
  /\ (forall pkg_path pkg_is_file github_token base_url token team_id
             a_incl more_incl a_excl more_excl st,
        exists msg,
          main_upload_step send pkg_path pkg_is_file github_token base_url
            token team_id (self_service f) (automatic_install f)
            (a_incl :: more_incl) (a_excl :: more_excl)
            (install_script f) (uninstall_script f) (pre_install_query f)
            (post_install_script f) st
          = (Raise (ProcessorError msg), st)).
Proof.
  intros H. split_and!; try block_lookup.
  - unfold _write_or_update_package_yaml, _write_yaml in H.
    destruct (_read_yaml safe_load fs p); simpl in H; [|done].
    by apply write_file_ok in H as (_ & -> & _).
  - reflexivity.
  - intros pkg_path pkg_is_file github_token base_url token team_id
      a_incl more_incl a_excl more_excl st.
    unfold main_upload_step.
    destruct pkg_is_file; [|by eexists].
    destruct github_token; by eexists.
Qed.

Lemma package_document_from_fields_witness :
  exists fs',
    _write_or_update_package_yaml Plain.load Plain.dump
      repo_store firefox_yaml firefox_fields = Ok fs'
    /\ fs' = <[firefox_yaml := File firefox_doc]> repo_store
    /\ dict_get (pkg_block firefox_fields) "hash_sha256"
       = Some (VStr "9f86d081884c7d65")
    /\ dict_get (pkg_block firefox_fields) "labels_exclude_any" = None
    /\ dict_get (pkg_block firefox_fields) "install_script"
       = Some (VDict [("contents",
                       VStr "installer -pkg $INSTALLER_PATH -target /")]).
Proof.
  assert (Hc : (fun _ => tt) <$> _write_or_update_package_yaml
                 Plain.load Plain.dump repo_store firefox_yaml firefox_fields
               = Ok tt)
    by (vm_compute; reflexivity).
  destruct (_write_or_update_package_yaml Plain.load Plain.dump
              repo_store firefox_yaml firefox_fields) as [fs'|e] eqn:E;
    [|discriminate Hc].
  exists fs'. split; [reflexivity|].
  destruct (package_document_from_fields Plain.load Plain.dump Offline.send
              _ _ _ _ E)
    as (E' & _ & _ & _ & H4 & _ & _ & H7 & _ & _ & H10 & _ & _ & _ & _).
  split; [exact E'|]. split; [exact H4|]. split; [exact H7|exact H10].
Defined.

End PackageDocument.

(** ** Reading and writing YAML files *)

Module YamlStore.
Import Text Py FS Spec PyFacts FSFacts Samples ScriptSamples.

Lemma load_yaml_absent (load : string -> option value)
  (fs : gmap path (node string)) p :
  exists_ fs p = false -> Script.load_yaml load fs p = Ok (VDict []).
Proof. unfold Script.load_yaml. by intros ->. Qed.

Lemma load_yaml_file (load : string -> option value)
  (fs : gmap path (node string)) p c v :
  file_at fs p = Some c -> load c = Some v ->
  Script.load_yaml load fs p = Ok (py_or v (VDict [])).
Proof.
  intros Hf Hl. unfold Script.load_yaml.
  rewrite (file_at_exists _ _ _ Hf), (file_at_read _ _ _ Hf). simpl.
  by rewrite Hl.
Qed.

(** C6.  Reading a path at which there is nothing, or a file that parses to
    [None], returns the empty mapping: in [_read_yaml] and in [load_yaml]. *)
Theorem yaml_read_absent_or_empty
  (load : string -> option value) (fs : gmap path (node string)) (p : path) :
  absent_or_null load fs p ->
  Uploader._read_yaml load fs p = Ok (VDict [])
  /\ Script.load_yaml load fs p = Ok (VDict []).
Proof.
  intros [H|(c & Hc & Hl)].
  - split; [by apply UploaderYaml.read_yaml_absent|by apply load_yaml_absent].
  - split.
    + by rewrite (UploaderYaml.read_yaml_file _ _ _ _ _ Hc Hl).
    + by rewrite (load_yaml_file _ _ _ _ _ Hc Hl).
Qed.

Lemma yaml_read_absent_or_empty_witness :
  (absent_or_null (Table.load yaml_table) (team_store empty_text) team_path
   /\ absent_or_null (Table.load yaml_table) (team_store empty_text)
        ["teams"; "servers.yml"])
  /\ (Uploader._read_yaml (Table.load yaml_table) (team_store empty_text)
        team_path = Ok (VDict [])
      /\ Script.load_yaml (Table.load yaml_table) (team_store empty_text)
           team_path = Ok (VDict []))
  /\ (Uploader._read_yaml (Table.load yaml_table) (team_store empty_text)
        ["teams"; "servers.yml"] = Ok (VDict [])
      /\ Script.load_yaml (Table.load yaml_table) (team_store empty_text)
           ["teams"; "servers.yml"] = Ok (VDict [])).
Proof.
  assert (H1 : absent_or_null (Table.load yaml_table) (team_store empty_text)
                 team_path)
    by (right; exists empty_text; split; reflexivity).
  assert (H2 : absent_or_null (Table.load yaml_table) (team_store empty_text)
                 ["teams"; "servers.yml"])
    by (left; reflexivity).
  split; [by split|].
  split; apply yaml_read_absent_or_empty; assumption.
Defined.

(** C7.  In the checked-out repository the package file of the slug
    ["Mozilla/firefox"] lies in a directory that is not there yet:
    [dump_yaml] creates the directory and writes the file, [_write_yaml]
    raises [FileNotFoundError]. *)
Theorem write_yaml_needs_parent
  (safe_dump : bool -> value -> string) (yaml_dump : value -> string)
  (data : value) :
  Uploader._write_yaml safe_dump repo_store nested_yaml data
  = Raise FileNotFoundError
  /\ (fun fs' => (file_at fs' nested_yaml, is_dir fs' (parent nested_yaml)))
       <$> Script.dump_yaml yaml_dump repo_store data nested_yaml
     = Ok (Some (yaml_dump data), true).
Proof. split; vm_compute; reflexivity. Qed.

End YamlStore.

(** ** The commit step *)

Module CommitStep.
Import Text Py FS Spec Uploader GitModel.

Section Git.
Context {W : Type}.
Variable git : list string -> option path -> W -> completed * W.

(** Whatever [git] is: when [git status --porcelain] exits with 0 and
    prints nothing but white space, the step issues no other command and
    returns. *)
Theorem safe_commit_skips message cwd (st : git_state W) proc w :
  git status_cmd cwd (world st) = (proc, w) ->
  returncode proc = 0%Z ->
  strip_space (stdout proc) = "" ->
  _git_safe_commit git message cwd st
  = (Ok tt, {| world := w; issued := issued st ++ [status_cmd] |}).
Proof.
  intros Hs Hrc Hout. unfold _git_safe_commit, _git, mbind, M_bind.
  fold status_cmd. rewrite Hs, Hrc, Hout. reflexivity.
Qed.

(** When it prints something, exactly one more command is issued,
    [git commit -m message], and the step returns when that exits
    with 0. *)
Theorem safe_commit_commits message cwd (st : git_state W) proc w proc' w' :
  git status_cmd cwd (world st) = (proc, w) ->
  returncode proc = 0%Z ->
  strip_space (stdout proc) <> "" ->
  git (commit_cmd message) cwd w = (proc', w') ->
  snd (_git_safe_commit git message cwd st)
  = {| world := w';
       issued := issued st ++ [status_cmd] ++ [commit_cmd message] |}
  /\ (returncode proc' = 0%Z ->
      fst (_git_safe_commit git message cwd st) = Ok tt)
  /\ (returncode proc' <> 0%Z ->
      fst (_git_safe_commit git message cwd st)
      = Raise (ProcessorError
                 ("git commit -m " +:+ message +:+ " failed: "
                    +:+ strip_space (stderr proc')))).
Proof.
  intros Hs Hrc Hout Hc. unfold _git_safe_commit, _git, mbind, M_bind.
  fold status_cmd. rewrite Hs, Hrc. simpl.
  destruct (strip_space (stdout proc)) as [|c0 s0] eqn:E; [done|]. simpl.
  fold (commit_cmd message). rewrite Hc. simpl.
  rewrite <- app_assoc. simpl.
  destruct (returncode proc' =? 0)%Z eqn:Erc; simpl.
  - apply Z.eqb_eq in Erc. split_and!; [done|done|congruence].
  - apply Z.eqb_neq in Erc. split_and!; [done|congruence|].
    intros _. reflexivity.
Qed.

End Git.

Lemma safe_commit_skips_witness :
  _git_safe_commit git "feat(software): Firefox.app 128.0 [firefox]" None
    {| world := clean_clone; issued := [] |}
  = (Ok tt, {| world := clean_clone; issued := [] ++ [status_cmd] |}).
Proof.
  apply (safe_commit_skips git _ None {| world := clean_clone; issued := [] |}
           {| returncode := 0; stdout := ""; stderr := "" |} clean_clone);
    reflexivity.
Defined.

Lemma safe_commit_commits_witness :
  snd (_git_safe_commit git "feat(software): Firefox.app 128.0 [firefox]" None
         {| world := staged_clone; issued := [] |})
  = {| world := {| staged := []; unstaged := []; untracked := [];
                   commits := ["feat(software): Firefox.app 128.0 [firefox]"] |};
       issued := [status_cmd;
                  commit_cmd "feat(software): Firefox.app 128.0 [firefox]"] |}
  /\ fst (_git_safe_commit git "feat(software): Firefox.app 128.0 [firefox]" None
            {| world := staged_clone; issued := [] |}) = Ok tt.
Proof.
  destruct (safe_commit_commits git
              "feat(software): Firefox.app 128.0 [firefox]" None
              {| world := staged_clone; issued := [] |}
              (fst (git status_cmd None staged_clone)) staged_clone
              (fst (git (commit_cmd "feat(software): Firefox.app 128.0 [firefox]")
                      None staged_clone))
              (snd (git (commit_cmd "feat(software): Firefox.app 128.0 [firefox]")
                      None staged_clone))
              eq_refl eq_refl ltac:(discriminate) eq_refl) as (H1 & H2 & _).
  split; [exact H1|exact (H2 eq_refl)].
Defined.

(** C8.  In a clone where a tracked file shows as modified and nothing is
    staged, [git status --porcelain] prints a line, so the commit step of
    [main] issues [git commit], which fails: the step raises, where the
    claim has it skip the commit silently. *)
Theorem commit_step_without_staged_changes :
  staged dirty_clone = []
  /\ main_commit_step git "Firefox.app" "128.0" "firefox" ["repo"]
       {| world := dirty_clone; issued := [] |}
     = (Raise (ProcessorError
          "git commit -m feat(software): Firefox.app 128.0 [firefox] failed: "),
        {| world := dirty_clone;
           issued := [status_cmd;
                      commit_cmd "feat(software): Firefox.app 128.0 [firefox]"] |}).
Proof. split; vm_compute; reflexivity. Qed.

End CommitStep.

(** ** The pull request *)

Module PullRequest.
Import Text Py FS Spec Uploader GitHub.

Section Http.
Context {R : Type}.
Variable send : request -> R -> outcome * R.
Implicit Types (st : http_state R) (r : response).

Lemma requests_send_response st rq r rem :
  send rq (remote st) = (Response r, rem) ->
  requests_send send rq st = (Ok r, after_request st rq rem).
Proof. intros H. unfold requests_send. by rewrite H. Qed.

Lemma requests_send_failed st rq rem :
  send rq (remote st) = (Failed, rem) ->
  requests_send send rq st = (Raise RequestException, after_request st rq rem).
Proof. intros H. unfold requests_send. by rewrite H. Qed.

(** The search for an open pull request returns the URL of the first
    item found. *)
Lemma find_existing_found repo token head base st rs rem ds it more u :
  send (search_request repo token head base) (remote st) = (Response rs, rem) ->
  ok rs = true ->
  json rs = Some (VDict ds) ->
  dict_get ds "items" = Some (VList (VDict it :: more)) ->
  dict_get it "html_url" = Some u ->
  _find_existing_pr_url send repo token head base st
  = (Ok u, after_request st (search_request repo token head base) rem).
Proof.
  intros Hs Hok Hj Hi Hu. unfold _find_existing_pr_url, mbind, M_bind.
  fold (search_request repo token head base).
  rewrite (requests_send_response _ _ _ _ Hs), Hok.
  unfold lift, response_json. rewrite Hj. simpl. rewrite Hi. simpl.
  by rewrite Hu.
Qed.

(** C9, as amended.  Let the creation request be answered by [r].
    - Any status but 201 and 422 raises a [ProcessorError] that carries
      the status and the text of the answer.
    - A 422 whose body has neither a URL nor a number makes the call
      return what the search for an open pull request of the head and
      base returns; when the search finds one, that is its URL.
    - When labels are asked for and the answer has a URL and a number,
      the labels request is sent and its answer is ignored: the call
      returns the URL whatever the status of that answer. *)
Theorem open_pull_request_answers
  github_repo token head base title body labels st r rem :
  send (create_request github_repo token head base title body) (remote st)
    = (Response r, rem) ->
  let st1 := after_request st
               (create_request github_repo token head base title body) rem in
  (status_code r <> 201%Z -> status_code r <> 422%Z ->
   _open_pull_request send github_repo token head base title body labels st
   = (Raise (ProcessorError
               ("PR creation failed: " +:+ pretty (status_code r) +:+ " "
                  +:+ text r)), st1))
  /\ (forall d,
        status_code r = 422%Z -> json r = Some (VDict d) ->
        dict_get d "html_url" = None -> dict_get d "number" = None ->
        _open_pull_request send github_repo token head base title body
          labels st
        = (let '(u, st2) :=
             _find_existing_pr_url send github_repo token head base st1 in
           ((fun u => py_or u (VStr "")) <$> u, st2))
        /\ (forall rs rem2 ds it more u,
              send (search_request github_repo token head base) rem
                = (Response rs, rem2) ->
              ok rs = true -> json rs = Some (VDict ds) ->
              dict_get ds "items" = Some (VList (VDict it :: more)) ->
              dict_get it "html_url" = Some u -> truthy u = true ->
              _open_pull_request send github_repo token head base title
                body labels st
              = (Ok u,
                 after_request st1
                   (search_request github_repo token head base) rem2)))
  /\ (forall d u n resp rem2,
        status_code r = 201%Z \/ status_code r = 422%Z ->
        json r = Some (VDict d) ->
        dict_get d "html_url" = Some u -> truthy u = true ->
        dict_get d "number" = Some n -> labels <> [] ->
        send (labels_request github_repo token n labels) rem
          = (Response resp, rem2) ->
        _open_pull_request send github_repo token head base title body
          labels st
        = (Ok u,
           after_request st1 (labels_request github_repo token n labels)
             rem2)).
Proof.
  intros Hc st1.
  assert (Hsend : requests_send send
            (create_request github_repo token head base title body) st
          = (Ok r, st1)) by by apply requests_send_response.
  split_and!.
  - intros H1 H2. unfold _open_pull_request, mbind, M_bind.
    fold (create_request github_repo token head base title body).
    rewrite Hsend.
    apply Z.eqb_neq in H1, H2. by rewrite H1, H2.
  - intros d H422 Hj Hu Hn.
    assert (E : _open_pull_request send github_repo token head base title
                  body labels st
                = (let '(u, st2) :=
                     _find_existing_pr_url send github_repo token head base st1 in
                   ((fun u => py_or u (VStr "")) <$> u, st2))).
    { unfold _open_pull_request, mbind, M_bind.
      fold (create_request github_repo token head base title body).
      rewrite Hsend, H422. simpl.
      unfold lift, response_json. rewrite Hj. simpl. rewrite Hu. simpl.
      destruct (_find_existing_pr_url send github_repo token head base st1)
        as [[u|e] st2]; [|done].
      simpl. destruct (nonempty_list labels && truthy u); simpl;
        unfold dict_mem; rewrite ?Hn; reflexivity. }
    split; [exact E|].
    intros rs rem2 ds it more u Hs Hok Hjs Hi Hurl Ht. rewrite E.
    rewrite (find_existing_found _ _ _ _ st1 _ _ _ _ _ _ Hs Hok Hjs Hi Hurl).
    simpl. unfold py_or. by rewrite Ht.
  - intros d u n resp rem2 Hst Hj Hu Ht Hn Hl Hs.
    unfold _open_pull_request, mbind, M_bind.
    fold (create_request github_repo token head base title body).
    rewrite Hsend.
    assert (negb ((status_code r =? 201)%Z || (status_code r =? 422)%Z)
            = false) as ->.
    { destruct Hst as [-> | ->]; reflexivity. }
    unfold lift, response_json. rewrite Hj. simpl. rewrite Hu. simpl.
    rewrite Ht. unfold mret, M_ret.
    destruct labels as [|l0 ls]; [done|]. simpl.
    rewrite Ht. unfold dict_mem. rewrite Hn.
    fold (labels_request github_repo token n (l0 :: ls)).
    rewrite (requests_send_response st1 _ _ _ Hs).
    unfold py_or. by rewrite Ht.
Qed.

End Http.

(** C9, as the claim states it, fails: when the labels request itself
    fails (it times out, say), the exception is not caught and the whole
    call raises, although the pull request was created. *)
Lemma labels_failure_is_fatal :
  _open_pull_request (send created found Failed)
    repo "token" branch "main" "Firefox.app 128.0" "body" ["autopkg"] start
  = (Raise RequestException,
     {| remote := tt;
        sent := [create_request repo "token" branch "main"
                   "Firefox.app 128.0" "body";
                 labels_request repo "token" (VInt 7) ["autopkg"]] |}).
Proof. vm_compute. reflexivity. Qed.

Lemma open_pull_request_answers_witness :
  (* an error status of the labels request does not matter *)
  _open_pull_request (send created found label_error)
    repo "token" branch "main" "Firefox.app 128.0" "body" ["autopkg"] start
  = (Ok (VStr pull_url),
     {| remote := tt;
        sent := [create_request repo "token" branch "main"
                   "Firefox.app 128.0" "body";
                 labels_request repo "token" (VInt 7) ["autopkg"]] |})
  (* a conflict falls back to the search *)
  /\ _open_pull_request (send conflict found label_error)
       repo "token" branch "main" "Firefox.app 128.0" "body" ["autopkg"] start
     = (Ok (VStr pull_url),
        {| remote := tt;
           sent := [create_request repo "token" branch "main"
                      "Firefox.app 128.0" "body";
                    search_request repo "token" branch "main"] |})
  (* any other status is fatal *)
  /\ _open_pull_request (send server_error found label_error)
       repo "token" branch "main" "Firefox.app 128.0" "body" ["autopkg"] start
     = (Raise (ProcessorError
                 "PR creation failed: 500 Internal Server Error"),
        {| remote := tt;
           sent := [create_request repo "token" branch "main"
                      "Firefox.app 128.0" "body"] |}).
Proof.
  split_and!.
  - destruct (open_pull_request_answers (send created found label_error)
                repo "token" branch "main" "Firefox.app 128.0" "body"
                ["autopkg"] start _ tt eq_refl) as (_ & _ & H).
    exact (H _ (VStr pull_url) (VInt 7) _ tt (or_introl eq_refl) eq_refl
             eq_refl eq_refl eq_refl ltac:(discriminate) eq_refl).
  - destruct (open_pull_request_answers (send conflict found label_error)
                repo "token" branch "main" "Firefox.app 128.0" "body"
                ["autopkg"] start _ tt eq_refl) as (_ & H & _).
    destruct (H _ eq_refl eq_refl eq_refl eq_refl) as [_ H'].
    exact (H' _ tt _ _ [] (VStr pull_url) eq_refl eq_refl eq_refl eq_refl
             eq_refl eq_refl).
  - destruct (open_pull_request_answers (send server_error found label_error)
                repo "token" branch "main" "Firefox.app 128.0" "body"
                ["autopkg"] start _ tt eq_refl) as (H & _).
    exact (H ltac:(discriminate) ltac:(discriminate)).
Defined.

End PullRequest.

(** ** The documents of the script *)

Module ScriptDocs.
Import Text Py FS Spec Script PyFacts FSFacts UploaderYaml ScriptSamples.

Lemma dump_yaml_file_at (yaml_dump : value -> string)
  (fs fs' : gmap path (node string)) data p :
  dump_yaml yaml_dump fs data p = Ok fs' ->
  file_at fs' p = Some (yaml_dump data).
Proof.
  unfold dump_yaml. destruct (mkdir_parents fs (parent p)); simpl; [|done].
  apply write_file_file_at.
Qed.

(** The [spec] block [ensure_pkgfile] leaves: the hash is the one given;
    the name and the platform are those the document had, and the name
    given and ["darwin"] when it had none. *)
Lemma pkgfile_data_fields prior name hash_value data :
  pkgfile_data prior name hash_value = Ok data ->
  spec_field data "hash_sha256" = Some (VStr hash_value)
  /\ spec_field data "name"
     = Some (default (VStr name) (spec_field prior "name"))
  /\ spec_field data "platform"
     = Some (default (VStr "darwin") (spec_field prior "platform")).
Proof.
  unfold pkgfile_data, py_setdefault, dict_setdefault. intros H.
  destruct (truthy prior) eqn:Ht; simpl in H.
  - destruct prior as [| | | | |d]; simpl in H; try done.
    destruct (dict_get d "spec") as [sp|] eqn:Hs; simpl in H.
    + destruct sp as [| | | | |s]; simpl in H; try done.
      destruct (dict_get s "name") as [n|] eqn:Hn; simpl in H.
      * destruct (dict_get s "platform") as [pl|] eqn:Hp; simpl in H;
          simplify_eq; simpl; rewrite ?dict_get_set_eq; simpl;
          rewrite ?dict_get_set; simpl; rewrite Hs, ?Hn, ?Hp; simpl;
          rewrite ?Hn, ?Hp; done.
      * rewrite dict_get_set in H. simpl in H.
        destruct (dict_get s "platform") as [pl|] eqn:Hp; simpl in H;
          simplify_eq; simpl; rewrite ?dict_get_set_eq; simpl;
          rewrite ?dict_get_set; simpl; rewrite Hs, ?Hn, ?Hp; simpl;
          rewrite ?Hn, ?Hp; done.
    + simplify_eq. simpl. rewrite dict_get_set_eq. simpl.
      by rewrite Hs.
  - destruct prior as [| | | | |d]; simpl in H; try done.
    destruct d; [|done]. by simplify_eq.
Qed.

(** C3, as amended.  After [ensure_pkgfile] the file holds a document whose
    [spec] block has the hash given; its name and its platform are those
    of the document read, and the name given and ["darwin"] only where the
    document read had none. *)
Theorem ensure_pkgfile_merge
  (yaml_load : string -> option value) (yaml_dump : value -> string)
  (fs fs' : gmap path (node string)) (pkgfile : path)
  (name hash_value : string) :
  ensure_pkgfile yaml_load yaml_dump fs pkgfile name hash_value = Ok fs' ->
  exists prior data,
    load_yaml yaml_load fs pkgfile = Ok prior
    /\ file_at fs' pkgfile = Some (yaml_dump data)
    /\ spec_field data "hash_sha256" = Some (VStr hash_value)
    /\ spec_field data "name"
       = Some (default (VStr name) (spec_field prior "name"))
    /\ spec_field data "platform"
       = Some (default (VStr "darwin") (spec_field prior "platform")).
Proof.
  unfold ensure_pkgfile. intros H.
  destruct (load_yaml yaml_load fs pkgfile) as [prior|] eqn:Hl;
    simpl in H; [|done].
  destruct (pkgfile_data prior name hash_value) as [data|] eqn:Hd;
    simpl in H; [|done].
  exists prior, data. split; [done|].
  split; [by eapply dump_yaml_file_at|].
  by apply pkgfile_data_fields.
Qed.

Lemma ensure_pkgfile_merge_witness :
  exists fs' prior data,
    ensure_pkgfile (Table.load yaml_table) dump_any pkg_store pkgfile
      "Firefox.app" "9f86d0" = Ok fs'
    /\ load_yaml (Table.load yaml_table) pkg_store pkgfile = Ok prior
    /\ file_at fs' pkgfile = Some (dump_any data)
    /\ spec_field data "hash_sha256" = Some (VStr "9f86d0")
    /\ spec_field data "name"
       = Some (default (VStr "Firefox.app") (spec_field prior "name"))
    /\ spec_field data "platform"
       = Some (default (VStr "darwin") (spec_field prior "platform")).
Proof.
  assert (Hc : (fun _ => tt) <$> ensure_pkgfile (Table.load yaml_table)
                 dump_any pkg_store pkgfile "Firefox.app" "9f86d0" = Ok tt)
    by (vm_compute; reflexivity).
  destruct (ensure_pkgfile (Table.load yaml_table) dump_any pkg_store pkgfile
              "Firefox.app" "9f86d0") as [fs'|e] eqn:E; [|discriminate Hc].
  destruct (ensure_pkgfile_merge _ _ _ _ _ _ _ E) as (prior & data & H).
  exists fs', prior, data. split; [reflexivity|exact H].
Defined.

(** C3, as the claim states it, fails: the platform of a package document
    is not refreshed.  A document written for ["windows"] keeps that
    platform, while name and hash behave as claimed. *)
Lemma ensure_pkgfile_keeps_platform :
  (fun data => (spec_field data "platform", spec_field data "name",
                spec_field data "hash_sha256"))
    <$> pkgfile_data windows_doc "Firefox.app" "9f86d0"
  = Ok (Some (VStr "windows"), Some (VStr "Firefox"), Some (VStr "9f86d0")).
Proof. vm_compute. reflexivity. Qed.

(** C4.  A team file whose package list holds a bare path: [ensure_team]
    calls [get] on the string and raises [AttributeError];
    [_ensure_team_yaml_has_package] normalises the entry to itself, finds
    the reference present, and adds one that is not. *)
Theorem ensure_team_rejects_bare_string :
  ensure_team (Table.load yaml_table) dump_any (team_store bare_team_text)
    team_path "slack" (VBool true)
  = Raise AttributeError
  /\ fst <$> Uploader._ensure_team_yaml_has_package (Table.load yaml_table)
               (fun _ => dump_any) (team_store bare_team_text) team_path
               "../lib/software/firefox.package.yml"
     = Ok false
  /\ fst <$> Uploader._ensure_team_yaml_has_package (Table.load yaml_table)
               (fun _ => dump_any) (team_store bare_team_text) team_path
               "../lib/software/slack.package.yml"
     = Ok true.
Proof. split_and!; vm_compute; reflexivity. Qed.

End ScriptDocs.

(** ** The policy file *)

Module Policy.
Import Text Py FS Spec Script PyFacts FSFacts PolicySamples.

#[local] Arguments String.append !s1 s2 /.

Lemma append_assoc (a b c : string) : (a +:+ b) +:+ c = a +:+ (b +:+ c).
Proof. induction a as [|x a IH]; simpl; [done|]. by f_equal. Qed.

Lemma length_append (a b : string) :
  String.length (a +:+ b) = String.length a + String.length b.
Proof. induction a as [|x a IH]; simpl; [done|]. by rewrite IH. Qed.


Lemma strip_prefix_app p s r : strip_prefix p s = Some r -> s = p +:+ r.
Proof.
  revert s. induction p as [|a p IH]; intros s; simpl.
  - by intros [= ->].
  - destruct s as [|b s]; [done|].
    destruct (Ascii.eqb a b) eqn:E; [|done].
    apply Ascii.eqb_eq in E. subst b. intros H. by rewrite (IH _ H).
Qed.









Lemma has_char_append c a b :
  has_char c (a +:+ b) = has_char c a || has_char c b.
Proof.
  induction a as [|x a IH]; simpl; [done|]. rewrite IH. by rewrite orb_assoc.
Qed.




(** C10.  The version is inserted as a replacement template of [re.sub],
    not as text: with the version [128.0\n] (a backslash and an [n]) the
    literal written ends in a line break, and with [128.0\q] the call
    raises [re.error]; the claim has the literal become the version. *)
Theorem bump_policy_backslash_version :
  (fun fs' => file_at fs' policy_file)
    <$> bump_policy policy_store ["repo"] "firefox" "128.0\n"
  = Ok (Some (policy_text ("128.0" +:+ nl)))
  /\ policy_text ("128.0" +:+ nl) <> policy_text "128.0\n"
  /\ bump_policy policy_store ["repo"] "firefox" "128.0\q" = Raise re_error.
Proof.
  split; [vm_compute; reflexivity|]. split; [|vm_compute; reflexivity].
  vm_compute. discriminate.
Qed.

End Policy.

(** ** Writing below directories that are not there *)

Module ParentDirs.
Import Text Py FS Spec Script PyFacts FSFacts.

Section Store.
Context {C : Type}.
Implicit Types (fs : gmap path (node C)) (p q : path).

Lemma prefix_step (done : path) c rest k :
  (done ++ [c]) ++ take k rest = done ++ take (S k) (c :: rest).
Proof. by rewrite <- app_assoc. Qed.

Lemma prefix_longer (here : path) rest k :
  0 < k <= length rest -> here <> here ++ take k rest.
Proof.
  intros Hk E. apply (f_equal length) in E.
  rewrite length_app, length_take in E. lia.
Qed.

(** [mkdir(parents=True, exist_ok=True)] returns when no directory on the
    way is a file; it then has made every directory on the way and
    touched nothing else. *)
Lemma mkdir_from_ok todo : forall fs done,
  (forall k c, 0 < k <= length todo ->
               fs !! (done ++ take k todo) <> Some (File c)) ->
  exists fs',
    mkdir_from fs done todo = Ok fs'
    /\ (forall q, (forall k, 0 < k <= length todo -> q <> done ++ take k todo) ->
                  fs' !! q = fs !! q)
    /\ (forall k, 0 < k <= length todo ->
                  fs' !! (done ++ take k todo) = Some Dir).
Proof.
  induction todo as [|c rest IH]; intros fs done Hnf.
  - exists fs. simpl. split_and!; [done|done|intros; lia].
  - simpl mkdir_from. set (here := done ++ [c]).
    assert (Hhere : here = done ++ take 1 (c :: rest)) by done.
    assert (Hpre : forall fs0,
              (forall q, q <> here -> fs0 !! q = fs !! q) ->
              forall k c0, 0 < k <= length rest ->
                fs0 !! (here ++ take k rest) <> Some (File c0)).
    { intros fs0 H0 k c0 Hk. rewrite H0.
      - unfold here. rewrite prefix_step. apply Hnf. simpl. lia.
      - intros E. by apply (prefix_longer here rest k). }
    assert (Hfin : forall fs0 fs',
              fs0 !! here = Some Dir ->
              (forall q, q <> here -> fs0 !! q = fs !! q) ->
              mkdir_from fs0 here rest = Ok fs' ->
              (forall q, (forall k, 0 < k <= length rest ->
                                    q <> here ++ take k rest) ->
                         fs' !! q = fs0 !! q) ->
              (forall k, 0 < k <= length rest ->
                         fs' !! (here ++ take k rest) = Some Dir) ->
              (forall q, (forall k, 0 < k <= length (c :: rest) ->
                                    q <> done ++ take k (c :: rest)) ->
                         fs' !! q = fs !! q)
              /\ (forall k, 0 < k <= length (c :: rest) ->
                            fs' !! (done ++ take k (c :: rest)) = Some Dir)).
    { intros fs0 fs' Hd H0 _ Ha Hb. split.
      - intros q Hq. rewrite Ha.
        + apply H0. rewrite Hhere. apply Hq. simpl. lia.
        + intros k Hk. unfold here. rewrite prefix_step. apply Hq. simpl. lia.
      - intros k Hk. destruct k as [|k]; [lia|]. destruct k as [|k].
        + rewrite <- Hhere. rewrite Ha; [done|].
          intros k Hk'. by apply prefix_longer.
        + rewrite <- prefix_step. apply Hb. simpl in Hk. lia. }
    destruct (fs !! here) as [[|c0]|] eqn:El.
    + destruct (IH fs here (Hpre fs (fun _ _ => eq_refl)))
        as (fs' & Hm & Ha & Hb).
      exists fs'. split; [done|].
      by apply (Hfin fs fs').
    + exfalso. apply (Hnf 1 c0); [simpl; lia|]. by rewrite <- Hhere.
    + assert (H0 : forall q, q <> here -> <[here := Dir]> fs !! q = fs !! q)
        by (intros q Hq; by apply lookup_insert_ne).
      destruct (IH (<[here := Dir]> fs) here (Hpre _ H0))
        as (fs' & Hm & Ha & Hb).
      exists fs'. split; [done|].
      apply (Hfin (<[here := Dir]> fs) fs'); try done.
      apply lookup_insert_eq.
Qed.

End Store.

(** [dump_yaml] creates the directories that are missing above the file:
    when the path is not a directory and none of the directories above it
    is a file, the call returns; the file then holds the dumped document,
    it lies in a directory, and the other files are as they were. *)
Theorem dump_yaml_creates_parents
  (yaml_dump : value -> string) (fs : gmap path (node string))
  (data : value) (p : path) :
  p <> [] ->
  is_dir fs p = false ->
  (forall k c, 0 < k <= length (parent p) ->
               fs !! take k (parent p) <> Some (File c)) ->
  exists fs',
    dump_yaml yaml_dump fs data p = Ok fs'
    /\ file_at fs' p = Some (yaml_dump data)
    /\ is_dir fs' (parent p) = true
    /\ (forall q c, q <> p -> file_at fs q = Some c -> file_at fs' q = Some c).
Proof.
  intros Hp Hnd Hanc.
  destruct (mkdir_from_ok (parent p) fs [] Hanc) as (fs1 & Hm & Ha & Hb).
  assert (Hlen : length (parent p) = length p - 1).
  { unfold parent. rewrite removelast_firstn_len, length_take. lia. }
  assert (Hpp : forall k, 0 < k <= length (parent p) -> p <> take k (parent p)).
  { intros k Hk E. apply (f_equal length) in E. rewrite length_take in E.
    destruct p; [done|]. simpl in *. lia. }
  assert (Hdir : is_dir fs1 (parent p) = true).
  { unfold is_dir. destruct (parent p) as [|a l] eqn:E; [done|].
    specialize (Hb (length (a :: l)) ltac:(simpl; lia)).
    rewrite firstn_all, app_nil_l in Hb. by rewrite Hb. }
  assert (Hsame : fs1 !! p = fs !! p) by (apply Ha; intros k Hk; by apply Hpp).
  assert (Hw : write_file fs1 p (yaml_dump data)
               = Ok (<[p := File (yaml_dump data)]> fs1)).
  { unfold write_file. destruct p as [|a l]; [done|].
    rewrite Hsame, Hdir. unfold is_dir in Hnd.
    by destruct (fs !! (a :: l)) as [[|c0]|]. }
  exists (<[p := File (yaml_dump data)]> fs1).
  unfold dump_yaml, mkdir_parents. rewrite Hm. simpl. split; [done|].
  split; [by apply file_at_insert|]. split.
  - unfold is_dir in *. destruct (parent p) as [|a l] eqn:E; [done|].
    rewrite lookup_insert_ne; [done|].
    intros E'. apply (f_equal length) in E'.
    destruct p; [done|]. simpl in E', Hlen. lia.
  - intros q c Hq Hf. unfold file_at in *. destruct q as [|b q']; [done|].
    rewrite lookup_insert_ne by done.
    destruct (fs !! (b :: q')) as [[|c1]|] eqn:El; try done.
    rewrite Ha; [by rewrite El|]. intros k Hk E.
    apply (Hanc k c1 Hk). rewrite app_nil_l in E. by rewrite <- E.
Qed.

Lemma dump_yaml_creates_parents_witness :
  exists fs',
    dump_yaml ScriptSamples.dump_any Samples.repo_store
      ScriptSamples.bare_team_doc Samples.nested_yaml = Ok fs'
    /\ file_at fs' Samples.nested_yaml
       = Some (ScriptSamples.dump_any ScriptSamples.bare_team_doc)
    /\ is_dir fs' (parent Samples.nested_yaml) = true
    /\ (forall q c, q <> Samples.nested_yaml ->
                    file_at Samples.repo_store q = Some c ->
                    file_at fs' q = Some c).
Proof.
  apply dump_yaml_creates_parents; [done|by vm_compute|].
  intros k c Hk. simpl in Hk.
  destruct k as [|[|[|[|[|k]]]]]; try lia; by vm_compute.
Defined.

(** [_write_yaml] creates no directory: it writes the document, dumped
    with [sort_keys=False], when the file's directory is there, and raises
    [FileNotFoundError] when nothing is there. *)
Theorem write_yaml_parent
  {C : Type} (safe_dump : bool -> value -> C) (fs : gmap path (node C))
  (p : path) (data : value) :
  p <> [] ->
  is_dir fs p = false ->
  (is_dir fs (parent p) = true ->
   Uploader._write_yaml safe_dump fs p data
   = Ok (<[p := File (safe_dump false data)]> fs))
  /\ (exists_ fs (parent p) = false ->
      Uploader._write_yaml safe_dump fs p data = Raise FileNotFoundError).
Proof.
  intros Hp Hnd. unfold Uploader._write_yaml, write_file.
  destruct p as [|a l]; [done|]. unfold is_dir in Hnd.
  split; intros H.
  - rewrite H. by destruct (fs !! (a :: l)) as [[|c]|].
  - assert (is_dir fs (parent (a :: l)) = false) as ->.
    { unfold is_dir, exists_ in *. destruct (parent (a :: l)); [done|].
      by destruct (fs !! (s :: l0)). }
    rewrite H. by destruct (fs !! (a :: l)) as [[|c]|].
Qed.

Lemma write_yaml_parent_witness :
  Uploader._write_yaml Plain.dump Samples.repo_store Samples.firefox_yaml
    Samples.firefox_doc
  = Ok (<[Samples.firefox_yaml := File (Plain.dump false Samples.firefox_doc)]>
          Samples.repo_store)
  /\ Uploader._write_yaml Plain.dump Samples.repo_store Samples.nested_yaml
       Samples.firefox_doc
     = Raise FileNotFoundError.
Proof.
  split.
  - apply write_yaml_parent; [done|by vm_compute|by vm_compute].
  - apply write_yaml_parent; [done|by vm_compute|by vm_compute].
Defined.

End ParentDirs.

(** ** The team document of the script *)

Module ScriptTeam.
Import Text Py FS Spec Script PyFacts FSFacts UploaderYaml.



(** A first match is updated in place: the entries before and after it
    are kept, in their order. *)
Lemma update_first_in_place target b l l' :
  update_first target b l = Ok (Some l') ->
  exists pre d post,
    l = pre ++ VDict d :: post
    /\ l' = pre ++ VDict (dict_set d "self_service" (VBool b)) :: post
    /\ dict_get d "package_path" = Some (VStr target).
Proof.
  revert l'. induction l as [|entry rest IH]; intros l' H; [done|].
  simpl in H. destruct entry as [| | | | |d]; simpl in H; try done.
  destruct (str_eq target (default VNone (dict_get d "package_path"))) eqn:E;
    simpl in H.
  - injection H as <-. exists [], d, rest. split_and!; [done|done|].
    apply str_eq_true in E. by destruct (dict_get d "package_path"); simplify_eq/=.
  - destruct (update_first target b rest) as [[r|]|] eqn:Hr; simpl in H;
      try done.
    injection H as <-. destruct (IH r eq_refl) as (pre & d0 & post & -> & -> & Hd).
    by exists (VDict d :: pre), d0, post.
Qed.

(** What a run of [team_data] that returns did. *)
Lemma team_data_cases data slug self_service data' :
  team_data data slug self_service = Ok data' ->
  exists d sw l l',
    data = VDict d
    /\ (dict_get d "software" = Some (VDict sw)
        \/ (sw = [] /\ dict_get d "software" = None))
    /\ (dict_get sw "packages" = Some (VList l)
        \/ (l = [] /\ dict_get sw "packages" = None))
    /\ (update_first (target_of slug) (truthy self_service) l = Ok (Some l')
        \/ (update_first (target_of slug) (truthy self_service) l = Ok None
            /\ l' = l ++ [script_entry (target_of slug) (truthy self_service)]))
    /\ data' = VDict (dict_set d "software"
                        (VDict (dict_set sw "packages" (VList l')))).
Proof.
  unfold team_data, py_setdefault, dict_setdefault. intros H.
  destruct data as [| | | | |d]; simpl in H; try done.
  assert (Hlist : forall d1 sw l,
    (update_first (target_of slug) (truthy self_service) l
       ≫= (fun found =>
             match found with
             | Some entries => Ok (VList entries)
             | None => py_append (VList l)
                         (script_entry (target_of slug) (truthy self_service))
             end
             ≫= fun packages =>
                  Ok (VDict (dict_set d1 "software"
                               (VDict (dict_set sw "packages" packages))))))
    = Ok data' ->
    exists l',
      (update_first (target_of slug) (truthy self_service) l = Ok (Some l')
       \/ (update_first (target_of slug) (truthy self_service) l = Ok None
           /\ l' = l ++ [script_entry (target_of slug) (truthy self_service)]))
      /\ data' = VDict (dict_set d1 "software"
                          (VDict (dict_set sw "packages" (VList l'))))).
  { intros d1 sw l Hl.
    destruct (update_first (target_of slug) (truthy self_service) l)
      as [[r|]|] eqn:Hr; simpl in Hl; try done; injection Hl as <-.
    - exists r. by split; [left|].
    - eexists. split; [right; done|done]. }
  destruct (dict_get d "software") as [sw|] eqn:Hs; simpl in H.
  - destruct sw as [| | | | |sw]; simpl in H; try done.
    destruct (dict_get sw "packages") as [pk|] eqn:Hp; simpl in H.
    + destruct pk as [| | |s|l|m]; simpl in H; try done.
      * (* iterating over a string gives strings, on which [get] raises *)
        by destruct s.
      * destruct (Hlist d sw l H) as (l' & Hl' & ->).
        exists d, sw, l, l'. split_and!; auto.
      * (* iterating over a mapping gives its keys *)
        by destruct m as [|[k v] m].
    + rewrite dict_set_set in H.
      destruct (Hlist d sw [] H) as (l' & Hl' & ->).
      exists d, sw, [], l'. split_and!; auto.
  - rewrite !dict_set_set in H.
    destruct (Hlist d [] [] H) as (l' & Hl' & ->).
    exists d, [], [], l'. split_and!; auto.
Qed.



End ScriptTeam.

(** ** The shape of a slug *)

Module SlugShape.
Import Text SlugSpec SlugFacts.

(** Every character of what [re.sub(r"[^a-z0-9]+", "-", s)] returns is a
    ["-"] exactly when no character of [s] is in [[a-z0-9]]. *)
Lemma sub_runs_all_dash b s :
  Script.all_chars is_dash (sub_runs not_slug_char b s)
  = Script.all_chars not_slug_char s.
Proof.
  revert b. induction s as [|c t IH]; intros b; [done|].
  simpl. change (not_slug_char c) with (negb (is_slug_char c)).
  destruct (is_slug_char c) eqn:E; simpl.
  - by rewrite (slug_char_not_dash _ E).
  - destruct b; [apply IH|]. simpl. apply IH.
Qed.

Lemma lstrip_all_dash s :
  Script.all_chars is_dash (lstrip is_dash s) = Script.all_chars is_dash s.
Proof.
  induction s as [|c t IH]; [done|]. simpl.
  destruct (is_dash c) eqn:E; [done|]. simpl. by rewrite E.
Qed.

Lemma rstrip_all_dash s :
  Script.all_chars is_dash (rstrip is_dash s) = Script.all_chars is_dash s.
Proof.
  induction s as [|c t IH]; [done|]. simpl.
  destruct (rstrip is_dash t) as [|c' t'] eqn:Et.
  - destruct (is_dash c) eqn:E; simpl; [by rewrite <- IH|by rewrite E].
  - simpl in *. by rewrite IH.
Qed.

Lemma lstrip_empty s :
  Script.all_chars is_dash s = true -> lstrip is_dash s = "".
Proof.
  induction s as [|c t IH]; [done|]. simpl.
  destruct (is_dash c); [exact IH|done].
Qed.

(** What is left after stripping is empty exactly when there was nothing
    but ["-"]. *)
Lemma strip_dash_empty s :
  strip_dash s = "" <-> Script.all_chars is_dash s = true.
Proof.
  unfold strip_dash, strip. split.
  - intros H. rewrite <- lstrip_all_dash, <- rstrip_all_dash. by rewrite H.
  - intros H. by rewrite (lstrip_empty _ H).
Qed.

Lemma software_shape :
  slug_shape true "software" = true /\ no_dash_end "software" = true.
Proof. by split. Qed.

(** What both programs return for a name is fit for a file name and a
    branch name: characters of [[a-z0-9]] and single ["-"] between them,
    no ["-"] in front or at the end.  What [_slugify] returns is never
    empty. *)
Theorem slugify_shape (x : string) :
  (slug_shape true (Uploader._slugify x) = true
   /\ no_dash_end (Uploader._slugify x) = true
   /\ Uploader._slugify x <> "")
  /\ slug_shape true (Script.slugify x) = true
  /\ no_dash_end (Script.slugify x) = true.
Proof.
  split; [|apply strip_shape, sub_runs_shape].
  unfold Uploader._slugify. rewrite collapse_after_sub.
  destruct (strip_shape (re_sub_class_plus not_slug_char (lower x))
              (sub_runs_shape false _)) as [H1 H2].
  destruct (strip_dash (re_sub_class_plus not_slug_char (lower x)))
    as [|c r] eqn:E; simpl str_or.
  - split_and!; done.
  - split_and!; done.
Qed.

(** The two programs compute the same slug, the fallback apart:
    [_slugify] returns what [slugify] returns, and ["software"] where
    that is empty; and [slugify] returns the empty string exactly for the
    names without a character that is in [[a-z0-9]] once lowered. *)
Theorem slugify_variants (x : string) :
  Uploader._slugify x = str_or (Script.slugify x) "software"
  /\ (Script.slugify x = ""
      <-> Script.all_chars not_slug_char (lower x) = true).
Proof.
  split.
  - unfold Uploader._slugify, Script.slugify. by rewrite collapse_after_sub.
  - unfold Script.slugify. rewrite strip_dash_empty.
    unfold re_sub_class_plus. by rewrite sub_runs_all_dash.
Qed.

End SlugShape.

(** ** What is written is what is read *)

Module RoundTrips.
Import Text Py FS Spec PyFacts FSFacts UploaderYaml.

Lemma dict_set_same d k v : dict_get d k = Some v -> dict_set d k v = d.
Proof.
  induction d as [|[k0 v0] t IH]; simpl; [done|].
  destruct (String.eqb k k0) eqn:E.
  - by intros [= ->].
  - intros H. by rewrite (IH H).
Qed.


Section Store.
Context {C : Type}.
Implicit Types (fs : gmap path (node C)) (p q : path).

(** What a run of [mkdir(parents=True, exist_ok=True)] that returns has
    done: every directory on the way is there, and nothing else has
    changed. *)
Lemma mkdir_from_inv todo : forall fs done fs',
  mkdir_from fs done todo = Ok fs' ->
  (forall q, fs' !! q = fs !! q \/ (fs !! q = None /\ fs' !! q = Some Dir))
  /\ (forall k, 0 < k <= length todo ->
                fs' !! (done ++ take k todo) = Some Dir)
  /\ (forall q, (forall k, 0 < k <= length todo -> q <> done ++ take k todo) ->
                fs' !! q = fs !! q).
Proof.
  induction todo as [|c rest IH]; intros fs done fs' H.
  - simpl in H. injection H as <-.
    split_and!; [by left|simpl; intros; lia|done].
  - simpl in H. set (here := done ++ [c]) in *.
    assert (Hhere : here = done ++ take 1 (c :: rest)) by done.
    assert (Hgen : forall fs0,
              fs0 !! here = Some Dir ->
              (fs !! here = None \/ fs !! here = Some Dir) ->
              (forall q, q <> here -> fs0 !! q = fs !! q) ->
              mkdir_from fs0 here rest = Ok fs' ->
              (forall q, fs' !! q = fs !! q
                         \/ (fs !! q = None /\ fs' !! q = Some Dir))
              /\ (forall k, 0 < k <= length (c :: rest) ->
                            fs' !! (done ++ take k (c :: rest)) = Some Dir)
              /\ (forall q, (forall k, 0 < k <= length (c :: rest) ->
                                       q <> done ++ take k (c :: rest)) ->
                            fs' !! q = fs !! q)).
    { intros fs0 Hd Hwas H0 Hm.
      destruct (IH _ _ _ Hm) as (Ha & Hb & Hc).
      assert (Hh : fs' !! here = Some Dir).
      { destruct (Ha here) as [E|[E _]]; congruence. }
      split_and!.
      - intros q. destruct (decide (q = here)) as [->|Hq].
        + destruct Hwas as [E|E]; [right; by split|left; congruence].
        + rewrite <- (H0 q Hq). apply Ha.
      - intros k Hk. destruct k as [|k]; [lia|]. destruct k as [|k].
        + by rewrite <- Hhere.
        + rewrite <- ParentDirs.prefix_step. apply Hb. simpl in Hk. lia.
      - intros q Hq. rewrite Hc.
        + apply H0. rewrite Hhere. apply Hq. simpl. lia.
        + intros k Hk. unfold here. rewrite ParentDirs.prefix_step.
          apply Hq. simpl. lia. }
    destruct (fs !! here) as [[|c0]|] eqn:El.
    + apply (Hgen fs); auto.
    + by destruct rest.
    + apply (Hgen (<[here := Dir]> fs)); auto.
      * apply lookup_insert_eq.
      * intros q Hq. by apply lookup_insert_ne.
Qed.

End Store.

Section Uploader.
Context {C : Type}.
Variable safe_load : C -> option value.
Variable safe_dump : bool -> value -> C.
Implicit Types (fs : gmap path (node C)) (p q : path).

Lemma read_yaml_other fs p q c :
  q <> p ->
  Uploader._read_yaml safe_load (<[p := File c]> fs) q
  = Uploader._read_yaml safe_load fs q.
Proof.
  intros Hq. unfold Uploader._read_yaml, exists_, read_file.
  destruct q as [|a q']; [done|]. by rewrite lookup_insert_ne.
Qed.

(** [_read_yaml] after [_write_yaml]: when the parser reads what the
    writer wrote, the document written is the document read, an empty
    document (any falsy one) being read as [{}]; and the documents at the
    other paths are read as before. *)
Theorem write_yaml_read_back fs p data fs' :
  safe_load (safe_dump false data) = Some data ->
  Uploader._write_yaml safe_dump fs p data = Ok fs' ->
  Uploader._read_yaml safe_load fs' p = Ok (py_or data (VDict []))
  /\ (forall q, q <> p ->
        Uploader._read_yaml safe_load fs' q = Uploader._read_yaml safe_load fs q).
Proof.
  intros Hrt Hw. unfold Uploader._write_yaml in Hw. split.
  - by apply (read_yaml_file _ _ _ _ _ (write_file_file_at _ _ _ _ Hw)).
  - apply write_file_ok in Hw as (_ & -> & _). intros q Hq.
    by apply read_yaml_other.
Qed.



End Uploader.

Lemma write_yaml_read_back_witness :
  exists fs',
    Uploader._write_yaml Plain.dump Samples.repo_store Samples.firefox_yaml
      Samples.firefox_doc = Ok fs'
    /\ Uploader._read_yaml Plain.load fs' Samples.firefox_yaml
       = Ok Samples.firefox_doc.
Proof.
  assert (Hc : (fun _ => tt) <$> Uploader._write_yaml Plain.dump
                 Samples.repo_store Samples.firefox_yaml Samples.firefox_doc
               = Ok tt)
    by (vm_compute; reflexivity).
  destruct (Uploader._write_yaml Plain.dump Samples.repo_store
              Samples.firefox_yaml Samples.firefox_doc) as [fs'|e] eqn:E;
    [|discriminate Hc].
  exists fs'. split; [reflexivity|].
  exact (proj1 (write_yaml_read_back Plain.load Plain.dump _ _ _ _ eq_refl E)).
Defined.


End RoundTrips.

(** ** The store of the script *)

Module ScriptStore.
Import Text Py FS Spec Script Frame PyFacts FSFacts RoundTrips YamlStore
  ScriptTeam.

Section Store.
Context {C : Type}.
Implicit Types (fs : gmap path (node C)) (p q : path).

Lemma write_file_was fs p c fs' :
  write_file fs p c = Ok fs' -> fs !! p <> Some Dir.
Proof.
  unfold write_file. destruct p as [|a p]; [done|].
  by destruct (fs !! (a :: p)) as [[|c0]|].
Qed.


Lemma parent_length p : p <> [] -> length (parent p) = length p - 1.
Proof.
  intros Hp. unfold parent. rewrite removelast_firstn_len, length_take. lia.
Qed.

Lemma above_not_self p k : p <> [] -> take k (parent p) <> p.
Proof.
  intros Hp E. apply (f_equal length) in E.
  rewrite length_take, parent_length in E by done.
  destruct p; [done|]. simpl in E. lia.
Qed.


(** What one operation has settled, an operation on another path leaves
    settled. *)
Lemma settled_preserved fs fs' p q c :
  touches fs fs' p -> q <> p -> settled fs q c -> settled fs' q c.
Proof.
  intros [Hp Ht] Hq [Hf Hd]. split.
  - unfold file_at in *. destruct q as [|a q']; [done|].
    destruct (Ht (a :: q') Hq) as [->|[E _]]; [done|]. by rewrite E in Hf.
  - intros k Hk. specialize (Hd k Hk).
    destruct (decide (take k (parent q) = p)) as [E|E]; [congruence|].
    destruct (Ht _ E) as [->|[E' _]]; [done|congruence].
Qed.

Lemma touches_file_at fs fs' p q c :
  touches fs fs' p -> q <> p -> file_at fs q = Some c -> file_at fs' q = Some c.
Proof.
  intros [_ Ht] Hq Hf. unfold file_at in *. destruct q as [|a q']; [done|].
  destruct (Ht (a :: q') Hq) as [->|[E _]]; [done|]. by rewrite E in Hf.
Qed.

End Store.

Section Yaml.
Variable yaml_load : string -> option value.
Variable yaml_dump : value -> string.
Implicit Types (fs : gmap path (node string)) (p q : path).

(** What a run of [dump_yaml] that returns has done. *)
Lemma dump_yaml_inv fs data p fs' :
  dump_yaml yaml_dump fs data p = Ok fs' ->
  settled fs' p (yaml_dump data) /\ touches fs fs' p.
Proof.
  unfold dump_yaml, mkdir_parents.
  destruct (mkdir_from fs [] (parent p)) as [fs1|] eqn:Hm; simpl; [|done].
  intros Hw. pose proof (write_file_was _ _ _ _ Hw) as Hwas.
  apply write_file_ok in Hw as (Hp & -> & Hd).
  destruct (mkdir_from_inv _ _ _ _ Hm) as (Ha & Hb & _).
  split; [split|split].
  - by apply file_at_insert.
  - intros k Hk. rewrite lookup_insert_ne by (apply not_eq_sym, above_not_self; done).
    apply (Hb k Hk).
  - destruct (Ha p) as [E|[E _]]; congruence.
  - intros q Hq. rewrite lookup_insert_ne by done. apply Ha.
Qed.


Lemma load_yaml_settled fs p data :
  yaml_load (yaml_dump data) = Some data ->
  settled fs p (yaml_dump data) ->
  load_yaml yaml_load fs p = Ok (py_or data (VDict [])).
Proof. intros Hrt [Hf _]. by apply (load_yaml_file _ _ _ _ _ Hf). Qed.

(** [load_yaml] after [dump_yaml]: when the parser reads what the writer
    wrote, the document dumped is the document loaded, an empty document
    (any falsy one) being loaded as [{}]; and the other files of the
    store hold what they held. *)
Theorem dump_yaml_load_back fs data p fs' :
  yaml_load (yaml_dump data) = Some data ->
  dump_yaml yaml_dump fs data p = Ok fs' ->
  load_yaml yaml_load fs' p = Ok (py_or data (VDict []))
  /\ (forall q c, q <> p -> file_at fs q = Some c ->
        file_at fs' q = Some c
        /\ load_yaml yaml_load fs' q = load_yaml yaml_load fs q).
Proof.
  intros Hrt Hd. destruct (dump_yaml_inv _ _ _ _ Hd) as [Hs Ht]. split.
  - by apply load_yaml_settled.
  - intros q c Hq Hf.
    pose proof (touches_file_at _ _ _ _ _ Ht Hq Hf) as Hf'.
    split; [done|]. unfold load_yaml.
    by rewrite (file_at_exists _ _ _ Hf), (file_at_exists _ _ _ Hf'),
      (file_at_read _ _ _ Hf), (file_at_read _ _ _ Hf').
Qed.

End Yaml.

(** *** The package document *)








(** *** The team document *)


End ScriptStore.

(** ** Bumping a policy twice *)

Module PolicyAgain.
Import Text Py FS Spec Script PyFacts FSFacts Policy.

#[local] Arguments String.append !s1 s2 /.


Lemma match_at_empty : match_at "" = None.
Proof. reflexivity. Qed.






Section Version.
Variable version : string.
Hypothesis no_quote : has_char dquote version = false.
Hypothesis no_newline : has_char newline version = false.














Hypothesis no_backslash : has_char backslash version = false.



End Version.



End PolicyAgain.

(** ** The codec reads back what it writes *)

Module CodecFacts.
Import Py Codec.

Lemma value_ind_nested (P : value -> Prop) :
  P VNone -> (forall b, P (VBool b)) -> (forall n, P (VInt n)) ->
  (forall s, P (VStr s)) ->
  (forall l, Forall P l -> P (VList l)) ->
  (forall d, Forall (fun kv => P (snd kv)) d -> P (VDict d)) ->
  forall v, P v.
Proof.
  intros H1 H2 H3 H4 H5 H6. fix IH 1.
  intros [|b|n|s|l|d]; [exact H1|apply H2|apply H3|apply H4| |].
  - apply H5. induction l as [|x l IHl]; constructor; [apply IH|apply IHl].
  - apply H6. induction d as [|[k x] d IHd]; constructor; [apply IH|apply IHd].
Qed.

Lemma of_to_tree v : of_tree (to_tree v) = v.
Proof.
  induction v as [| | | |l Hl|d Hd] using value_ind_nested; try done.
  - simpl. f_equal. induction Hl as [|x l Hx _ IH]; simpl; [done|].
    by rewrite Hx, IH.
  - simpl. f_equal. induction Hd as [|[k x] d Hx _ IH]; simpl; [done|].
    simpl in Hx. by rewrite Hx, IH.
Qed.

Lemma unbits_bits p : unbits (bits p) = Some p.
Proof. induction p as [p IH|p IH|]; simpl; by rewrite ?IH. Qed.

Lemma load_dump v : load (dump v) = Some v.
Proof.
  unfold load, dump. rewrite unbits_bits, decode_encode. simpl.
  by rewrite of_to_tree.
Qed.

End CodecFacts.

(** ** The steps of the script *)

Module ScriptMain.
Import Text Py FS Spec Script Frame PyFacts FSFacts RoundTrips YamlStore
  ScriptTeam ScriptStore.

#[local] Arguments String.append !s1 s2 /.

(** *** The paths of the files *)

Lemma append_empty_r (s : string) : s +:+ "" = s.
Proof. induction s as [|c s IH]; simpl; [done|]. by rewrite IH. Qed.

Lemma split_slash_plain s : forall acc,
  has_char "/" s = false -> split_slash acc s = [acc +:+ s].
Proof.
  induction s as [|c t IH]; intros acc H; simpl.
  - by rewrite append_empty_r.
  - simpl in H. apply orb_false_iff in H as [H1 H2]. rewrite H1.
    rewrite (IH _ H2). by rewrite Policy.append_assoc.
Qed.

(** A name without a slash, joined to a directory, lies in it. *)
Lemma path_join_plain base s :
  has_char "/" s = false -> 2 <= String.length s ->
  path_join base s = base ++ [s].
Proof.
  intros H Hl. unfold path_join, components.
  rewrite (split_slash_plain _ "" H).
  change ("" +:+ s) with s.
  destruct s as [|a [|b s]]; simpl in Hl; try lia.
  rewrite filter_cons_True; [done|].
  simpl. by destruct (Ascii.eqb a ".").
Qed.

Lemma shape_no_slash b s :
  SlugSpec.slug_shape b s = true -> has_char "/" s = false.
Proof.
  revert b. induction s as [|c t IH]; intros b H; [done|].
  simpl in *. destruct (Ascii.eqb c "/") eqn:E.
  - apply Ascii.eqb_eq in E. subst c. done.
  - destruct (is_dash c); apply andb_true_iff in H as [_ H]; by eapply IH.
Qed.

Lemma slug_no_slash name : has_char "/" (slugify name) = false.
Proof.
  apply (shape_no_slash true).
  apply SlugFacts.strip_shape, SlugFacts.sub_runs_shape.
Qed.

Lemma pkgfile_path gitops name :
  path_join (gitops ++ ["lib"; "software"]) (slugify name +:+ ".package.yml")
  = gitops ++ ["lib"; "software"; slugify name +:+ ".package.yml"].
Proof.
  rewrite path_join_plain.
  - by rewrite <- app_assoc.
  - by rewrite Policy.has_char_append, slug_no_slash.
  - rewrite Policy.length_append. simpl. lia.
Qed.

Lemma policy_file_path gitops name :
  policy_path gitops (slugify name)
  = gitops ++ ["lib"; "policies"; "update-" +:+ slugify name +:+ ".policy.yml"].
Proof.
  unfold policy_path. rewrite path_join_plain.
  - by rewrite <- app_assoc.
  - by rewrite !Policy.has_char_append, slug_no_slash.
  - rewrite !Policy.length_append. simpl. lia.
Qed.

Lemma teamfile_path gitops team :
  has_char "/" team = false ->
  path_join (gitops ++ ["teams"]) (team +:+ ".yml")
  = gitops ++ ["teams"; team +:+ ".yml"].
Proof.
  intros H. rewrite path_join_plain.
  - by rewrite <- app_assoc.
  - by rewrite Policy.has_char_append, H.
  - rewrite Policy.length_append. simpl. lia.
Qed.

Lemma split_comma_plain s : forall acc team,
  has_char "/" acc = false -> has_char "/" s = false ->
  team ∈ split_comma acc s -> has_char "/" team = false.
Proof.
  induction s as [|c t IH]; intros acc team Ha Hs; simpl.
  - intros H. apply list_elem_of_singleton in H. by subst.
  - simpl in Hs. apply orb_false_iff in Hs as [H1 H2].
    destruct (Ascii.eqb c ","); intros H.
    + apply elem_of_cons in H as [->|H]; [done|]. by apply (IH "").
    + apply (IH (acc +:+ String c "")); [|done|done].
      rewrite Policy.has_char_append, Ha. simpl. by rewrite H1.
Qed.

(** *** What the steps leave behind *)

Lemma bump_policy_touches fs gitops_dir slug version fs' :
  bump_policy fs gitops_dir slug version = Ok fs' ->
  fs' = fs \/ touches fs fs' (policy_path gitops_dir slug).
Proof.
  unfold bump_policy. intros H.
  destruct (exists_ fs (policy_path gitops_dir slug)); simpl in H;
    [|left; by injection H].
  destruct (read_file fs (policy_path gitops_dir slug)) as [text|];
    simpl in H; [|done].
  destruct (re_sub_version_compare _ _) as [new_text|]; simpl in H; [|done].
  destruct (String.eqb text new_text); simpl in H; [left; by injection H|].
  right. split.
  - by apply (write_file_was _ _ _ _ H).
  - apply write_file_ok in H as (_ & -> & _). intros q Hq.
    left. by apply lookup_insert_ne.
Qed.

Section Yaml.
Variable yaml_load : string -> option value.
Variable yaml_dump : value -> string.
Implicit Types (fs : gmap path (node string)) (p q : path).

Lemma ensure_pkgfile_inv fs p name hash_value fs' :
  ensure_pkgfile yaml_load yaml_dump fs p name hash_value = Ok fs' ->
  exists prior data,
    load_yaml yaml_load fs p = Ok prior
    /\ pkgfile_data prior name hash_value = Ok data
    /\ settled fs' p (yaml_dump data) /\ touches fs fs' p.
Proof.
  unfold ensure_pkgfile. intros H.
  destruct (load_yaml yaml_load fs p) as [prior|]; simpl in H; [|done].
  destruct (pkgfile_data prior name hash_value) as [data|] eqn:Hd;
    simpl in H; [|done].
  exists prior, data. split_and!; [done|done|..];
    by apply (dump_yaml_inv _ _ _ _ _ H).
Qed.

Lemma ensure_team_inv fs p slug self_service fs' :
  ensure_team yaml_load yaml_dump fs p slug self_service = Ok fs' ->
  exists prior data,
    load_yaml yaml_load fs p = Ok prior
    /\ team_data prior slug self_service = Ok data
    /\ settled fs' p (yaml_dump data) /\ touches fs fs' p.
Proof.
  unfold ensure_team. intros H.
  destruct (load_yaml yaml_load fs p) as [prior|]; simpl in H; [|done].
  destruct (team_data prior slug self_service) as [data|] eqn:Hd;
    simpl in H; [|done].
  exists prior, data. split_and!; [done|done|..];
    by apply (dump_yaml_inv _ _ _ _ _ H).
Qed.

Lemma ensure_teams_inv gitops slug self_service teams : forall fs fs',
  ensure_teams yaml_load yaml_dump fs gitops slug self_service teams = Ok fs' ->
  (forall team, team ∈ teams ->
     exists prior data,
       team_data prior slug self_service = Ok data
       /\ settled fs' (path_join (gitops ++ ["teams"]) (team +:+ ".yml"))
            (yaml_dump data))
  /\ (forall q c,
        (forall team, team ∈ teams ->
           q <> path_join (gitops ++ ["teams"]) (team +:+ ".yml")) ->
        (settled fs q c -> settled fs' q c)
        /\ (file_at fs q = Some c -> file_at fs' q = Some c)).
Proof.
  induction teams as [|t rest IH]; intros fs fs' H.
  - simpl in H. injection H as <-. split; [intros team Ht|done].
    by apply elem_of_nil in Ht.
  - simpl in H.
    destruct (ensure_team yaml_load yaml_dump fs _ slug self_service)
      as [fs1|] eqn:Ht; simpl in H; [|done].
    destruct (ensure_team_inv _ _ _ _ _ Ht) as (prior & data & _ & Hd & Hs & Hto).
    destruct (IH _ _ H) as [IHa IHb]. split.
    + intros team Hin. apply elem_of_cons in Hin as [->|Hin]; [|by apply IHa].
      set (tf := fun team => path_join (gitops ++ ["teams"]) (team +:+ ".yml")).
      destruct (decide (tf t ∈ tf <$> rest)) as [Hdup|Hnew].
      * apply list_elem_of_fmap in Hdup as (t' & E & Hin).
        fold (tf t). rewrite E. by apply IHa.
      * exists prior, data. split; [done|]. apply IHb; [|done].
        intros team Hin E. apply Hnew. apply list_elem_of_fmap. by exists team.
    + intros q c Hq.
      assert (Hq1 : q <> path_join (gitops ++ ["teams"]) (t +:+ ".yml"))
        by (apply Hq; left).
      assert (Hq2 : forall team, team ∈ rest ->
                q <> path_join (gitops ++ ["teams"]) (team +:+ ".yml"))
        by (intros team Hin; apply Hq; by right).
      split; intros Hc; apply (IHb q c Hq2).
      * by apply (settled_preserved fs fs1 _ q c Hto).
      * by apply (touches_file_at fs fs1 _ q c Hto).
Qed.

(** The entry [ensure_team] leaves for the package. *)
Lemma team_data_entry prior slug self_service data :
  team_data prior slug self_service = Ok data ->
  exists e,
    VDict e ∈ packages_of data
    /\ dict_get e "package_path" = Some (VStr (target_of slug))
    /\ dict_get e "self_service" = Some (VBool (truthy self_service)).
Proof.
  intros H. destruct (team_data_cases _ _ _ _ H)
    as (d & sw & l & l' & -> & Hs & Hp & Hu & ->).
  assert (Hl' : packages_of
                  (VDict (dict_set d "software"
                            (VDict (dict_set sw "packages" (VList l'))))) = l').
  { unfold packages_of. by rewrite !dict_get_set_eq. }
  rewrite Hl'. destruct Hu as [Hu|[Hu ->]].
  - apply update_first_in_place in Hu as (pre & d0 & post & -> & -> & Hd).
    exists (dict_set d0 "self_service" (VBool (truthy self_service))).
    split_and!.
    + apply elem_of_app. right. left.
    + by rewrite dict_get_set.
    + apply dict_get_set_eq.
  - eexists. split_and!; [apply elem_of_app; right; left|done|done].
Qed.

(** What a run of [main] that returns leaves behind. *)
Lemma main_steps_inv fs gitops name version hash_value self_service teams fs' :
  has_char "/" teams = false ->
  main_steps yaml_load yaml_dump fs gitops name version hash_value
    self_service teams = Ok fs' ->
  (exists prior data,
     pkgfile_data prior name hash_value = Ok data
     /\ settled fs'
          (gitops ++ ["lib"; "software"; slugify name +:+ ".package.yml"])
          (yaml_dump data))
  /\ (forall team, team ∈ split_comma "" teams ->
        exists prior data,
          team_data prior (slugify name) self_service = Ok data
          /\ settled fs' (gitops ++ ["teams"; team +:+ ".yml"])
               (yaml_dump data))
  /\ (exists fs2, bump_policy fs2 gitops (slugify name) version = Ok fs')
  /\ (forall q c,
        q <> gitops ++ ["lib"; "software"; slugify name +:+ ".package.yml"] ->
        (forall team, team ∈ split_comma "" teams ->
           q <> gitops ++ ["teams"; team +:+ ".yml"]) ->
        q <> gitops ++ ["lib"; "policies";
                        "update-" +:+ slugify name +:+ ".policy.yml"] ->
        file_at fs q = Some c -> file_at fs' q = Some c).
Proof.
  intros Hteams H. unfold main_steps in H. rewrite pkgfile_path in H.
  set (pkgfile := gitops ++ ["lib"; "software";
                             slugify name +:+ ".package.yml"]) in *.
  destruct (ensure_pkgfile yaml_load yaml_dump fs pkgfile name hash_value)
    as [fs1|] eqn:H1; simpl in H; [|done].
  destruct (ensure_teams yaml_load yaml_dump fs1 gitops (slugify name)
              self_service (split_comma "" teams)) as [fs2|] eqn:H2;
    simpl in H; [|done].
  destruct (ensure_pkgfile_inv _ _ _ _ _ H1)
    as (prior & data & _ & Hd & Hs1 & Ht1).
  destruct (ensure_teams_inv _ _ _ _ _ _ H2) as [Ha Hb].
  assert (Hplain : forall team, team ∈ split_comma "" teams ->
            path_join (gitops ++ ["teams"]) (team +:+ ".yml")
            = gitops ++ ["teams"; team +:+ ".yml"]).
  { intros team Hin. apply teamfile_path.
    by apply (split_comma_plain teams "" team). }
  assert (Hpt : forall team, team ∈ split_comma "" teams ->
            pkgfile <> path_join (gitops ++ ["teams"]) (team +:+ ".yml")).
  { intros team Hin E. rewrite (Hplain _ Hin) in E.
    apply app_inv_head in E. discriminate E. }
  pose proof (policy_file_path gitops name) as Hpol.
  set (policy := gitops ++ ["lib"; "policies";
                            "update-" +:+ slugify name +:+ ".policy.yml"]) in *.
  assert (Hpp : pkgfile <> policy).
  { intros E. apply app_inv_head in E. discriminate E. }
  assert (Htp : forall team, team ∈ split_comma "" teams ->
            gitops ++ ["teams"; team +:+ ".yml"] <> policy).
  { intros team Hin E. apply app_inv_head in E. discriminate E. }
  assert (Hfin : forall q c, q <> policy ->
            (settled fs2 q c -> settled fs' q c)
            /\ (file_at fs2 q = Some c -> file_at fs' q = Some c)).
  { intros q c Hq. destruct (bump_policy_touches _ _ _ _ _ H) as [->|Ht];
      [done|]. rewrite Hpol in Ht. split.
    - by apply (settled_preserved fs2 fs' policy).
    - by apply (touches_file_at fs2 fs' policy). }
  split_and!.
  - exists prior, data. split; [done|].
    apply Hfin; [done|]. by apply (Hb pkgfile _ Hpt).
  - intros team Hin. destruct (Ha team Hin) as (pr & dt & Hdt & Hst).
    exists pr, dt. split; [done|]. rewrite (Hplain _ Hin) in Hst.
    apply Hfin; [by apply Htp|done].
  - by exists fs2.
  - intros q c Hq1 Hq2 Hq3 Hf. apply Hfin; [done|].
    apply (Hb q c).
    + intros team Hin. rewrite (Hplain _ Hin). by apply Hq2.
    + by apply (touches_file_at fs fs1 pkgfile).
Qed.

(** [main], for team names without a slash.  When it returns, the package
    file holds a document with the hash, every team file holds a document
    that lists the package file with the flag, and every file of the
    store other than these and the policy file holds what it held. *)
Theorem main_steps_publishes
  fs gitops name version hash_value self_service teams fs' :
  has_char "/" teams = false ->
  main_steps yaml_load yaml_dump fs gitops name version hash_value
    self_service teams = Ok fs' ->
  (exists data,
     file_at fs'
       (gitops ++ ["lib"; "software"; slugify name +:+ ".package.yml"])
     = Some (yaml_dump data)
     /\ spec_field data "hash_sha256" = Some (VStr hash_value))
  /\ (forall team, team ∈ split_comma "" teams ->
        exists data e,
          file_at fs' (gitops ++ ["teams"; team +:+ ".yml"])
          = Some (yaml_dump data)
          /\ VDict e ∈ packages_of data
          /\ dict_get e "package_path"
             = Some (VStr (target_of (slugify name)))
          /\ dict_get e "self_service" = Some (VBool (truthy self_service)))
  /\ (forall q c,
        q <> gitops ++ ["lib"; "software"; slugify name +:+ ".package.yml"] ->
        (forall team, team ∈ split_comma "" teams ->
           q <> gitops ++ ["teams"; team +:+ ".yml"]) ->
        q <> gitops ++ ["lib"; "policies";
                        "update-" +:+ slugify name +:+ ".policy.yml"] ->
        file_at fs q = Some c -> file_at fs' q = Some c).
Proof.
  intros Hteams H.
  destruct (main_steps_inv _ _ _ _ _ _ _ _ Hteams H) as (Hp & Ht & _ & Hf).
  split_and!; [| |exact Hf].
  - destruct Hp as (prior & data & Hd & [Hs _]). exists data.
    split; [done|]. by apply (ScriptDocs.pkgfile_data_fields prior name).
  - intros team Hin. destruct (Ht team Hin) as (prior & data & Hd & [Hs _]).
    destruct (team_data_entry _ _ _ _ Hd) as (e & He).
    by exists data, e.
Qed.

(** An empty [--teams] is one team with an empty name: [main] writes the
    team file [teams/.yml]. *)
Theorem main_steps_no_team
  fs gitops name version hash_value self_service fs' :
  main_steps yaml_load yaml_dump fs gitops name version hash_value
    self_service "" = Ok fs' ->
  exists data e,
    file_at fs' (gitops ++ ["teams"; ".yml"]) = Some (yaml_dump data)
    /\ VDict e ∈ packages_of data
    /\ dict_get e "package_path" = Some (VStr (target_of (slugify name))).
Proof.
  intros H.
  destruct (main_steps_inv fs gitops name version hash_value self_service
              "" fs' eq_refl H) as (_ & Ht & _).
  destruct (Ht "" ltac:(left)) as (prior & data & Hd & [Hs _]).
  destruct (team_data_entry _ _ _ _ Hd) as (e & He1 & He2 & _).
  by exists data, e.
Qed.

(** *** A second run *)

Hypothesis round_trip : forall v, yaml_load (yaml_dump v) = Some v.





End Yaml.

Lemma main_steps_publishes_witness :
  exists fs',
    main_steps (Table.load []) ScriptSamples.dump_any ∅ ["repo"]
      "Firefox.app" "128.0" "9f86d0" (VBool true) "workstations,servers"
    = Ok fs'
    /\ (exists data,
          file_at fs' ["repo"; "lib"; "software"; "firefox-app.package.yml"]
          = Some (ScriptSamples.dump_any data)
          /\ spec_field data "hash_sha256" = Some (VStr "9f86d0"))
    /\ (exists data e,
          file_at fs' ["repo"; "teams"; "servers.yml"]
          = Some (ScriptSamples.dump_any data)
          /\ VDict e ∈ packages_of data
          /\ dict_get e "package_path"
             = Some (VStr "../lib/software/firefox-app.package.yml")
          /\ dict_get e "self_service" = Some (VBool true)).
Proof.
  assert (Hc : (fun _ => tt) <$> main_steps (Table.load [])
                 ScriptSamples.dump_any ∅ ["repo"] "Firefox.app" "128.0"
                 "9f86d0" (VBool true) "workstations,servers" = Ok tt)
    by (vm_compute; reflexivity).
  destruct (main_steps (Table.load []) ScriptSamples.dump_any ∅ ["repo"]
              "Firefox.app" "128.0" "9f86d0" (VBool true)
              "workstations,servers") as [fs'|e] eqn:E; [|discriminate Hc].
  exists fs'. split; [reflexivity|].
  destruct (main_steps_publishes (Table.load []) ScriptSamples.dump_any
              ∅ ["repo"] "Firefox.app" "128.0" "9f86d0" (VBool true)
              "workstations,servers" fs' eq_refl E) as (H1 & H2 & _).
  split; [exact H1|].
  exact (H2 "servers" ltac:(right; left)).
Defined.

Lemma main_steps_no_team_witness :
  exists fs' data e,
    main_steps (Table.load []) ScriptSamples.dump_any ∅ ["repo"]
      "Firefox.app" "128.0" "9f86d0" (VBool true) "" = Ok fs'
    /\ file_at fs' ["repo"; "teams"; ".yml"]
       = Some (ScriptSamples.dump_any data)
    /\ VDict e ∈ packages_of data
    /\ dict_get e "package_path"
       = Some (VStr "../lib/software/firefox-app.package.yml").
Proof.
  assert (Hc : (fun _ => tt) <$> main_steps (Table.load [])
                 ScriptSamples.dump_any ∅ ["repo"] "Firefox.app" "128.0"
                 "9f86d0" (VBool true) "" = Ok tt)
    by (vm_compute; reflexivity).
  destruct (main_steps (Table.load []) ScriptSamples.dump_any ∅ ["repo"]
              "Firefox.app" "128.0" "9f86d0" (VBool true) "")
    as [fs'|e] eqn:E; [|discriminate Hc].
  destruct (main_steps_no_team (Table.load []) ScriptSamples.dump_any
              ∅ ["repo"] "Firefox.app" "128.0" "9f86d0" (VBool true) fs' E)
    as (data & e & H).
  exists fs', data, e. split; [reflexivity|exact H].
Defined.


Lemma dump_yaml_load_back_witness :
  exists fs',
    dump_yaml Codec.dump Samples.repo_store ScriptSamples.bare_team_doc
      Samples.nested_yaml = Ok fs'
    /\ load_yaml Codec.load fs' Samples.nested_yaml
       = Ok ScriptSamples.bare_team_doc.
Proof.
  assert (Hc : (fun _ => tt) <$> dump_yaml Codec.dump Samples.repo_store
                 ScriptSamples.bare_team_doc Samples.nested_yaml = Ok tt)
    by (vm_compute; reflexivity).
  destruct (dump_yaml Codec.dump Samples.repo_store
              ScriptSamples.bare_team_doc Samples.nested_yaml)
    as [fs'|e] eqn:E; [|discriminate Hc].
  exists fs'. split; [reflexivity|].
  exact (proj1 (dump_yaml_load_back Codec.load Codec.dump _ _ _ _
                  (CodecFacts.load_dump _) E)).
Defined.

End ScriptMain.

(** ** The requests the processor sends *)

Module Requests.
Import Text Py FS Spec Uploader PullRequest.

Section Http.
Context {R : Type}.
Variable send : request -> R -> outcome * R.
Implicit Types (st : http_state R) (r : response).


(** Whatever the service answers, [_open_pull_request] sends the creation
    request first and after it at most one search and at most one labels
    request, in that order; with no labels asked for it sends no labels
    request. *)
Theorem open_pull_request_trace
  github_repo token head base title body labels st :
  exists rest,
    sent (snd (_open_pull_request send github_repo token head base title
                 body labels st))
    = sent st ++ create_request github_repo token head base title body :: rest
    /\ (rest = []
        \/ rest = [search_request github_repo token head base]
        \/ (exists n, rest = [labels_request github_repo token n labels])
        \/ (exists n, rest = [search_request github_repo token head base;
                              labels_request github_repo token n labels]))
    /\ (labels = [] -> rest = []
                       \/ rest = [search_request github_repo token head base]).
Proof.
  unfold _open_pull_request, _find_existing_pr_url, requests_send,
    mbind, M_bind, mret, M_ret, lift, raise, response_json.
  fold (create_request github_repo token head base title body).
  fold (search_request github_repo token head base).
  repeat (case_match; simplify_eq/=);
    rewrite <- ?app_assoc; simpl;
    eexists; (split; [reflexivity|]);
    (split; [|intros ->; simplify_eq/=; auto]);
    eauto 6.
Qed.

End Http.


End Requests.

(** ** Repository names *)

Module Names.
Import Text Py FS Script UploaderNames NameSpec Policy.

#[local] Arguments String.append !s1 s2 /.

(** *** Counting, stripping and searching *)

Lemma count_char_append c a b :
  count_char c (a +:+ b) = count_char c a + count_char c b.
Proof. induction a as [|x a IH]; simpl; [done|]. rewrite IH. lia. Qed.

Lemma lstrip_count cls c s : count_char c (lstrip cls s) <= count_char c s.
Proof.
  induction s as [|x s IH]; simpl; [done|].
  destruct (cls x); simpl; lia.
Qed.

Lemma rstrip_count cls c s : count_char c (rstrip cls s) <= count_char c s.
Proof.
  induction s as [|x s IH]; simpl; [done|].
  destruct (rstrip cls s) as [|y t] eqn:E.
  - destruct (cls x); simpl in *; lia.
  - simpl in *. lia.
Qed.

Lemma strip_count cls c s : count_char c (strip cls s) <= count_char c s.
Proof.
  unfold strip. etrans; [apply rstrip_count|apply lstrip_count].
Qed.

Lemma lstrip_head cls s c t : lstrip cls s = String c t -> cls c = false.
Proof.
  induction s as [|x s IH]; simpl; [done|].
  destruct (cls x) eqn:E; [done|]. by intros [= <- <-].
Qed.

Lemma rstrip_head cls c t :
  cls c = false -> exists t', rstrip cls (String c t) = String c t'.
Proof.
  intros H. simpl. destruct (rstrip cls t); rewrite ?H; by eexists.
Qed.

Lemma rstrip_last cls s : forall z c,
  rstrip cls s = z +:+ String c "" -> cls c = false.
Proof.
  induction s as [|x s IH]; intros z c; simpl.
  - by destruct z.
  - destruct (rstrip cls s) as [|y t] eqn:E.
    + destruct (cls x) eqn:Ex; [by destruct z|].
      destruct z as [|z0 z]; simpl; [by intros [= <-]|].
      intros [= _ H]. by destruct z.
    + destruct z as [|z0 z]; simpl; [done|].
      intros [= _ H]. by apply (IH z).
Qed.

Lemma strip_head cls s c t : strip cls s = String c t -> cls c = false.
Proof.
  unfold strip. destruct (lstrip cls s) as [|x u] eqn:E; [done|].
  pose proof (lstrip_head _ _ _ _ E) as Hx.
  destruct (rstrip_head cls x u Hx) as [t' ->]. by intros [= <- _].
Qed.

Lemma strip_last cls s z c : strip cls s = z +:+ String c "" -> cls c = false.
Proof. apply rstrip_last. Qed.

(** A text with one slash is made of the text before it and the text
    after it. *)
Lemma one_slash x :
  count_char "/" x = 1 ->
  exists a b, x = a +:+ "/" +:+ b
              /\ count_char "/" a = 0 /\ count_char "/" b = 0.
Proof.
  induction x as [|c x IH]; simpl; [done|].
  destruct (Ascii.eqb c "/") eqn:E.
  - apply Ascii.eqb_eq in E. subst c. intros H. exists "", x.
    split_and!; [done|done|lia].
  - intros H. destruct (IH H) as (a & b & -> & Ha & Hb).
    exists (String c a), b. split_and!; [done| |done]. simpl. by rewrite E.
Qed.

(** What is left of a text after stripping the slashes, when it has one
    slash: an owner, the slash, and a repository. *)
Lemma strip_one_slash s :
  count_char "/" (strip is_slash s) = 1 ->
  exists a b, strip is_slash s = a +:+ "/" +:+ b
              /\ a <> "" /\ b <> ""
              /\ count_char "/" a = 0 /\ count_char "/" b = 0.
Proof.
  intros H. destruct (one_slash _ H) as (a & b & E & Ha & Hb).
  exists a, b. split_and!; try done.
  - intros ->. simpl in E. by apply strip_head in E.
  - intros ->. simpl in E. by apply strip_last in E.
Qed.

Lemma prefix_strip k : forall s,
  String.prefix k s = true <-> strip_prefix k s <> None.
Proof.
  induction k as [|a k IH]; intros s; [by destruct s|].
  destruct s as [|b s]; simpl; [split; [done|intros H; by destruct H]|].
  destruct (ascii_dec a b) as [->|Hne].
  - rewrite Ascii.eqb_refl. apply IH.
  - apply Ascii.eqb_neq in Hne. rewrite Hne.
    split; [done|intros H; by destruct H].
Qed.

Lemma prefix_strip_eq k s :
  String.prefix k s
  = match strip_prefix k s with Some _ => true | None => false end.
Proof.
  pose proof (prefix_strip k s) as H.
  destruct (String.prefix k s), (strip_prefix k s); try done.
  - by destruct (proj1 H eq_refl).
  - by apply (proj2 H).
Qed.

Lemma contains_after k s :
  str_contains k s = true -> exists r, after_first k s = Ok r.
Proof.
  induction s as [|c t IH]; intros H.
  - change (str_contains k "") with (String.prefix k "" || false) in H.
    rewrite orb_false_r in H. apply prefix_strip in H.
    unfold after_first. destruct (strip_prefix k ""); [by eexists|done].
  - unfold after_first; fold after_first.
    destruct (strip_prefix k (String c t)) as [r|] eqn:E; [by eexists|].
    apply IH.
    change (str_contains k (String c t))
      with (String.prefix k (String c t) || str_contains k t) in H.
    apply orb_true_iff in H as [H|H]; [|done].
    apply prefix_strip in H. by rewrite E in H.
Qed.

Lemma after_first_error k s e : after_first k s = Raise e -> e = IndexError.
Proof.
  induction s as [|c t IH].
  - unfold after_first. destruct (strip_prefix k ""); [done|].
    by intros [= <-].
  - unfold after_first; fold after_first.
    destruct (strip_prefix k (String c t)); [done|]. apply IH.
Qed.

(** [_derive_github_repo] never raises.  What it returns has at most one
    slash; and for a URL that starts with [http://] or [https://] it is
    empty or an owner and a repository, neither empty, with one slash
    between them. *)
Theorem derive_repo_total (git_repo_url : string) :
  exists r,
    _derive_github_repo git_repo_url = Ok r
    /\ count_char "/" r <= 1
    /\ (String.prefix "http://" (strip_space git_repo_url)
        || String.prefix "https://" (strip_space git_repo_url) = true ->
        r = ""
        \/ exists owner repo,
             r = owner +:+ "/" +:+ repo
             /\ owner <> "" /\ repo <> ""
             /\ count_char "/" owner = 0 /\ count_char "/" repo = 0).
Proof.
  unfold _derive_github_repo.
  destruct (nonempty git_repo_url); simpl;
    [|exists ""; split_and!; [done|simpl; lia|by left]].
  generalize (strip_space git_repo_url). intros s.
  destruct (String.prefix "git@" s) eqn:Hg.
  - assert (Hw : String.prefix "http://" s || String.prefix "https://" s
                 = false).
    { rewrite !prefix_strip_eq in *. destruct s as [|c s']; [done|].
      change (strip_prefix "git@" (String c s'))
        with (if Ascii.eqb "g" c then strip_prefix "it@" s' else None) in Hg.
      destruct (Ascii.eqb "g" c) eqn:E; [|done].
      apply Ascii.eqb_eq in E. subst c. reflexivity. }
    rewrite Hw. destruct (after_first ":" s) as [p|e] eqn:Ha.
    + eexists. split; [done|]. split; [|done].
      destruct (count_char "/" (drop_dot_git p) =? 1)%nat eqn:E;
        [|simpl; lia].
      apply Nat.eqb_eq in E. rewrite <- E. apply strip_count.
    + rewrite (after_first_error _ _ _ Ha).
      exists "". split_and!; [done|simpl; lia|done].
  - destruct (String.prefix "http://" s || String.prefix "https://" s) eqn:Hw.
    + destruct (str_contains "github.com/" s) eqn:Hc; simpl;
        [|exists ""; split_and!; [done|simpl; lia|by left]].
      destruct (contains_after _ _ Hc) as [after_host ->]. simpl.
      eexists. split; [done|].
      destruct (count_char "/" (strip is_slash (drop_dot_git after_host)) =? 1)%nat
        eqn:E; [|split; [simpl; lia|by left]].
      apply Nat.eqb_eq in E. split; [lia|]. intros _. right.
      destruct (strip_one_slash _ E) as (a & b & Hab). by exists a, b.
    + destruct (count_char "/" s =? 1)%nat eqn:E; simpl;
        [|exists ""; split_and!; [done|simpl; lia|done]].
      destruct (negb (str_contains ":" s) && negb (str_contains " " s));
        [|exists ""; split_and!; [done|simpl; lia|done]].
      exists s. apply Nat.eqb_eq in E. split_and!; [done|lia|done].
Qed.

(** *** The forms of URL the function is written for *)

Lemma name_char_facts c :
  is_name_char c = true ->
  is_space c = false /\ is_slash c = false
  /\ Ascii.eqb ":" c = false /\ Ascii.eqb " " c = false
  /\ Ascii.eqb "@" c = false.
Proof.
  destruct c as [[] [] [] [] [] [] [] []]; vm_compute; intros H;
    by repeat split.
Qed.

Lemma all_chars_append f a b :
  all_chars f (a +:+ b) = all_chars f a && all_chars f b.
Proof.
  induction a as [|x a IH]; simpl; [done|]. by rewrite IH, andb_assoc.
Qed.

Lemma all_chars_weaken (f g : ascii -> bool) s :
  all_chars f s = true -> (forall c, f c = true -> g c = true) ->
  all_chars g s = true.
Proof.
  intros H Hfg. induction s as [|x s IH]; simpl in *; [done|].
  apply andb_true_iff in H as [Hx H]. by rewrite (Hfg _ Hx), (IH H).
Qed.

Lemma all_chars_count f c s :
  all_chars f s = true -> f c = false -> count_char c s = 0.
Proof.
  intros H Hc. induction s as [|x s IH]; simpl in *; [done|].
  apply andb_true_iff in H as [Hx H]. rewrite (IH H).
  destruct (Ascii.eqb x c) eqn:E; [|done].
  apply Ascii.eqb_eq in E. congruence.
Qed.

Lemma all_chars_contains f c s :
  all_chars f s = true -> f c = false -> str_contains (String c "") s = false.
Proof.
  intros H Hc. induction s as [|x s IH].
  - reflexivity.
  - simpl in H. apply andb_true_iff in H as [Hx H].
    change (str_contains (String c "") (String x s))
      with (String.prefix (String c "") (String x s)
            || str_contains (String c "") s).
    rewrite (IH H), orb_false_r, prefix_strip_eq.
    change (strip_prefix (String c "") (String x s))
      with (if Ascii.eqb c x then Some s else None).
    destruct (Ascii.eqb c x) eqn:E; [|done].
    apply Ascii.eqb_eq in E. congruence.
Qed.

Lemma rstrip_snoc cls z d :
  cls d = false -> rstrip cls (z +:+ String d "") = z +:+ String d "".
Proof.
  intros H. induction z as [|x z IH]; simpl; [by rewrite H|].
  rewrite IH. by destruct z.
Qed.

(** Stripping leaves alone a text that neither starts nor ends with a
    character to strip. *)
Lemma strip_id cls c t z d :
  String c t = z +:+ String d "" -> cls c = false -> cls d = false ->
  strip cls (String c t) = String c t.
Proof.
  intros E Hc Hd. unfold strip. simpl lstrip. rewrite Hc, E.
  by apply rstrip_snoc.
Qed.

Lemma append_last (s : string) c t :
  s = String c t -> exists z d, s = z +:+ String d "".
Proof.
  revert c t. induction s as [|x s IH]; intros c t; [done|].
  intros _. destruct s as [|y s].
  - by exists "", x.
  - destruct (IH y s eq_refl) as (z & d & ->). by exists (String x z), d.
Qed.

Lemma plain_ends s :
  plain_name s = true ->
  (exists c t, s = String c t /\ is_name_char c = true)
  /\ (exists z d, s = z +:+ String d "" /\ is_name_char d = true)
  /\ all_chars is_name_char s = true.
Proof.
  unfold plain_name. intros H. apply andb_true_iff in H as [Hn Ha].
  destruct s as [|c t]; [done|]. split_and!; [| |done].
  - exists c, t. split; [done|]. simpl in Ha.
    by apply andb_true_iff in Ha as [? _].
  - destruct (append_last (String c t) c t eq_refl) as (z & d & E).
    exists z, d. split; [done|]. rewrite E, all_chars_append in Ha.
    apply andb_true_iff in Ha as [_ Ha]. simpl in Ha.
    by apply andb_true_iff in Ha as [? _].
Qed.

Lemma strip_suffix_eq suf s :
  strip_suffix suf s
  = if String.eqb s suf then Some ""
    else match s with
         | "" => None
         | String c t => option_map (String c) (strip_suffix suf t)
         end.
Proof. by destruct s. Qed.

Lemma strip_suffix_app suf x : strip_suffix suf (x +:+ suf) = Some x.
Proof.
  induction x as [|c x IH].
  - simpl. by rewrite strip_suffix_eq, String.eqb_refl.
  - rewrite strip_suffix_eq.
    assert (String.eqb (String c x +:+ suf) suf = false) as ->.
    { apply String.eqb_neq. intros E. apply (f_equal String.length) in E.
      simpl in E. rewrite length_append in E. lia. }
    simpl. by rewrite IH.
Qed.

Lemma strip_suffix_sep suf a b :
  count_char "/" suf = 0 ->
  strip_suffix suf (a +:+ String "/" b)
  = option_map (fun r => a +:+ String "/" r) (strip_suffix suf b).
Proof.
  intros Hs.
  assert (Hne : forall x, String.eqb (x +:+ String "/" b) suf = false).
  { intros x. apply String.eqb_neq. intros E.
    apply (f_equal (count_char "/")) in E.
    rewrite !count_char_append in E. simpl in E. lia. }
  induction a as [|c a IH].
  - rewrite strip_suffix_eq, (Hne ""). simpl.
    by destruct (strip_suffix suf b).
  - rewrite strip_suffix_eq, (Hne (String c a)). simpl. rewrite IH.
    by destruct (strip_suffix suf b).
Qed.

Lemma prefix_nil s : String.prefix "" s = true.
Proof. by destruct s. Qed.

Section Forms.
Variables owner repo : string.
Hypothesis plain_owner : plain_name owner = true.
Hypothesis plain_repo : plain_name repo = true.

Let path : string := owner +:+ "/" +:+ repo.

Lemma path_count : count_char "/" path = 1.
Proof.
  destruct (plain_ends _ plain_owner) as (_ & _ & Ho).
  destruct (plain_ends _ plain_repo) as (_ & _ & Hr).
  unfold path. rewrite !count_char_append.
  rewrite (all_chars_count is_name_char "/" owner Ho eq_refl).
  by rewrite (all_chars_count is_name_char "/" repo Hr eq_refl).
Qed.

Lemma path_strip : strip is_slash path = path.
Proof.
  destruct (plain_ends _ plain_owner) as ((c & t & -> & Hc) & _ & _).
  destruct (plain_ends _ plain_repo) as (_ & (z & d & -> & Hd) & _).
  unfold path.
  apply (strip_id is_slash c _ (String c t +:+ "/" +:+ z) d).
  - by rewrite !append_assoc.
  - by apply name_char_facts.
  - by apply name_char_facts.
Qed.

Lemma path_dot_git : drop_dot_git (path +:+ ".git") = path.
Proof. unfold drop_dot_git. by rewrite strip_suffix_app. Qed.

Lemma path_no_dot_git :
  ends_dot_git repo = false -> drop_dot_git path = path.
Proof.
  unfold ends_dot_git, drop_dot_git, path. intros H.
  change ("/" +:+ repo) with (String "/" repo).
  rewrite strip_suffix_sep by done.
  by destruct (strip_suffix ".git" repo).
Qed.

(** A text that ends in a character of a name is not changed by
    [strip()]. *)
Lemma url_strip c t z d :
  String c t = z +:+ String d "" -> is_space d = false ->
  is_space c = false ->
  strip_space (String c t) = String c t.
Proof. intros E Hd Hc. by apply (strip_id is_space c t z d). Qed.

Lemma path_last :
  exists z d, path = z +:+ String d "" /\ is_space d = false.
Proof.
  destruct (plain_ends _ plain_repo) as (_ & (z & d & -> & Hd) & _).
  exists (owner +:+ "/" +:+ z), d. unfold path.
  split; [by rewrite !append_assoc|by apply name_char_facts].
Qed.

Lemma path_chars :
  all_chars (fun c => is_name_char c || is_slash c) path = true.
Proof.
  destruct (plain_ends _ plain_owner) as (_ & _ & Ho).
  destruct (plain_ends _ plain_repo) as (_ & _ & Hr).
  unfold path. rewrite !all_chars_append.
  rewrite (all_chars_weaken _ _ _ Ho), (all_chars_weaken _ _ _ Hr); [done|..];
    by intros c ->.
Qed.

(** The path starts with no text that has a character foreign to it. *)
Lemma path_no_prefix p :
  all_chars (fun c => is_name_char c || is_slash c) p = false ->
  String.prefix p path = false.
Proof.
  intros H. rewrite prefix_strip_eq.
  destruct (strip_prefix p path) as [r|] eqn:E; [|done].
  apply strip_prefix_app in E. pose proof path_chars as Hp.
  rewrite E, all_chars_append, H in Hp. done.
Qed.

Lemma derive_path r :
  (if Nat.eqb (count_char "/" path) 1 then r else "") = r.
Proof. by rewrite path_count. Qed.

(** [_derive_github_repo] on the forms of its description, for an owner
    and a repository made of letters, digits, [.], [_] and [-]: the
    https and the ssh URL that end in [.git] give [owner/repo]; so do,
    when the repository does not end in [.git], the two URLs without
    [.git], and [owner/repo] itself. *)
Theorem derive_repo_forms :
  _derive_github_repo ("https://github.com/" +:+ path +:+ ".git") = Ok path
  /\ _derive_github_repo ("git@github.com:" +:+ path +:+ ".git") = Ok path
  /\ (ends_dot_git repo = false ->
      _derive_github_repo ("https://github.com/" +:+ path) = Ok path
      /\ _derive_github_repo ("git@github.com:" +:+ path) = Ok path
      /\ _derive_github_repo path = Ok path).
Proof.
  destruct path_last as (z & d & Ez & Hd).
  assert (Hgit : forall pre,
            exists z' d', pre +:+ path +:+ ".git" = z' +:+ String d' ""
                          /\ is_space d' = false).
  { intros pre. exists (pre +:+ path +:+ ".gi"), "t"%char.
    split; [by rewrite !append_assoc|done]. }
  assert (Hbare : forall pre,
            exists z' d', pre +:+ path = z' +:+ String d' ""
                          /\ is_space d' = false).
  { intros pre. exists (pre +:+ z), d.
    split; [by rewrite Ez, append_assoc|done]. }
  split_and!.
  - unfold _derive_github_repo.
    destruct (Hgit "https://github.com/") as (z' & d' & E & Hd').
    simpl in E |- *. rewrite (url_strip _ _ z' d' E Hd' eq_refl).
    cbn -[path drop_dot_git strip count_char Nat.eqb String.append].
    rewrite prefix_nil. cbn [orb negb].
    by rewrite path_dot_git, path_strip, derive_path.
  - unfold _derive_github_repo.
    destruct (Hgit "git@github.com:") as (z' & d' & E & Hd').
    simpl in E |- *. rewrite (url_strip _ _ z' d' E Hd' eq_refl).
    cbn -[path drop_dot_git strip count_char Nat.eqb String.append].
    by rewrite path_dot_git, derive_path, path_strip.
  - intros Hnd. split_and!.
    + unfold _derive_github_repo.
      destruct (Hbare "https://github.com/") as (z' & d' & E & Hd').
      simpl in E |- *. rewrite (url_strip _ _ z' d' E Hd' eq_refl).
      cbn -[path drop_dot_git strip count_char Nat.eqb String.append].
      rewrite prefix_nil. cbn [orb negb].
      by rewrite (path_no_dot_git Hnd), path_strip, derive_path.
    + unfold _derive_github_repo.
      destruct (Hbare "git@github.com:") as (z' & d' & E & Hd').
      simpl in E |- *. rewrite (url_strip _ _ z' d' E Hd' eq_refl).
      cbn -[path drop_dot_git strip count_char Nat.eqb String.append].
      by rewrite (path_no_dot_git Hnd), derive_path, path_strip.
    + destruct (plain_ends _ plain_owner) as ((c & t & Eo & Hc) & _ & _).
      assert (Ep : path = String c (t +:+ "/" +:+ repo))
        by (unfold path; by rewrite Eo).
      destruct (Hbare "") as (z' & d' & E & Hd').
      change ("" +:+ path) with path in E. rewrite Ep in E.
      assert (Hs : strip_space path = path).
      { rewrite Ep.
        apply (url_strip _ _ z' d' E Hd' (proj1 (name_char_facts _ Hc))). }
      assert (Hn : nonempty path = true) by (by rewrite Ep).
      unfold _derive_github_repo. cbv zeta. rewrite Hn, Hs. cbn [negb].
      rewrite !path_no_prefix by reflexivity. cbn [orb].
      rewrite path_count.
      rewrite !(all_chars_contains _ _ _ path_chars) by reflexivity.
      reflexivity.
Qed.

End Forms.

Lemma derive_repo_forms_witness :
  _derive_github_repo "https://github.com/kitzy/autopkg-runner.git"
  = Ok "kitzy/autopkg-runner"
  /\ _derive_github_repo "git@github.com:kitzy/autopkg-runner"
     = Ok "kitzy/autopkg-runner"
  /\ _derive_github_repo "kitzy/autopkg-runner" = Ok "kitzy/autopkg-runner".
Proof.
  destruct (derive_repo_forms "kitzy" "autopkg-runner" eq_refl eq_refl)
    as (H1 & _ & H3).
  destruct (H3 eq_refl) as (_ & H5 & H6).
  split; [exact H1|]. split; [exact H5|exact H6].
Defined.

(** *** The names [main] composes *)

(** A name without a slash, joined to a directory, lies in it. *)
Lemma path_join_name base s :
  has_char "/" s = false -> s <> "" -> s <> "." ->
  path_join base s = base ++ [s].
Proof.
  intros H H1 H2. unfold path_join, components.
  rewrite (ScriptMain.split_slash_plain _ "" H). change ("" +:+ s) with s.
  rewrite filter_cons_True; [done|].
  apply String.eqb_neq in H1, H2. by rewrite H1, H2.
Qed.

Lemma uploader_slug_head x :
  exists c t, Uploader._slugify x = String c t /\ is_slug_char c = true.
Proof.
  unfold Uploader._slugify. rewrite SlugFacts.collapse_after_sub.
  destruct (SlugFacts.strip_shape (re_sub_class_plus not_slug_char (lower x))
              (SlugFacts.sub_runs_shape false _)) as [H1 _].
  destruct (strip_dash (re_sub_class_plus not_slug_char (lower x)))
    as [|c t]; simpl.
  - by exists "s"%char, "oftware".
  - exists c, t. split; [done|]. simpl in H1.
    destruct (is_dash c); [done|]. by apply andb_true_iff in H1 as [? _].
Qed.

Lemma uploader_slug_no_slash x : has_char "/" (Uploader._slugify x) = false.
Proof.
  assert (H : SlugSpec.slug_shape true (Uploader._slugify x) = true).
  { unfold Uploader._slugify. rewrite SlugFacts.collapse_after_sub.
    destruct (SlugFacts.strip_shape
                (re_sub_class_plus not_slug_char (lower x))
                (SlugFacts.sub_runs_shape false _)) as [H1 _].
    by destruct (strip_dash (re_sub_class_plus not_slug_char (lower x))). }
  by apply (ScriptMain.shape_no_slash true).
Qed.

(** In [main], the reference put into the team file names the package
    file that was written: for a suffix without a slash, and a slug
    without a slash (the slug [_slugify] makes of the title when none is
    given is one), the package file lies in the software directory under
    the name slug and suffix, and the reference is the prefix followed by
    that name. *)
Theorem package_reference_names_file
  (repo_dir : path)
  (software_dir env_slug software_title suffix team_yaml_prefix : string) :
  has_char "/" suffix = false ->
  let slug := software_slug_of env_slug software_title in
  let file := pkg_yaml_path repo_dir software_dir slug suffix in
  (has_char "/" slug = false -> slug +:+ suffix <> "." ->
   file = path_join repo_dir software_dir ++ [slug +:+ suffix]
   /\ ref_path_of team_yaml_prefix file = team_yaml_prefix +:+ slug +:+ suffix)
  /\ (strip_space env_slug = "" ->
      slug = Uploader._slugify software_title
      /\ file = path_join repo_dir software_dir ++ [slug +:+ suffix]
      /\ ref_path_of team_yaml_prefix file
         = team_yaml_prefix +:+ slug +:+ suffix).
Proof.
  intros Hs slug file.
  assert (Hne : slug <> "").
  { unfold slug, software_slug_of.
    destruct (strip_space env_slug); [|done]. simpl.
    by destruct (uploader_slug_head software_title) as (c & t & -> & _). }
  assert (Hgen : has_char "/" slug = false -> slug +:+ suffix <> "." ->
            file = path_join repo_dir software_dir ++ [slug +:+ suffix]
            /\ ref_path_of team_yaml_prefix file
               = team_yaml_prefix +:+ slug +:+ suffix).
  { intros H1 H2.
    assert (E : file = path_join repo_dir software_dir ++ [slug +:+ suffix]).
    { unfold file, pkg_yaml_path. apply path_join_name; [|by destruct slug|done].
      by rewrite has_char_append, H1, Hs. }
    split; [done|]. unfold ref_path_of, name. rewrite E.
    by rewrite last_last. }
  split; [exact Hgen|]. intros He.
  assert (Es : slug = Uploader._slugify software_title).
  { unfold slug, software_slug_of. by rewrite He. }
  split; [done|]. apply Hgen.
  - rewrite Es. apply uploader_slug_no_slash.
  - rewrite Es.
    destruct (uploader_slug_head software_title) as (c & t & -> & Hc).
    simpl. intros [= -> _]. done.
Qed.

Lemma package_reference_names_file_witness :
  pkg_yaml_path ["tmp"; "repo"] "lib/macos/software"
    (software_slug_of "" "Firefox.app") ".package.yml"
  = ["tmp"; "repo"; "lib"; "macos"; "software"; "firefox-app.package.yml"]
  /\ ref_path_of "../lib/macos/software/"
       (pkg_yaml_path ["tmp"; "repo"] "lib/macos/software"
          (software_slug_of "" "Firefox.app") ".package.yml")
     = "../lib/macos/software/firefox-app.package.yml".
Proof.
  destruct (package_reference_names_file ["tmp"; "repo"]
              "lib/macos/software" "" "Firefox.app" ".package.yml"
              "../lib/macos/software/" eq_refl) as [_ H].
  destruct (H eq_refl) as (_ & H1 & H2). split; [exact H1|exact H2].
Defined.

Lemma rstrip_snoc_in cls z d :
  cls d = true -> rstrip cls (z +:+ String d "") = rstrip cls z.
Proof.
  intros H. induction z as [|x z IH]; simpl; [by rewrite H|]. by rewrite IH.
Qed.

(** The branch of [main]: without a prefix it is slug, [-] and version;
    and a slash at the end of the prefix makes no difference. *)
Theorem branch_prefix_slashes (branch_prefix slug version : string) :
  branch_name "" slug version = slug +:+ "-" +:+ version
  /\ (branch_prefix <> "" ->
      branch_name (branch_prefix +:+ "/") slug version
      = branch_name branch_prefix slug version).
Proof.
  split; [done|]. intros H. unfold branch_name.
  rewrite (rstrip_snoc_in is_slash branch_prefix "/" eq_refl).
  by destruct branch_prefix.
Qed.

Lemma branch_prefix_slashes_witness :
  branch_name "autopkg/" "firefox" "128.0" = "autopkg/firefox-128.0"
  /\ branch_name "autopkg/" "firefox" "128.0"
     = branch_name "autopkg" "firefox" "128.0".
Proof.
  split; [reflexivity|].
  exact (proj2 (branch_prefix_slashes "autopkg" "firefox" "128.0")
           ltac:(discriminate)).
Defined.

End Names.

(** ** The body of the pull request *)

Module PrBody.
Import Text Py Importer Policy Names.

#[local] Arguments String.append !s1 s2 /.

(** Splitting at the first slash and joining again gives the text. *)
Lemma split_once_join s :
  str_contains "/" s = true ->
  fst (split_once s) +:+ "/" +:+ snd (split_once s) = s.
Proof.
  induction s as [|c t IH]; [done|].
  change (str_contains "/" (String c t))
    with (String.prefix "/" (String c t) || str_contains "/" t).
  rewrite prefix_strip_eq.
  change (Script.strip_prefix "/" (String c t))
    with (if Ascii.eqb "/" c then Script.strip_prefix "" t else None).
  simpl split_once. rewrite (Ascii.eqb_sym c "/").
  destruct (Ascii.eqb "/" c) eqn:E.
  - apply Ascii.eqb_eq in E. by subst c.
  - simpl. intros H. destruct (split_once t) as [a b]. simpl in *.
    by rewrite (IH H).
Qed.

(** The layout of the body: the heading and an empty line; a changelog
    link and an empty line, to the URL given or, when none is given and
    the slug has a slash, to the release of the version in the GitHub
    repository the slug names; and the three lines of metadata. *)
Theorem pr_body_layout
  (name version software_slug : string) (title_id installer_id : Z)
  (changelog_url : option string) :
  let link u := "[Changelog](" +:+ u +:+ ")" +:+ nl +:+ nl in
  _pr_body name version software_slug title_id installer_id changelog_url
  = "### " +:+ name +:+ " " +:+ version +:+ nl +:+ nl
      +:+ (if given changelog_url then link (default "" changelog_url)
           else if str_contains "/" software_slug
                then link ("https://github.com/" +:+ software_slug
                             +:+ "/releases/tag/" +:+ version)
                else "")
      +:+ "Fleet title ID: `" +:+ pretty title_id +:+ "`" +:+ nl
      +:+ "Fleet installer ID: `" +:+ pretty installer_id +:+ "`" +:+ nl
      +:+ "Software slug: `" +:+ software_slug +:+ "`" +:+ nl.
Proof.
  intros link. unfold _pr_body, link.
  destruct (given changelog_url) eqn:Hg; simpl negb; cbn [andb].
  - rewrite Hg. cbn [app String.concat]. by rewrite !append_assoc.
  - destruct (str_contains "/" software_slug) eqn:Hc.
    + pose proof (split_once_join _ Hc) as Hj.
      destruct (split_once software_slug) as [owner repo].
      cbn [fst snd] in Hj. cbv iota beta.
      assert (Hu : "https://github.com/" +:+ owner +:+ "/" +:+ repo
                     +:+ "/releases/tag/" +:+ version
                   = "https://github.com/" +:+ software_slug
                       +:+ "/releases/tag/" +:+ version).
      { rewrite <- Hj. by rewrite !append_assoc. }
      rewrite Hu.
      change (given (Some ("https://github.com/" +:+ software_slug
                             +:+ "/releases/tag/" +:+ version))) with true.
      cbn [app String.concat default]. unfold id. by rewrite !append_assoc.
    + rewrite Hg. cbn [app String.concat]. by rewrite !append_assoc.
Qed.

End PrBody.

(** ** Writing the package file again *)

Module PackageAgain.
Import Text Py FS Spec Uploader PyFacts FSFacts UploaderYaml.

(** [_write_or_update_package_yaml] reads the file before it writes: a
    file that is there and does not parse stops it with the parser's
    error, although nothing of what is read is used.  When the run
    returns and the parser reads what was written, a second run with the
    same fields returns the store of the first. *)
Theorem package_yaml_again
  {C : Type} (safe_load : C -> option value) (safe_dump : bool -> value -> C)
  (fs : gmap path (node C)) (p : path) (f : package_fields) :
  (forall c, file_at fs p = Some c -> safe_load c = None ->
     _write_or_update_package_yaml safe_load safe_dump fs p f
     = Raise YAMLError)
  /\ (forall fs',
        safe_load (safe_dump false (VDict [("package", VDict (pkg_block f))]))
        <> None ->
        _write_or_update_package_yaml safe_load safe_dump fs p f = Ok fs' ->
        _write_or_update_package_yaml safe_load safe_dump fs' p f = Ok fs').
Proof.
  split.
  - intros c Hf Hl. unfold _write_or_update_package_yaml, _read_yaml.
    rewrite (file_at_exists _ _ _ Hf), (file_at_read _ _ _ Hf). simpl.
    by rewrite Hl.
  - intros fs' Hrt H. unfold _write_or_update_package_yaml in *.
    destruct (_read_yaml safe_load fs p) as [y|]; simpl in H; [|done].
    unfold _write_yaml in *.
    pose proof (write_file_file_at _ _ _ _ H) as Hf.
    apply write_file_ok in H as (Hp & -> & Hd).
    destruct (safe_load (safe_dump false
                (VDict [("package", VDict (pkg_block f))]))) as [v|] eqn:El;
      [|done].
    rewrite (read_yaml_file _ _ _ _ _ Hf El). simpl.
    unfold write_file. destruct p as [|a l]; [done|].
    rewrite lookup_insert_eq.
    assert (Hd' : is_dir (<[a :: l := File (safe_dump false
                    (VDict [("package", VDict (pkg_block f))]))]> fs)
                    (parent (a :: l)) = true).
    { unfold is_dir in *. destruct (parent (a :: l)) as [|b q] eqn:E; [done|].
      rewrite lookup_insert_ne; [done|].
      intros E'. apply (f_equal length) in E'. rewrite <- E in E'.
      unfold parent in E'. rewrite removelast_firstn_len, length_take in E'.
      simpl in E'. lia. }
    rewrite Hd'. by rewrite insert_insert_eq.
Qed.

Lemma package_yaml_again_witness :
  exists fs',
    _write_or_update_package_yaml Plain.load Plain.dump
      Samples.repo_store Samples.firefox_yaml Samples.firefox_fields = Ok fs'
    /\ _write_or_update_package_yaml Plain.load Plain.dump
         fs' Samples.firefox_yaml Samples.firefox_fields = Ok fs'.
Proof.
  assert (Hc : (fun _ => tt) <$> _write_or_update_package_yaml
                 Plain.load Plain.dump Samples.repo_store
                 Samples.firefox_yaml Samples.firefox_fields = Ok tt)
    by (vm_compute; reflexivity).
  destruct (_write_or_update_package_yaml Plain.load Plain.dump
              Samples.repo_store Samples.firefox_yaml Samples.firefox_fields)
    as [fs'|e] eqn:E; [|discriminate Hc].
  exists fs'. split; [reflexivity|].
  exact (proj2 (package_yaml_again Plain.load Plain.dump Samples.repo_store
                  Samples.firefox_yaml Samples.firefox_fields)
           fs' ltac:(discriminate) E).
Defined.

End PackageAgain.
